(** * xsct: gamma-ramp colour temperature, checked against its specification

    A shallow embedding of [src/xsct.c].  The C [double] is rendered as a
    real number (exact arithmetic, [log] and [exp] as [ln] and [exp]; no
    rounding of the operations, no infinities, no NaN; the brightness
    bound is given a second time over every value a double can hold);
    [long] and [int] are integers (signed overflow, undefined in C, does
    not occur in the model), with the casts to [unsigned] and to [unsigned short] written out
    as reductions modulo a power of two.  The X server is a table of gamma
    ramps, one per CRTC of every screen, together with the list of gamma
    requests the program has issued; the globals the program only reads
    after start-up are parameters of the functions that read them and a
    record for the start-up that writes them, the error flag and the two
    output streams are part of the state. *)

From Stdlib Require Import String.
From Stdlib Require Import Reals ZArith List Bool Lia Lra Psatz.
Import ListNotations.

Open Scope Z_scope.

(** ** Constants of the source *)

Definition BRIGHTNESS_DIV : R := 65470.988%R.
Definition MINTEMP : Z := 700.
Definition TEMP_NORM : Z := 6500.
Definition MIN_DELTA : Z := -1000000.
Definition GAMMA_MULT : R := 65535.0%R.
Definition GAMMA_K0GR : R := (-1.47751309139817)%R.
Definition GAMMA_K1GR : R := 0.28590164772055%R.
Definition GAMMA_K0BR : R := (-4.38321650114872)%R.
Definition GAMMA_K1BR : R := 0.6212158769447%R.
Definition GAMMA_K0RB : R := 1.75390204039018%R.
Definition GAMMA_K1RB : R := (-0.1150805671482)%R.
Definition GAMMA_K0GB : R := 1.49221604915144%R.
Definition GAMMA_K1GB : R := (-0.07513509588921)%R.
Definition TOGGLE_DELTA : Z := 200.
Definition EXIT_SUCCESS : Z := 0.
Definition EXIT_FAILURE : Z := 1.

(** bits in [flags] *)
Definition has_h : Z := 1.
Definition has_d : Z := 2.
Definition has_t : Z := 4.

(** ** C conversions *)

(** [(unsigned)x] for a 32-bit [int]. *)
Definition to_unsigned (x : Z) : Z := x mod 2 ^ 32.

(** Conversion of a [double] to an integer type drops the fraction
    (rounds toward zero). *)
Definition Rtrunc (x : R) : Z :=
  if Rle_dec 0 x then Zfloor x else - Zfloor (- x).

(** [(unsigned short int)x]: sixteen bits. *)
Definition to_ushort (x : R) : Z := Rtrunc x mod 2 ^ 16.

(** [(long)x]. *)
Definition to_long (x : R) : Z := Rtrunc x.

(** Comparisons of doubles, as the truth values C computes. *)
Definition Rgtb (x y : R) : bool := if Rgt_dec x y then true else false.
Definition Rltb (x y : R) : bool := if Rlt_dec x y then true else false.
Definition Reqb (x y : R) : bool := if Req_dec_T x y then true else false.

(** [MAX(x, y)] on doubles. *)
Definition MAX (x y : R) : R := if Rgtb x y then x else y.

(** ** Data *)

Record tempstate := mkts { temp : Z; brightness : R }.

Record sgamma := mksg { red : R; green : R; blue : R }.

(** [XRRCrtcGamma]: a table size and three channels of 16-bit entries. *)
Record XRRCrtcGamma := mkgamma {
  gamma_size : Z;
  gamma_red : list Z;
  gamma_green : list Z;
  gamma_blue : list Z
}.

(** A screen is the sequence [xrr_res->crtcs] of its CRTCs, each with the
    gamma table installed on it; the display is the sequence of screens. *)
Definition Screen := list XRRCrtcGamma.
Definition Display := list Screen.

(** Gamma requests sent to the server. *)
Inductive xrequest :=
| GetCrtcGamma (iscreen c : Z)
| SetCrtcGamma (iscreen c : Z) (g : XRRCrtcGamma).

Inductive logkind := Info | Warning | Error.

Inductive outline :=
| Usage
| Estimate (iscreen : Z) (ts : tempstate).

Record World := mkWorld {
  display : Display;
  requests : list xrequest;          (* oldest first *)
  fail : bool;                       (* error flag *)
  stderr : list (logkind * string);
  stdout : list outline
}.

(** ** State passing *)

Definition M (A : Type) : Type := World -> A * World.

Definition ret {A} (a : A) : M A := fun w => (a, w).

Definition bind {A B} (m : M A) (k : A -> M B) : M B :=
  fun w => let (a, w') := m w in k a w'.

Declare Scope prog_scope.
Delimit Scope prog_scope with prog.
Notation "x <- m ;; k" := (bind m (fun x => k))
  (at level 61, m at next level, right associativity) : prog_scope.
Notation "' p <- m ;; k" := (bind m (fun p => k))
  (at level 61, p pattern, m at next level, right associativity) : prog_scope.
Notation "m ;; k" := (bind m (fun _ => k))
  (at level 61, right associativity) : prog_scope.
Open Scope prog_scope.

(** [for (c = lo; c < hi; c++) acc = body(c, acc)] *)
Fixpoint for_iter {A} (n : nat) (c : Z) (body : Z -> A -> M A) (acc : A) : M A :=
  match n with
  | O => ret acc
  | S n' => acc' <- body c acc ;; for_iter n' (c + 1) body acc'
  end.

Definition for_loop {A} (lo hi : Z) (body : Z -> A -> M A) (acc : A) : M A :=
  for_iter (Z.to_nat (hi - lo)) lo body acc.

(** Entry [i] of a C array held as a list; a read past the end yields 0. *)
Definition at_index (l : list Z) (i : Z) : Z := nth (Z.to_nat i) l 0.

Fixpoint set_nth {A} (n : nat) (x : A) (l : list A) : list A :=
  match l, n with
  | [], _ => []
  | _ :: t, O => x :: t
  | h :: t, S n' => h :: set_nth n' x t
  end.

(** ** Logging *)

Definition flog (what : logkind) (fmt : string) : M unit :=
  fun w => (tt, mkWorld (display w) (requests w) (fail w)
                        (stderr w ++ [(what, fmt)]) (stdout w)).

Definition loginfo (fmt : string) : M unit := flog Info fmt.

Definition logwarn (fmt : string) : M unit := flog Warning fmt.

Definition logerror (fmt : string) : M unit :=
  flog Error fmt ;;
  fun w => (tt, mkWorld (display w) (requests w) true (stderr w) (stdout w)).

Definition get_fail : M bool := fun w => (fail w, w).

Definition print (o : outline) : M unit :=
  fun w => (tt, mkWorld (display w) (requests w) (fail w) (stderr w)
                        (stdout w ++ [o])).

Definition usage : M unit := print Usage.

(** ** The display backend (Xlib / XRandR) *)

(** What a lookup outside the tables yields. *)
Definition no_gamma : XRRCrtcGamma := mkgamma 0 [] [] [].

(** The CRTCs of screen [iscreen]. *)
Definition screen_at (d : Display) (iscreen : Z) : Screen :=
  nth (Z.to_nat iscreen) d [].

(** The gamma table of CRTC [c] of a screen. *)
Definition crtc_at (scr : Screen) (c : Z) : XRRCrtcGamma :=
  nth (Z.to_nat c) scr no_gamma.

Definition XScreenCount : M Z :=
  fun w => (Z.of_nat (length (display w)), w).

Definition XRRGetScreenResourcesCurrent (iscreen : Z) : M Screen :=
  fun w => (screen_at (display w) iscreen, w).

Definition XRRGetCrtcGamma (iscreen c : Z) : M XRRCrtcGamma :=
  fun w =>
    (crtc_at (screen_at (display w) iscreen) c,
     mkWorld (display w) (requests w ++ [GetCrtcGamma iscreen c]) (fail w)
             (stderr w) (stdout w)).

Definition XRRGetCrtcGammaSize (iscreen c : Z) : M Z :=
  fun w => (gamma_size (crtc_at (screen_at (display w) iscreen) c), w).

Definition XRRSetCrtcGamma (iscreen c : Z) (g : XRRCrtcGamma) : M unit :=
  fun w =>
    (tt,
     mkWorld (set_nth (Z.to_nat iscreen)
                (set_nth (Z.to_nat c) g (screen_at (display w) iscreen))
                (display w))
             (requests w ++ [SetCrtcGamma iscreen c g]) (fail w)
             (stderr w) (stdout w)).

(** ** The program *)

Definition trimdouble (x a b : R) : R :=
  let buff := [a; x; b] in
  nth (Nat.b2n (Rgtb x a) + Nat.b2n (Rgtb x b)) buff 0%R.

Section Xsct.

(** Globals written only while the arguments and the environment are read,
    before any function below runs. *)
Variable crtc_arg : Z.      (* crtc index, -1 when not given *)
Variable screen_arg : Z.    (* screen index, -1 when not given *)
Variable verbose : bool.
Variable temp_day : Z.      (* default "day" temperature *)
Variable temp_night : Z.    (* default "night" temperature *)

Definition logGamma (sg : sgamma) (b : R) : M unit :=
  loginfo "gamma: [R:%g, G:%g, B:%g], brightness: %g".

Definition getscreengamma (iscreen icrtc : Z) : M (Z * sgamma) :=
  xrr_res <- XRRGetScreenResourcesCurrent iscreen ;;
  let ncrtc := Z.of_nat (length xrr_res) in
  let '(icrtc, ncrtc) :=
    if to_unsigned icrtc <? to_unsigned ncrtc
    then (icrtc, 1)     (* only get temperature of icrtc *)
    else (0, ncrtc)     (* otherwise get all temperatures *) in
  sums <- for_loop icrtc (icrtc + ncrtc)
    (fun c '(gammar, gammag, gammab) =>
       xrr_gamma <- XRRGetCrtcGamma iscreen c ;;
       let gi := gamma_size xrr_gamma - 1 in
       ret ((gammar + IZR (at_index (gamma_red xrr_gamma) gi))%R,
            (gammag + IZR (at_index (gamma_green xrr_gamma) gi))%R,
            (gammab + IZR (at_index (gamma_blue xrr_gamma) gi))%R))
    (0%R, 0%R, 0%R) ;;
  let '(gammar, gammag, gammab) := sums in
  ret (ncrtc, mksg gammar gammag gammab).

(** get screen temp *)
Definition getst (iscreen icrtc : Z) : M tempstate :=
  '(ncrtc, sg) <- getscreengamma iscreen icrtc ;;
  let b := MAX (red sg) (green sg) in
  let b := MAX (blue sg) b in
  '(t, b) <-
    (if Rgtb b 0 && (ncrtc >? 0) then   (* need median? *)
       let sg := mksg (red sg / b) (green sg / b) (blue sg / b) in
       let b := (b / IZR ncrtc)%R in
       let b := (b / BRIGHTNESS_DIV)%R in
       let b := trimdouble b 0 1 in
       (if verbose then logGamma sg b else ret tt) ;;
       let gdelta := (blue sg - red sg)%R in
       ret
         (if Rltb gdelta 0 then
            if Rgtb (blue sg) 0 then
              (exp ((green sg + 1 + gdelta - (GAMMA_K0GR + GAMMA_K0BR)) /
                    (GAMMA_K1GR + GAMMA_K1BR)) + IZR MINTEMP)%R
            else
              if Rgtb (green sg) 0
              then (exp ((green sg - GAMMA_K0GR) / GAMMA_K1GR) + IZR MINTEMP)%R
              else IZR MINTEMP
          else
            (exp ((green sg + 1 - gdelta - (GAMMA_K0GB + GAMMA_K0RB)) /
                  (GAMMA_K1GB + GAMMA_K1RB)) + IZR (TEMP_NORM - MINTEMP))%R,
          b)
     else ret (0%R, trimdouble b 0 1)) ;;
  ret (mkts (to_long (t + 0.5)) b).

(** The multipliers [setst] derives from the temperature. *)
Definition setst_gamma (ts_temp : Z) : sgamma :=
  let t := IZR ts_temp in
  if ts_temp <? TEMP_NORM then
    if ts_temp >? MINTEMP then
      let g := ln (t - IZR MINTEMP) in
      mksg 1
           (trimdouble (GAMMA_K0GR + GAMMA_K1GR * g) 0 1)
           (trimdouble (GAMMA_K0BR + GAMMA_K1BR * g) 0 1)
    else mksg 1 0 0
  else
    let g := ln (t - IZR (TEMP_NORM - MINTEMP)) in
    mksg (trimdouble (GAMMA_K0RB + GAMMA_K1RB * g) 0 1)
         (trimdouble (GAMMA_K0GB + GAMMA_K1GB * g) 0 1)
         1.

(** Entry [i] of a channel of the table of [size] entries. *)
Definition ramp_entry (b mult : R) (size i : Z) : Z :=
  let g := (GAMMA_MULT * b * IZR i / IZR size)%R in
  to_ushort (g * mult + 0.5).

(** The table [setst] fills for one CRTC: [XRRAllocGamma(size)] and the loop
    over [i]. *)
Definition setst_ramp (sg : sgamma) (b : R) (size : Z) : XRRCrtcGamma :=
  let idx := map Z.of_nat (seq 0 (Z.to_nat size)) in
  mkgamma size
          (map (ramp_entry b (red sg) size) idx)
          (map (ramp_entry b (green sg) size) idx)
          (map (ramp_entry b (blue sg) size) idx).

(** set screen temp *)
Definition setst (iscreen icrtc : Z) (ts : tempstate) : M unit :=
  xrr_res <- XRRGetScreenResourcesCurrent iscreen ;;
  let b := trimdouble (brightness ts) 0 1 in
  let ncrtc := Z.of_nat (length xrr_res) in
  let sg := setst_gamma (temp ts) in
  (if verbose then logGamma sg b else ret tt) ;;
  let '(icrtc, ncrtc) :=
    if to_unsigned icrtc <? to_unsigned ncrtc
    then (icrtc, 1)
    else (0, ncrtc) in
  for_loop icrtc (icrtc + ncrtc)
    (fun c (_ : unit) =>
       size <- XRRGetCrtcGammaSize iscreen c ;;
       XRRSetCrtcGamma iscreen c (setst_ramp sg b size))
    tt.

(** checks if temperature is in bounds and corrects it if needed *)
Definition boundtemp (temp dfl : Z) (what : string) : M Z :=
  if temp <=? 0 then
    logwarn "temperatures of 0 and below cannot be displayed (%s)" ;;
    ret (if dfl <? 0 then TEMP_NORM else dfl)
  else if temp <? MINTEMP then
    logwarn "temperatures below %d cannot be displayed (%s)" ;;
    ret (if dfl <? 0 then MINTEMP else dfl)
  else ret temp.

(** checks if the brightness is in bounds and corrects it if needed *)
Definition boundbrightness (brightness : R) : M R :=
  if Rltb brightness 0 then
    logwarn "brightness values below 0.0 cannot be displayed" ;;
    ret 0%R
  else if Rgtb brightness 1 then
    logwarn "brightness values above 1.0 cannot be displayed" ;;
    ret 1%R
  else ret brightness.





(** checks the bounds of tempstate members and corrects them if needed.
    The two results are dropped, as in the source: [ts] is handed back as
    it came. *)
Definition boundts (ts : tempstate) (twhat : string) : M tempstate :=
  boundtemp (temp ts) (-1) twhat ;;
  boundbrightness (brightness ts) ;;
  ret ts.

Definition errorargscreen (nscreen : Z) : M unit :=
  if nscreen >? 1
  then logerror "invalid screen index '%d', expected 0..%d"
  else logerror "invalid screen index '%d', expected 0".

(** Toggles the temperature between temp_night/temp_day for screens in the
    interval [0, nscreen). *)
Definition toggledaynight (nscreen : Z) : M unit :=
  for_loop 0 nscreen
    (fun i (_ : unit) =>
       ts <- getst i crtc_arg ;;
       let ts := if temp ts >? temp_day - TOGGLE_DELTA
                 then mkts temp_night (brightness ts)
                 else mkts temp_day (brightness ts) in
       setst i crtc_arg ts)
    tt.

Definition printestimate (first last : Z) : M unit :=
  for_loop first (last + 1)
    (fun i (_ : unit) =>
       ts <- getst i crtc_arg ;;
       print (Estimate i ts))
    tt.

Definition regularsct (ts : tempstate) (first last : Z) : M unit :=
  ts <- (if temp ts =? 0
         then ret (mkts temp_day (brightness ts))
         else boundts ts "specified by user") ;;
  for_loop first (last + 1)
    (fun i (_ : unit) => setst i crtc_arg ts)
    tt.

Definition deltasct (ts : tempstate) (first last : Z) : M unit :=
  if (temp ts =? MIN_DELTA) || Reqb (brightness ts) (IZR MIN_DELTA)
  then logerror "temperature and brightness delta must both be specified"
  else
    for_loop first (last + 1)
      (fun i (_ : unit) =>
         dts <- getst i crtc_arg ;;
         let dts := mkts (temp dts + temp ts)
                         (brightness dts + brightness ts) in
         dts <- boundts dts "specified by user" ;;
         setst i crtc_arg dts)
      tt.

(** [main], from the point where [collectargs] has produced [flags] and
    [ts] and [checkenvironment] has run. *)
Definition main (flags : Z) (ts : tempstate) : M Z :=
  nscreen <- XScreenCount ;;
  f <- get_fail ;;
  (if negb (Z.land flags has_h =? 0) then usage
   else if negb f && (screen_arg >=? nscreen) then errorargscreen nscreen
   else
     let firstscreen := 0 in
     let lastscreen := nscreen - 1 in
     (if negb (Z.land flags has_t =? 0)
      then toggledaynight nscreen else ret tt) ;;
     let ts :=
       if Reqb (brightness ts) (IZR MIN_DELTA) && (Z.land flags has_d =? 0)
       then mkts (temp ts) 1
       else ts in
     let '(firstscreen, lastscreen) :=
       if screen_arg >=? 0 then (screen_arg, screen_arg)
       else (firstscreen, lastscreen) in
     if (temp ts =? MIN_DELTA) && (Z.land flags has_d =? 0)
     then printestimate firstscreen lastscreen
     else if Z.land flags has_d =? 0
          then regularsct ts firstscreen lastscreen
          else deltasct ts firstscreen lastscreen) ;;
  f <- get_fail ;;
  ret (if f then EXIT_FAILURE else EXIT_SUCCESS).

End Xsct.

(** ** Start-up: the arguments and the environment *)

(** The globals [collectargs] and [checkenvironment] write, with the values
    they are initialised to. *)
Module Globals.

Record t := mk {
  crtc_arg : Z;       (* crtc index *)
  screen_arg : Z;     (* screen index *)
  verbose : bool;
  temp_day : Z;       (* default "day" temperature *)
  temp_night : Z      (* default "night" temperature *)
}.

Definition initial : t := mk (-1) (-1) false TEMP_NORM 4500.

End Globals.

Definition XSCT_TEMPERATURE_DAY : string := "XSCT_TEMPERATURE_DAY".
Definition XSCT_TEMPERATURE_NIGHT : string := "XSCT_TEMPERATURE_NIGHT".

(** strcmp for [argv[i]] *)
Definition IS (arg opt : string) : bool := String.eqb arg opt.

(** [argv[i]] *)
Definition arg_at (argv : list string) (i : Z) : string :=
  nth (Z.to_nat i) argv EmptyString.

Section Startup.

(** The C library and Xlib calls of the start-up: [atoi] and [atof];
    [strtol] in base 10, [None] when nothing was converted ([endptr == p]);
    [getenv], [None] for NULL; whether [XOpenDisplay] returned a
    connection, and [errno] after it. *)
Variable atoi : string -> Z.
Variable atof : string -> R.
Variable strtol : string -> option Z.
Variable getenv : string -> option string.
Variable XOpenDisplay : bool.
Variable errno : Z.

(** get the crtc or screen index argument *)
Definition collectindex (argv : list string) (argc i : Z) (g : Globals.t) :
    M (bool * Globals.t) :=
  let iscrtc := IS (arg_at argv i) "-c" || IS (arg_at argv i) "--crtc" in
  let i := i + 1 in   (* check next argument for the index *)
  if i <? argc then
    ret (true,
         if iscrtc
         then Globals.mk (atoi (arg_at argv i)) (Globals.screen_arg g)
                (Globals.verbose g) (Globals.temp_day g) (Globals.temp_night g)
         else Globals.mk (Globals.crtc_arg g) (atoi (arg_at argv i))
                (Globals.verbose g) (Globals.temp_day g) (Globals.temp_night g))
  else
    logerror "'%s' is missing %s index argument" ;;
    ret (false, g).

(** The loop of [collectargs] from index [i] on, for at most [n] rounds; a
    round that ends in [break] returns at once. *)
Fixpoint collectargs_loop (n : nat) (argc : Z) (argv : list string) (i : Z)
    (flags : Z) (g : Globals.t) (ts : tempstate) :
    M (Z * Globals.t * tempstate) :=
  match n with
  | O => ret (flags, g, ts)
  | S n' =>
    if i <? argc then
      let a := arg_at argv i in
      if IS a "-h" || IS a "--help" then
        ret (Z.lor flags has_h, g, ts)    (* show usage; done *)
      else if IS a "-v" || IS a "--verbose" then
        collectargs_loop n' argc argv (i + 1) flags
          (Globals.mk (Globals.crtc_arg g) (Globals.screen_arg g) true
             (Globals.temp_day g) (Globals.temp_night g))
          ts
      else if IS a "-d" || IS a "--delta" then
        collectargs_loop n' argc argv (i + 1) (Z.lor flags has_d) g ts
      else if IS a "-t" || IS a "--toggle" then
        collectargs_loop n' argc argv (i + 1) (Z.lor flags has_t) g ts
      else if IS a "-s" || IS a "--screen" || IS a "-c" || IS a "--crtc" then
        '(ok, g) <- collectindex argv argc i g ;;
        if negb ok                        (* missing index argument? *)
        then ret (Z.lor flags has_h, g, ts)
        else collectargs_loop n' argc argv (i + 1 + 1) flags g ts
      else if temp ts =? MIN_DELTA then   (* have default temperature? *)
        collectargs_loop n' argc argv (i + 1) flags g
          (mkts (atoi a) (brightness ts))
      else if Reqb (brightness ts) (IZR MIN_DELTA) then
        collectargs_loop n' argc argv (i + 1) flags g
          (mkts (temp ts) (atof a))
      else                                (* unknown argument *)
        logerror "unrecognized argument '%s'" ;;
        collectargs_loop n' argc argv (i + 1) (Z.lor flags has_h) g ts
    else ret (flags, g, ts)
  end.

(** collect the CLI arguments into [flags]; the index runs from 1 and grows
    in every round, so [argc] rounds are enough. *)
Definition collectargs (argc : Z) (argv : list string) (ts : tempstate)
    (g : Globals.t) : M (Z * Globals.t * tempstate) :=
  collectargs_loop (Z.to_nat argc) argc argv 1 0 g ts.

(** open connection to the X server; [false] stands for the
    [exit(EXIT_FAILURE)] of a failed connection. *)
Definition opendisplay : M bool :=
  if negb XOpenDisplay then
    (if negb (errno =? 0) then logerror "%s: %s" else logerror "%s") ;;
    loginfo "ensure DISPLAY environment variable is set correctly" ;;
    ret false
  else ret true.

Definition envtotemp (p : string) (dfl : Z) (envn : string) : M Z :=
  x <- match strtol p with
       | None =>                          (* nothing was converted? *)
         logwarn "invalid value for %s environment variable (expect integer)" ;;
         ret dfl
       | Some x => ret x
       end ;;
  boundtemp x dfl envn.

(** Check the environment for the variables XSCT_TEMPERATURE_DAY and
    XSCT_TEMPERATURE_NIGHT and use them as defaults (if any). *)
Definition checkenvironment (g : Globals.t) : M Globals.t :=
  g <- match getenv XSCT_TEMPERATURE_DAY with
       | Some p =>
         x <- envtotemp p (Globals.temp_day g) XSCT_TEMPERATURE_DAY ;;
         ret (Globals.mk (Globals.crtc_arg g) (Globals.screen_arg g)
                (Globals.verbose g) x (Globals.temp_night g))
       | None => ret g
       end ;;
  match getenv XSCT_TEMPERATURE_NIGHT with
  | Some p =>
    x <- envtotemp p (Globals.temp_night g) XSCT_TEMPERATURE_NIGHT ;;
    ret (Globals.mk (Globals.crtc_arg g) (Globals.screen_arg g)
           (Globals.verbose g) (Globals.temp_day g) x)
  | None => ret g
  end.

(** [main] from its first line: the connection, the arguments and the
    environment, then [main] above with the globals as they stand.  The
    number of screens, which the source asks for before it reads the
    arguments, is read from the display at the head of [main] above;
    nothing in between touches the display. *)
Definition xsct (argc : Z) (argv : list string) : M Z :=
  let ts := mkts MIN_DELTA (IZR MIN_DELTA) in
  ok <- opendisplay ;;
  if negb ok then ret EXIT_FAILURE
  else
    '(flags, g, ts) <- collectargs argc argv ts Globals.initial ;;
    g <- checkenvironment g ;;
    main (Globals.crtc_arg g) (Globals.screen_arg g) (Globals.verbose g)
         (Globals.temp_day g) (Globals.temp_night g) flags ts.

End Startup.

(** * Vocabulary of the statements

    Functions and predicates the lemmas below are stated with: what a loop
    of the program computes, described on the display, and the displays the
    examples run on. *)

(** ** Indices and controller selection *)

(** The indices a loop of [n] rounds visits from [lo]. *)
Definition seqZ (lo : Z) (n : nat) : list Z :=
  map (fun k => lo + Z.of_nat k) (seq 0 n).

(** The CRTC range both [getscreengamma] and [setst] settle on: first index
    and count. *)
Definition crtc_range (icrtc ncrtc : Z) : Z * Z :=
  if to_unsigned icrtc <? to_unsigned ncrtc then (icrtc, 1) else (0, ncrtc).

(** The CRTC indices [getscreengamma] and [setst] visit on a screen. *)
Definition selected_crtcs (icrtc : Z) (scr : Screen) : list Z :=
  let '(first, n) := crtc_range icrtc (Z.of_nat (length scr)) in
  seqZ first (Z.to_nat n).

(** The CRTC indices the selection rule, read on signed integers, names. *)
Definition chosen_crtcs (icrtc : Z) (scr : Screen) : list Z :=
  if (0 <=? icrtc) && (icrtc <? Z.of_nat (length scr))
  then [icrtc]
  else seqZ 0 (length scr).

(** ** Worlds *)

(** The world after further requests were sent. *)
Definition add_requests (w : World) (rs : list xrequest) : World :=
  mkWorld (display w) (requests w ++ rs) (fail w) (stderr w) (stdout w).

(** The world after further lines were logged. *)
Definition add_stderr (w : World) (ls : list (logkind * string)) : World :=
  mkWorld (display w) (requests w) (fail w) (stderr w ++ ls) (stdout w).

(** Worlds that differ in the log at most. *)
Definition same_effects (w1 w2 : World) : Prop :=
  display w1 = display w2 /\ requests w1 = requests w2 /\
  fail w1 = fail w2 /\ stdout w1 = stdout w2.

(** The screen a request is about. *)
Definition request_screen (r : xrequest) : Z :=
  match r with
  | GetCrtcGamma iscreen _ => iscreen
  | SetCrtcGamma iscreen _ _ => iscreen
  end.

(** The line [logGamma] writes. *)
Definition gamma_line : list (logkind * string) :=
  [(Info, "gamma: [R:%g, G:%g, B:%g], brightness: %g"%string)].

(** ** Reading a screen *)

(** One round of the summing loop of [getscreengamma]. *)
Definition add_peak (scr : Screen) (acc : R * R * R) (c : Z) : R * R * R :=
  let '(gammar, gammag, gammab) := acc in
  let xrr_gamma := crtc_at scr c in
  let gi := gamma_size xrr_gamma - 1 in
  ((gammar + IZR (at_index (gamma_red xrr_gamma) gi))%R,
   (gammag + IZR (at_index (gamma_green xrr_gamma) gi))%R,
   (gammab + IZR (at_index (gamma_blue xrr_gamma) gi))%R).

(** The channel sums over the CRTCs [cs], from [acc]. *)
Definition peak_sums (scr : Screen) (cs : list Z) (acc : R * R * R) : R * R * R :=
  fold_left (add_peak scr) cs acc.

(** The channel sums [getscreengamma] hands to [getst] for a screen. *)
Definition screen_sums (scr : Screen) (icrtc : Z) : Z * sgamma :=
  let '(first, n) := crtc_range icrtc (Z.of_nat (length scr)) in
  let '(gammar, gammag, gammab) :=
    peak_sums scr (seqZ first (Z.to_nat n)) (0%R, 0%R, 0%R) in
  (n, mksg gammar gammag gammab).

(** What [getst] makes of the channel sums of [ncrtc] CRTCs. *)
Definition estimate (ncrtc : Z) (sg : sgamma) : tempstate :=
  let b := MAX (blue sg) (MAX (red sg) (green sg)) in
  if Rgtb b 0 && (ncrtc >? 0) then
    let r := (red sg / b)%R in
    let g := (green sg / b)%R in
    let bl := (blue sg / b)%R in
    let gdelta := (bl - r)%R in
    let t :=
      if Rltb gdelta 0 then
        if Rgtb bl 0 then
          (exp ((g + 1 + gdelta - (GAMMA_K0GR + GAMMA_K0BR)) /
                (GAMMA_K1GR + GAMMA_K1BR)) + IZR MINTEMP)%R
        else if Rgtb g 0
             then (exp ((g - GAMMA_K0GR) / GAMMA_K1GR) + IZR MINTEMP)%R
             else IZR MINTEMP
      else
        (exp ((g + 1 - gdelta - (GAMMA_K0GB + GAMMA_K0RB)) /
              (GAMMA_K1GB + GAMMA_K1RB)) + IZR (TEMP_NORM - MINTEMP))%R in
    mkts (to_long (t + 0.5)) (trimdouble (b / IZR ncrtc / BRIGHTNESS_DIV) 0 1)
  else
    mkts (to_long (0 + 0.5)) (trimdouble b 0 1).

(** The state [getst] reports for a screen. *)
Definition screen_read (icrtc : Z) (scr : Screen) : tempstate :=
  let '(n, sg) := screen_sums scr icrtc in estimate n sg.

(** The requests [getscreengamma] sends for a screen. *)
Definition get_requests (iscreen : Z) (scr : Screen) (icrtc : Z) : list xrequest :=
  let '(first, n) := crtc_range icrtc (Z.of_nat (length scr)) in
  map (GetCrtcGamma iscreen) (seqZ first (Z.to_nat n)).

(** The line [getst] logs for a screen when verbose. *)
Definition read_log (verbose : bool) (icrtc : Z) (scr : Screen)
    : list (logkind * string) :=
  let '(n, sg) := screen_sums scr icrtc in
  if verbose && (Rgtb (MAX (blue sg) (MAX (red sg) (green sg))) 0 && (n >? 0))
  then gamma_line else [].

(** ** Writing a screen *)

(** The value rounded into entry [i]. *)
Definition ramp_value (b mult : R) (size i : Z) : R :=
  (GAMMA_MULT * b * IZR i / IZR size * mult + 0.5)%R.

(** One round of the writing loop of [setst]. *)
Definition write_crtc (sg : sgamma) (b : R) (scr : Screen) (c : Z) : Screen :=
  set_nth (Z.to_nat c) (setst_ramp sg b (gamma_size (crtc_at scr c))) scr.

(** The screen after the CRTCs [cs] were written. *)
Definition write_crtcs (sg : sgamma) (b : R) (cs : list Z) (scr : Screen) : Screen :=
  fold_left (write_crtc sg b) cs scr.

(** The requests the writing loop of [setst] sends for the CRTCs [cs]. *)
Definition set_requests (sg : sgamma) (b : R) (iscreen : Z) (scr : Screen)
    (cs : list Z) : list xrequest :=
  map (fun c => SetCrtcGamma iscreen c
                  (setst_ramp sg b (gamma_size (crtc_at scr c)))) cs.

(** The screen after [setst] wrote state [ts] to it. *)
Definition screen_write (icrtc : Z) (ts : tempstate) (scr : Screen) : Screen :=
  write_crtcs (setst_gamma (temp ts)) (trimdouble (brightness ts) 0 1)
              (selected_crtcs icrtc scr) scr.

(** The requests [setst] sends to write state [ts] to a screen. *)
Definition write_requests (icrtc : Z) (ts : tempstate) (iscreen : Z)
    (scr : Screen) : list xrequest :=
  set_requests (setst_gamma (temp ts)) (trimdouble (brightness ts) 0 1)
               iscreen scr (selected_crtcs icrtc scr).

(** ** The modes *)

(** The display after a pass over screens [c], [c+1], ... that replaces
    screen [i] by [F i] of it. *)
Definition over_screens (F : Z -> Screen -> Screen) (cs : list Z) (d : Display)
    : Display :=
  fold_left (fun d i => set_nth (Z.to_nat i) (F i (screen_at d i)) d) cs d.

(** The warnings [boundts] logs. *)
Definition bound_warnings (ts : tempstate) : list (logkind * string) :=
  (if temp ts <=? 0
   then [(Warning, "temperatures of 0 and below cannot be displayed (%s)"%string)]
   else if temp ts <? MINTEMP
        then [(Warning, "temperatures below %d cannot be displayed (%s)"%string)]
        else []) ++
  (if Rltb (brightness ts) 0
   then [(Warning, "brightness values below 0.0 cannot be displayed"%string)]
   else if Rgtb (brightness ts) 1
        then [(Warning, "brightness values above 1.0 cannot be displayed"%string)]
        else []).

(** The state toggle mode writes when it has read [cur]. *)
Definition toggle_state (temp_day temp_night : Z) (cur : tempstate) : tempstate :=
  mkts (if temp cur >? temp_day - TOGGLE_DELTA then temp_night else temp_day)
       (brightness cur).

(** The state delta mode writes when it has read [cur]: the plain sum. *)
Definition delta_state (ts cur : tempstate) : tempstate :=
  mkts (temp cur + temp ts) (brightness cur + brightness ts).

(** The requests of a mode that reads a screen and then writes [next] of
    what it read. *)
Definition read_write_requests (crtc_arg : Z) (next : tempstate -> tempstate)
    (i : Z) (scr : Screen) : list xrequest :=
  get_requests i scr crtc_arg ++
  write_requests crtc_arg (next (screen_read crtc_arg scr)) i scr.



(** ** The arguments and the environment *)

(** The bits [collectargs] sets in [flags]. *)
Definition flag_bits : Z := Z.lor has_h (Z.lor has_d has_t).

(** An argument that is one of the options. *)
Definition is_option (a : string) : bool :=
  IS a "-h" || IS a "--help" || IS a "-v" || IS a "--verbose" ||
  IS a "-d" || IS a "--delta" || IS a "-t" || IS a "--toggle" ||
  IS a "-s" || IS a "--screen" || IS a "-c" || IS a "--crtc".

(** The default a variable of the environment leads to: its value when it
    reads as an integer of at least MINTEMP, the default as it was in every
    other case. *)
Definition env_default (strtol : string -> option Z) (value : option string)
    (dfl : Z) : Z :=
  match value with
  | None => dfl
  | Some p =>
    match strtol p with
    | Some x => if MINTEMP <=? x then x else dfl
    | None => dfl
    end
  end.

(** Lines that are all warnings. *)
Definition warnings_only (ls : list (logkind * string)) : Prop :=
  forall l, In l ls -> fst l = Warning.

(** ** The shape of a ramp *)

(** A channel that never decreases with the index. *)
Definition nondecreasing (l : list Z) : Prop :=
  forall i j, 0 <= i -> i <= j -> j < Z.of_nat (length l) ->
    at_index l i <= at_index l j.

(** The last entry of a channel is its largest. *)
Definition peak_last (l : list Z) : Prop :=
  forall i, 0 <= i < Z.of_nat (length l) ->
    at_index l i <= at_index l (Z.of_nat (length l) - 1).

(** The last entry of a channel written with multiplier [mult] at
    brightness 1.0. *)
Definition peak (size : Z) (mult : R) : Z := ramp_entry 1 mult size (size - 1).

(** The factor of the last entry: [GAMMA_MULT * (size - 1) / size]. *)
Definition gain (size : Z) : R := (65535 * IZR (size - 1) / IZR size)%R.

(** A gamma table as the server expects it: every channel has as many
    entries as the size says, each an unsigned 16-bit value, and no channel
    decreases with the index. *)
Definition well_formed_gamma (g : XRRCrtcGamma) : Prop :=
  (length (gamma_red g) = Z.to_nat (gamma_size g) /\
   length (gamma_green g) = Z.to_nat (gamma_size g) /\
   length (gamma_blue g) = Z.to_nat (gamma_size g)) /\
  (Forall (fun x => 0 <= x <= 65535) (gamma_red g) /\
   Forall (fun x => 0 <= x <= 65535) (gamma_green g) /\
   Forall (fun x => 0 <= x <= 65535) (gamma_blue g)) /\
  (nondecreasing (gamma_red g) /\ nondecreasing (gamma_green g) /\
   nondecreasing (gamma_blue g)).

(** ** Writing and reading back *)

(** A display of one screen with one CRTC, [g0] installed on it. *)
Definition one_crtc_world (g0 : XRRCrtcGamma) : World :=
  mkWorld [[g0]] [] false [] [].

(** The temperature [getst] reads after [setst] wrote temperature [t] at
    brightness 1.0. *)
Definition roundtrip (g0 : XRRCrtcGamma) (t : Z) : Z :=
  temp (fst (getst false 0 (-1)
               (snd (setst false 0 (-1) (mkts t 1) (one_crtc_world g0))))).

(** The brightness [getst] reads after [setst] wrote temperature [t] at
    brightness [b]. *)
Definition brightness_roundtrip (g0 : XRRCrtcGamma) (t : Z) (b : R) : R :=
  brightness (fst (getst false 0 (-1)
                     (snd (setst false 0 (-1) (mkts t b) (one_crtc_world g0))))).

(** ** Bounds on the exponential, in fixed point *)

(** Fixed-point scale. *)
Definition fx_scale : Z := 10 ^ 40.

(** [k] squarings of [a / fx_scale], each rounded down. *)
Fixpoint sq_iter (k : nat) (a : Z) : Z :=
  match k with
  | O => a
  | S k' => sq_iter k' (a * a / fx_scale)
  end.

(** A lower bound of [exp (p / fx_scale)], as a multiple of [1 / fx_scale]. *)
Definition exp_lower (k : nat) (p : Z) : Z :=
  sq_iter k (fx_scale + p / 2 ^ Z.of_nat k).

(** [ln c <= m / d], decided in fixed point with [k] squarings. *)
Definition ln_upper_check (k : nat) (c m d : Z) : bool :=
  (0 <? c) && (0 <? d) && (fx_scale mod d =? 0) &&
  (0 <=? fx_scale + m * (fx_scale / d) / 2 ^ Z.of_nat k) &&
  (c * fx_scale <=? exp_lower k (m * (fx_scale / d))).

(** [m / d <= ln c], decided in fixed point with [k] squarings. *)
Definition ln_lower_check (k : nat) (c m d : Z) : bool :=
  (0 <? c) && (0 <? d) && (fx_scale mod d =? 0) &&
  (0 <=? fx_scale + - (m * (fx_scale / d)) / 2 ^ Z.of_nat k) &&
  (fx_scale <=? c * exp_lower k (- (m * (fx_scale / d)))).

(** ** Displays of the examples *)

(** A table of 256 entries written at brightness 1.0 with multipliers
    {1, 1, 1}. *)
Definition unit_ramp : XRRCrtcGamma := setst_ramp (mksg 1 1 1) 1 256.

(** A screen with two CRTCs, nothing installed on them. *)
Definition two_crtc_world : World :=
  mkWorld [[no_gamma; no_gamma]] [] false [] [].

(** A CRTC with the 256-entry table [setst] installs for the temperature
    700 at brightness 1.0: red only. *)
Definition red_crtc : XRRCrtcGamma := setst_ramp (setst_gamma 700) 1 256.

(** The display with that CRTC alone. *)
Definition red_world : World := mkWorld [[red_crtc]] [] false [] [].

(** Two screens: one CRTC with nothing installed, and the red CRTC. *)
Definition two_screen_world : World :=
  mkWorld [[no_gamma]; [red_crtc]] [] false [] [].

(** A screen with two CRTCs that both carry the table [unit_ramp]. *)
Definition two_ramp_world : World :=
  mkWorld [[unit_ramp; unit_ramp]] [] false [] [].

(** A CRTC with the 256-entry table [setst] installs for the temperature
    6500 at brightness 1.0. *)
Definition day_crtc : XRRCrtcGamma := setst_ramp (setst_gamma 6500) 1 256.

(** Two screens: one at the day temperature, one at 700 K. *)
Definition day_night_world : World :=
  mkWorld [[day_crtc]; [red_crtc]] [] false [] [].

(** A CRTC whose table has a single entry. *)
Definition single_entry_crtc : XRRCrtcGamma := mkgamma 1 [0] [0] [0].

(** The C library of the examples: what [atoi], [strtol] and [getenv] give
    on the strings the examples use. *)
Definition example_atoi (s : string) : Z :=
  if String.eqb s "5000" then 5000
  else if String.eqb s "-1000000" then -1000000
  else 0.

Definition example_atof (s : string) : R :=
  if String.eqb s "0.8" then 0.8%R else 0%R.

Definition example_strtol (s : string) : option Z :=
  if String.eqb s "3500" then Some 3500 else None.

Definition example_getenv (name : string) : option string :=
  if String.eqb name XSCT_TEMPERATURE_NIGHT then Some "3500"%string else None.

(** * Properties *)

(** ** Comparisons, clamping and conversions *)

Lemma Rgtb_true (x y : R) : (x > y)%R -> Rgtb x y = true.
Proof. intro H. unfold Rgtb. destruct (Rgt_dec x y); [reflexivity | contradiction]. Qed.

Lemma Rgtb_false (x y : R) : (x <= y)%R -> Rgtb x y = false.
Proof. intro H. unfold Rgtb. destruct (Rgt_dec x y); [lra | reflexivity]. Qed.

Lemma Rltb_true (x y : R) : (x < y)%R -> Rltb x y = true.
Proof. intro H. unfold Rltb. destruct (Rlt_dec x y); [reflexivity | contradiction]. Qed.

Lemma Rltb_false (x y : R) : (y <= x)%R -> Rltb x y = false.
Proof. intro H. unfold Rltb. destruct (Rlt_dec x y); [lra | reflexivity]. Qed.

Lemma Reqb_true (x y : R) : x = y -> Reqb x y = true.
Proof. intro H. unfold Reqb. destruct (Req_dec_T x y); [reflexivity | contradiction]. Qed.

Lemma Reqb_false (x y : R) : x <> y -> Reqb x y = false.
Proof. intro H. unfold Reqb. destruct (Req_dec_T x y); [contradiction | reflexivity]. Qed.

Lemma MAX_l (x y : R) : (y <= x)%R -> MAX x y = x.
Proof.
  intro H. unfold MAX, Rgtb. destruct (Rgt_dec x y); [reflexivity | lra].
Qed.

Lemma MAX_r (x y : R) : (x <= y)%R -> MAX x y = y.
Proof.
  intro H. unfold MAX, Rgtb. destruct (Rgt_dec x y); [lra | reflexivity].
Qed.

Lemma trimdouble_low (x a b : R) : (x <= a)%R -> (a <= b)%R -> trimdouble x a b = a.
Proof.
  intros H1 H2. unfold trimdouble.
  rewrite (Rgtb_false x a), (Rgtb_false x b) by lra. reflexivity.
Qed.

Lemma trimdouble_mid (x a b : R) : (a < x)%R -> (x <= b)%R -> trimdouble x a b = x.
Proof.
  intros H1 H2. unfold trimdouble.
  rewrite (Rgtb_true x a), (Rgtb_false x b) by lra. reflexivity.
Qed.

Lemma trimdouble_high (x a b : R) : (b < x)%R -> (a <= b)%R -> trimdouble x a b = b.
Proof.
  intros H1 H2. unfold trimdouble.
  rewrite (Rgtb_true x a), (Rgtb_true x b) by lra. reflexivity.
Qed.

(** A clamped value lies between the bounds. *)
Lemma trimdouble_range (x a b : R) :
  (a <= b)%R -> (a <= trimdouble x a b <= b)%R.
Proof.
  intro Hab.
  destruct (Rle_dec x a) as [Hxa | Hxa].
  - rewrite trimdouble_low by lra. lra.
  - destruct (Rle_dec x b) as [Hxb | Hxb].
    + rewrite trimdouble_mid by lra. lra.
    + rewrite trimdouble_high by lra. lra.
Qed.

Lemma Rtrunc_nonneg (x : R) : (0 <= x)%R -> Rtrunc x = Zfloor x.
Proof. intro H. unfold Rtrunc. destruct (Rle_dec 0 x); [reflexivity | contradiction]. Qed.

Lemma Rtrunc_eq (z : Z) (x : R) :
  0 <= z -> (IZR z <= x < IZR z + 1)%R -> Rtrunc x = z.
Proof.
  intros Hz Hx. rewrite Rtrunc_nonneg.
  - apply Zfloor_eq. exact Hx.
  - apply IZR_le in Hz. lra.
Qed.

Lemma to_ushort_eq (z : Z) (x : R) :
  0 <= z < 2 ^ 16 -> (IZR z <= x < IZR z + 1)%R -> to_ushort x = z.
Proof.
  intros Hz Hx. unfold to_ushort.
  rewrite (Rtrunc_eq z) by (lia || exact Hx).
  apply Z.mod_small. exact Hz.
Qed.

(** Below 65536 the conversion to sixteen bits is the integer part. *)
Lemma to_ushort_floor (x : R) :
  (0 <= x < 65536)%R -> to_ushort x = Zfloor x.
Proof.
  intro Hx. apply to_ushort_eq.
  - pose proof (Zfloor_bound x) as Hb.
    split.
    + apply Zfloor_lub. simpl. lra.
    + apply lt_IZR. change (IZR (2 ^ 16)) with 65536%R. lra.
  - apply Zfloor_bound.
Qed.

(** ** The ramp [setst] writes *)

Lemma at_index_ramp (f : Z -> Z) (size i : Z) :
  0 <= i < size ->
  at_index (map f (map Z.of_nat (seq 0 (Z.to_nat size)))) i = f i.
Proof.
  intro Hi. unfold at_index.
  rewrite map_map.
  rewrite (nth_indep _ 0 (f (Z.of_nat 0))) by (rewrite length_map, length_seq; lia).
  rewrite (map_nth (fun n => f (Z.of_nat n))).
  rewrite seq_nth by lia.
  simpl. rewrite Z2Nat.id by lia. reflexivity.
Qed.

Lemma setst_ramp_red (sg : sgamma) (b : R) (size i : Z) :
  0 <= i < size ->
  at_index (gamma_red (setst_ramp sg b size)) i = ramp_entry b (red sg) size i.
Proof. intro Hi. unfold setst_ramp. simpl. now apply at_index_ramp. Qed.

Lemma setst_ramp_green (sg : sgamma) (b : R) (size i : Z) :
  0 <= i < size ->
  at_index (gamma_green (setst_ramp sg b size)) i = ramp_entry b (green sg) size i.
Proof. intro Hi. unfold setst_ramp. simpl. now apply at_index_ramp. Qed.

Lemma setst_ramp_blue (sg : sgamma) (b : R) (size i : Z) :
  0 <= i < size ->
  at_index (gamma_blue (setst_ramp sg b size)) i = ramp_entry b (blue sg) size i.
Proof. intro Hi. unfold setst_ramp. simpl. now apply at_index_ramp. Qed.

Lemma GAMMA_MULT_eq : GAMMA_MULT = 65535%R.
Proof. unfold GAMMA_MULT. lra. Qed.

Lemma ramp_value_range (b mult : R) (size i : Z) :
  (0 <= b <= 1)%R -> (0 <= mult <= 1)%R -> 0 <= i < size ->
  (0.5 <= ramp_value b mult size i < 65536)%R.
Proof.
  intros Hb Hm Hi. unfold ramp_value. rewrite GAMMA_MULT_eq.
  assert (Hs : (0 < IZR size)%R) by (apply IZR_lt; lia).
  assert (Hi0 : (0 <= IZR i)%R) by (apply IZR_le; lia).
  assert (Hi1 : (IZR i <= IZR size)%R) by (apply IZR_le; lia).
  assert (Hq : (0 <= IZR i / IZR size <= 1)%R).
  { split.
    - apply Rmult_le_pos; [lra | left; now apply Rinv_0_lt_compat].
    - apply (Rmult_le_reg_r (IZR size)); [lra |].
      unfold Rdiv. rewrite Rmult_assoc, Rinv_l by lra. lra. }
  set (q := (IZR i / IZR size)%R) in *.
  replace (65535 * b * IZR i / IZR size * mult)%R
    with (65535 * (b * q * mult))%R by (unfold q; field; lra).
  assert (Hbq : (0 <= b * q <= 1)%R) by nra.
  assert (Hbqm : (0 <= b * q * mult <= 1)%R) by nra.
  lra.
Qed.

Lemma ramp_value_mono (b mult : R) (size i j : Z) :
  (0 <= b)%R -> (0 <= mult)%R -> 0 < size -> i <= j ->
  (ramp_value b mult size i <= ramp_value b mult size j)%R.
Proof.
  intros Hb Hm Hs Hij. unfold ramp_value. rewrite GAMMA_MULT_eq.
  assert (Hs' : (0 < IZR size)%R) by (apply IZR_lt; lia).
  assert (Hij' : (IZR i <= IZR j)%R) by (apply IZR_le; lia).
  assert (Hk : (0 <= 65535 * b * / IZR size * mult)%R).
  { apply Rmult_le_pos; [| exact Hm].
    apply Rmult_le_pos; [nra | left; now apply Rinv_0_lt_compat]. }
  replace (65535 * b * IZR i / IZR size * mult)%R
    with (65535 * b * / IZR size * mult * IZR i)%R by (field; lra).
  replace (65535 * b * IZR j / IZR size * mult)%R
    with (65535 * b * / IZR size * mult * IZR j)%R by (field; lra).
  apply Rplus_le_compat_r. apply Rmult_le_compat_l; assumption.
Qed.

Lemma ramp_entry_floor (b mult : R) (size i : Z) :
  (0 <= b <= 1)%R -> (0 <= mult <= 1)%R -> 0 <= i < size ->
  ramp_entry b mult size i = Zfloor (ramp_value b mult size i).
Proof.
  intros Hb Hm Hi. unfold ramp_entry. fold (ramp_value b mult size i).
  apply to_ushort_floor.
  pose proof (ramp_value_range b mult size i Hb Hm Hi). lra.
Qed.

Lemma ramp_entry_mono (b mult : R) (size i j : Z) :
  (0 <= b <= 1)%R -> (0 <= mult <= 1)%R -> 0 <= i -> i <= j -> j < size ->
  ramp_entry b mult size i <= ramp_entry b mult size j.
Proof.
  intros Hb Hm Hi Hij Hj.
  rewrite !ramp_entry_floor by (assumption || lia).
  apply Zfloor_le. apply ramp_value_mono; lra || lia.
Qed.

Lemma nondecreasing_peak_last (l : list Z) : nondecreasing l -> peak_last l.
Proof. intros H i Hi. apply H; lia. Qed.

Lemma ramp_channel_length (f : Z -> Z) (size : Z) :
  0 <= size ->
  Z.of_nat (length (map f (map Z.of_nat (seq 0 (Z.to_nat size))))) = size.
Proof. intro H. rewrite !length_map, length_seq. lia. Qed.

Lemma ramp_channel_nondecreasing (b mult : R) (size : Z) :
  (0 <= b <= 1)%R -> (0 <= mult <= 1)%R -> 1 <= size ->
  nondecreasing (map (ramp_entry b mult size) (map Z.of_nat (seq 0 (Z.to_nat size)))).
Proof.
  intros Hb Hm Hs i j Hi Hij Hj.
  rewrite ramp_channel_length in Hj by lia.
  rewrite !at_index_ramp by lia.
  apply ramp_entry_mono; assumption.
Qed.

(** C2: below TEMP_NORM (and above MINTEMP) the red multiplier [setst]
    derives from the temperature is exactly 1.0; from TEMP_NORM upwards the
    blue multiplier is exactly 1.0. *)
Theorem setst_gamma_red_blue (t : Z) :
  (MINTEMP < t < TEMP_NORM -> red (setst_gamma t) = 1%R) /\
  (TEMP_NORM <= t -> blue (setst_gamma t) = 1%R).
Proof.
  unfold setst_gamma. split; intro H.
  - destruct (Z.ltb_spec t TEMP_NORM) as [Hlt | Hge]; [| lia].
    destruct (Z.gtb_spec t MINTEMP) as [Hgt | Hle]; [reflexivity | lia].
  - destruct (Z.ltb_spec t TEMP_NORM) as [Hlt | Hge]; [lia | reflexivity].
Qed.

Lemma setst_gamma_red_blue_witness :
  red (setst_gamma 4500) = 1%R /\ blue (setst_gamma 9000) = 1%R.
Proof.
  split.
  - apply (proj1 (setst_gamma_red_blue 4500)). unfold MINTEMP, TEMP_NORM. lia.
  - apply (proj2 (setst_gamma_red_blue 9000)). unfold TEMP_NORM. lia.
Defined.

Lemma unit_ramp_entry (i z : Z) :
  0 <= i < 256 -> 0 <= z < 2 ^ 16 ->
  (IZR z <= 65535 * IZR i / 256 + 0.5 < IZR z + 1)%R ->
  ramp_entry 1 1 256 i = z.
Proof.
  intros Hi Hz Hx. unfold ramp_entry. apply to_ushort_eq; [exact Hz |].
  rewrite GAMMA_MULT_eq. lra.
Qed.

(** C3, as stated, fails: entry 255 of the red channel is not within one
    unit of 65535. *)
Lemma unit_ramp_last_not_65535 :
  ~ Z.abs (at_index (gamma_red unit_ramp) 255 - 65535) <= 1.
Proof.
  unfold unit_ramp. rewrite setst_ramp_red by lia. simpl red.
  rewrite (unit_ramp_entry 255 65279) by (lia || lra). lia.
Qed.

(** C3, amended: with 256 entries, brightness 1.0 and multipliers {1,1,1},
    entry 255 of every channel is 65279, which is 65535 * 255 / 256 rounded,
    and entry 0 is 0. *)
Theorem unit_ramp_endpoints :
  at_index (gamma_red unit_ramp) 255 = 65279 /\
  at_index (gamma_green unit_ramp) 255 = 65279 /\
  at_index (gamma_blue unit_ramp) 255 = 65279 /\
  at_index (gamma_red unit_ramp) 0 = 0 /\
  at_index (gamma_green unit_ramp) 0 = 0 /\
  at_index (gamma_blue unit_ramp) 0 = 0.
Proof.
  unfold unit_ramp.
  rewrite !setst_ramp_red, !setst_ramp_green, !setst_ramp_blue by lia.
  simpl red; simpl green; simpl blue.
  rewrite (unit_ramp_entry 255 65279) by (lia || lra).
  rewrite (unit_ramp_entry 0 0) by (lia || lra).
  repeat split; reflexivity.
Qed.

(** C10: with multipliers and brightness in [0,1] and at least one entry,
    every channel of the table [setst] fills never decreases with the
    index, so that its last entry is its peak. *)
Theorem setst_ramp_nondecreasing (sg : sgamma) (b : R) (size : Z) :
  (0 <= red sg <= 1)%R -> (0 <= green sg <= 1)%R -> (0 <= blue sg <= 1)%R ->
  (0 <= b <= 1)%R -> 1 <= size ->
  (nondecreasing (gamma_red (setst_ramp sg b size)) /\
   nondecreasing (gamma_green (setst_ramp sg b size)) /\
   nondecreasing (gamma_blue (setst_ramp sg b size))) /\
  (peak_last (gamma_red (setst_ramp sg b size)) /\
   peak_last (gamma_green (setst_ramp sg b size)) /\
   peak_last (gamma_blue (setst_ramp sg b size))).
Proof.
  intros Hr Hg Hbl Hb Hs.
  assert (H : nondecreasing (gamma_red (setst_ramp sg b size)) /\
              nondecreasing (gamma_green (setst_ramp sg b size)) /\
              nondecreasing (gamma_blue (setst_ramp sg b size))).
  { unfold setst_ramp. simpl.
    repeat split; apply ramp_channel_nondecreasing; assumption. }
  split; [exact H |].
  destruct H as (H1 & H2 & H3).
  repeat split; now apply nondecreasing_peak_last.
Qed.

Lemma setst_ramp_nondecreasing_witness :
  (nondecreasing (gamma_red (setst_ramp (mksg 1 0.5 0) 1 4)) /\
   nondecreasing (gamma_green (setst_ramp (mksg 1 0.5 0) 1 4)) /\
   nondecreasing (gamma_blue (setst_ramp (mksg 1 0.5 0) 1 4))) /\
  (peak_last (gamma_red (setst_ramp (mksg 1 0.5 0) 1 4)) /\
   peak_last (gamma_green (setst_ramp (mksg 1 0.5 0) 1 4)) /\
   peak_last (gamma_blue (setst_ramp (mksg 1 0.5 0) 1 4))).
Proof.
  apply (setst_ramp_nondecreasing (mksg 1 0.5 0) 1 4); simpl; lra || lia.
Defined.

(** ** Running the loops *)

Lemma seqZ_S (lo : Z) (n : nat) : seqZ lo (S n) = lo :: seqZ (lo + 1) n.
Proof.
  unfold seqZ. simpl. f_equal; [lia |].
  rewrite <- seq_shift, map_map. apply map_ext. intro k. lia.
Qed.

Lemma seqZ_length (lo : Z) (n : nat) : length (seqZ lo n) = n.
Proof. unfold seqZ. now rewrite length_map, length_seq. Qed.

Lemma in_seqZ (lo : Z) (n : nat) (c : Z) :
  In c (seqZ lo n) <-> lo <= c < lo + Z.of_nat n.
Proof.
  unfold seqZ. rewrite in_map_iff. split.
  - intros (k & Hk & Hin). apply in_seq in Hin. lia.
  - intro H. exists (Z.to_nat (c - lo)). split; [lia |]. apply in_seq. lia.
Qed.

Lemma add_requests_nil (w : World) : add_requests w [] = w.
Proof. destruct w. unfold add_requests. simpl. now rewrite app_nil_r. Qed.

Lemma add_requests_app (w : World) (r1 r2 : list xrequest) :
  add_requests (add_requests w r1) r2 = add_requests w (r1 ++ r2).
Proof. unfold add_requests. simpl. now rewrite app_assoc. Qed.

Lemma bind_run {A B} (m : M A) (k : A -> M B) (w : World) :
  bind m k w = k (fst (m w)) (snd (m w)).
Proof. unfold bind. now destruct (m w). Qed.

Lemma for_iter_S {A} (n : nat) (c : Z) (body : Z -> A -> M A) (acc : A) (w : World) :
  for_iter (S n) c body acc w =
  for_iter n (c + 1) body (fst (body c acc w)) (snd (body c acc w)).
Proof. simpl. now rewrite bind_run. Qed.

Lemma sum_loop_run (iscreen : Z) (n : nat) (c : Z) (acc : R * R * R) (w : World) :
  for_iter n c
    (fun c '(gammar, gammag, gammab) =>
       xrr_gamma <- XRRGetCrtcGamma iscreen c ;;
       let gi := gamma_size xrr_gamma - 1 in
       ret ((gammar + IZR (at_index (gamma_red xrr_gamma) gi))%R,
            (gammag + IZR (at_index (gamma_green xrr_gamma) gi))%R,
            (gammab + IZR (at_index (gamma_blue xrr_gamma) gi))%R))
    acc w =
  (peak_sums (screen_at (display w) iscreen) (seqZ c n) acc,
   add_requests w (map (GetCrtcGamma iscreen) (seqZ c n))).
Proof.
  revert c acc w. induction n as [| n IH]; intros c acc w.
  - simpl. unfold ret. now rewrite add_requests_nil.
  - rewrite for_iter_S, seqZ_S. destruct acc as [[r g] b].
    rewrite IH. simpl. f_equal.
    unfold add_requests. simpl. now rewrite <- app_assoc.
Qed.

Lemma getscreengamma_run (iscreen icrtc : Z) (w : World) :
  getscreengamma iscreen icrtc w =
  let scr := screen_at (display w) iscreen in
  let '(first, n) := crtc_range icrtc (Z.of_nat (length scr)) in
  let '(gammar, gammag, gammab) :=
    peak_sums scr (seqZ first (Z.to_nat n)) (0%R, 0%R, 0%R) in
  ((n, mksg gammar gammag gammab),
   add_requests w (map (GetCrtcGamma iscreen) (seqZ first (Z.to_nat n)))).
Proof.
  unfold getscreengamma. rewrite bind_run.
  change (XRRGetScreenResourcesCurrent iscreen w)
    with (screen_at (display w) iscreen, w).
  cbn [fst snd]. unfold crtc_range.
  set (scr := screen_at (display w) iscreen).
  destruct (to_unsigned icrtc <? _); rewrite bind_run; unfold for_loop;
    rewrite sum_loop_run; cbn [fst snd]; fold scr;
    rewrite ?Z.add_simpl_l, ?Z.add_0_l, ?Z.sub_0_r;
    destruct (peak_sums _ _ _) as [[r g] b]; reflexivity.
Qed.

Lemma set_nth_same {A} (n : nat) (l : list A) (d : A) :
  set_nth n (nth n l d) l = l.
Proof.
  revert n. induction l as [| h t IH]; intros [| n]; simpl; try reflexivity.
  now rewrite IH.
Qed.

Lemma set_nth_twice {A} (n : nat) (x y : A) (l : list A) :
  set_nth n y (set_nth n x l) = set_nth n y l.
Proof.
  revert n. induction l as [| h t IH]; intros [| n]; simpl; try reflexivity.
  now rewrite IH.
Qed.

Lemma length_set_nth {A} (n : nat) (x : A) (l : list A) :
  length (set_nth n x l) = length l.
Proof.
  revert n. induction l as [| h t IH]; intros [| n]; simpl; try reflexivity.
  now rewrite IH.
Qed.

Lemma nth_set_nth_eq {A} (n : nat) (x d : A) (l : list A) :
  (n < length l)%nat -> nth n (set_nth n x l) d = x.
Proof.
  revert n. induction l as [| h t IH]; intros [| n] H; simpl in *; try lia.
  - reflexivity.
  - apply IH. lia.
Qed.

Lemma nth_set_nth_ne {A} (n m : nat) (x d : A) (l : list A) :
  n <> m -> nth m (set_nth n x l) d = nth m l d.
Proof.
  revert n m. induction l as [| h t IH]; intros [| n] [| m] H; simpl;
    try reflexivity; try congruence.
  apply IH. congruence.
Qed.

Lemma set_nth_beyond {A} (n : nat) (x : A) (l : list A) :
  (length l <= n)%nat -> set_nth n x l = l.
Proof.
  revert n. induction l as [| h t IH]; intros [| n] H; simpl in *;
    try reflexivity; try lia.
  rewrite IH by lia. reflexivity.
Qed.

Lemma setst_ramp_size (sg : sgamma) (b : R) (size : Z) :
  gamma_size (setst_ramp sg b size) = size.
Proof. reflexivity. Qed.

(** Writing a CRTC leaves every table size as it was. *)
Lemma write_crtc_size (sg : sgamma) (b : R) (scr : Screen) (c' c : Z) :
  gamma_size (crtc_at (write_crtc sg b scr c') c) = gamma_size (crtc_at scr c).
Proof.
  unfold write_crtc, crtc_at.
  destruct (Nat.eq_dec (Z.to_nat c') (Z.to_nat c)) as [E | E].
  - rewrite E. destruct (Nat.lt_ge_cases (Z.to_nat c) (length scr)) as [Hl | Hl].
    + rewrite nth_set_nth_eq by exact Hl. apply setst_ramp_size.
    + rewrite set_nth_beyond by exact Hl. reflexivity.
  - rewrite nth_set_nth_ne by exact E. reflexivity.
Qed.

Lemma write_crtc_length (sg : sgamma) (b : R) (scr : Screen) (c : Z) :
  length (write_crtc sg b scr c) = length scr.
Proof. unfold write_crtc. apply length_set_nth. Qed.

Lemma write_crtcs_length (sg : sgamma) (b : R) (cs : list Z) (scr : Screen) :
  length (write_crtcs sg b cs scr) = length scr.
Proof.
  unfold write_crtcs. revert scr. induction cs as [| c cs IH]; intro scr; simpl.
  - reflexivity.
  - rewrite IH. apply write_crtc_length.
Qed.

(** The screen stored at [iscreen] after the screen there was replaced by
    [write_crtc]'s result. *)
Lemma screen_at_written (sg : sgamma) (b : R) (d : Display) (iscreen c : Z) :
  screen_at (set_nth (Z.to_nat iscreen)
               (write_crtc sg b (screen_at d iscreen) c) d) iscreen =
  write_crtc sg b (screen_at d iscreen) c.
Proof.
  unfold screen_at.
  destruct (Nat.lt_ge_cases (Z.to_nat iscreen) (length d)) as [Hl | Hl].
  - now rewrite nth_set_nth_eq.
  - rewrite set_nth_beyond by exact Hl.
    rewrite (nth_overflow d) by exact Hl.
    unfold write_crtc. now destruct (Z.to_nat c).
Qed.

Lemma set_requests_written (sg : sgamma) (b : R) (iscreen : Z) (scr : Screen)
    (c' : Z) (cs : list Z) :
  set_requests sg b iscreen (write_crtc sg b scr c') cs =
  set_requests sg b iscreen scr cs.
Proof.
  unfold set_requests. apply map_ext. intro c. now rewrite write_crtc_size.
Qed.

Lemma write_loop_run (sg : sgamma) (b : R) (iscreen : Z) (n : nat) (c : Z)
    (w : World) :
  for_iter n c
    (fun c (_ : unit) =>
       size <- XRRGetCrtcGammaSize iscreen c ;;
       XRRSetCrtcGamma iscreen c (setst_ramp sg b size))
    tt w =
  (tt,
   mkWorld (set_nth (Z.to_nat iscreen)
              (write_crtcs sg b (seqZ c n) (screen_at (display w) iscreen))
              (display w))
           (requests w ++
            set_requests sg b iscreen (screen_at (display w) iscreen) (seqZ c n))
           (fail w) (stderr w) (stdout w)).
Proof.
  revert c w. induction n as [| n IH]; intros c w.
  - simpl. unfold ret, screen_at. rewrite set_nth_same, app_nil_r.
    now destruct w.
  - rewrite for_iter_S, seqZ_S, bind_run.
    unfold XRRGetCrtcGammaSize, XRRSetCrtcGamma. cbn [fst snd].
    rewrite IH. cbn [display requests fail stderr stdout].
    fold (write_crtc sg b (screen_at (display w) iscreen) c).
    rewrite screen_at_written, set_nth_twice, set_requests_written.
    rewrite <- app_assoc. reflexivity.
Qed.

Section Runs.

Variable verbose : bool.

Lemma setst_run (iscreen icrtc : Z) (ts : tempstate) (w : World) :
  setst verbose iscreen icrtc ts w =
  let scr := screen_at (display w) iscreen in
  let '(first, n) := crtc_range icrtc (Z.of_nat (length scr)) in
  let sg := setst_gamma (temp ts) in
  let b := trimdouble (brightness ts) 0 1 in
  let cs := seqZ first (Z.to_nat n) in
  (tt,
   mkWorld (set_nth (Z.to_nat iscreen) (write_crtcs sg b cs scr) (display w))
           (requests w ++ set_requests sg b iscreen scr cs)
           (fail w)
           (stderr w ++ (if verbose then gamma_line else []))
           (stdout w)).
Proof.
  unfold setst. rewrite bind_run.
  change (XRRGetScreenResourcesCurrent iscreen w)
    with (screen_at (display w) iscreen, w).
  cbn [fst snd]. unfold crtc_range.
  set (scr := screen_at (display w) iscreen).
  rewrite bind_run.
  assert (Hlog : (if verbose
                  then logGamma (setst_gamma (temp ts))
                         (trimdouble (brightness ts) 0 1)
                  else ret tt) w =
                 (tt, add_stderr w (if verbose then gamma_line else []))).
  { destruct verbose; unfold logGamma, loginfo, flog, ret, add_stderr; simpl.
    - reflexivity.
    - rewrite app_nil_r. now destruct w. }
  rewrite Hlog. cbn [fst snd].
  destruct (to_unsigned icrtc <? _); unfold for_loop; rewrite write_loop_run;
    unfold add_stderr; cbn [display requests fail stderr stdout]; fold scr;
    rewrite ?Z.add_simpl_l, ?Z.add_0_l, ?Z.sub_0_r; reflexivity.
Qed.

End Runs.

Section RunsRead.

Variable verbose : bool.

Lemma getst_run (iscreen icrtc : Z) (w : World) :
  getst verbose iscreen icrtc w =
  let scr := screen_at (display w) iscreen in
  let '(n, sg) := screen_sums scr icrtc in
  (estimate n sg,
   mkWorld (display w)
           (requests w ++ get_requests iscreen scr icrtc)
           (fail w)
           (stderr w ++
            (if verbose &&
                (Rgtb (MAX (blue sg) (MAX (red sg) (green sg))) 0 && (n >? 0))
             then gamma_line else []))
           (stdout w)).
Proof.
  unfold getst. rewrite bind_run, getscreengamma_run.
  unfold screen_sums, get_requests, estimate.
  set (scr := screen_at (display w) iscreen).
  destruct (crtc_range icrtc (Z.of_nat (length scr))) as [first n].
  destruct (peak_sums scr (seqZ first (Z.to_nat n)) (0%R, 0%R, 0%R))
    as [[gammar gammag] gammab].
  cbn [fst snd red green blue].
  set (b := MAX gammab (MAX gammar gammag)).
  destruct (Rgtb b 0 && (n >? 0)) eqn:Hc.
  - rewrite !bind_run.
    destruct verbose; cbn [andb]; unfold logGamma, loginfo, flog, ret, add_requests;
      cbn [fst snd display requests fail stderr stdout red green blue];
      rewrite ?app_nil_r; reflexivity.
  - rewrite bind_run. unfold ret, add_requests. cbn [fst snd].
    rewrite andb_false_r, app_nil_r. reflexivity.
Qed.

End RunsRead.

(** ** Loops over the screens *)

(** Decides the integer comparisons in the goal and closes what arithmetic
    closes. *)
Ltac zbool :=
  repeat match goal with
         | |- context [?a <=? ?b] => destruct (Z.leb_spec a b)
         | |- context [?a <? ?b] => destruct (Z.ltb_spec a b)
         | |- context [?a >? ?b] => destruct (Z.gtb_spec a b)
         | |- context [?a >=? ?b] => destruct (Z.geb_spec a b)
         | |- context [?a =? ?b] => destruct (Z.eqb_spec a b)
         end;
  cbn [andb orb negb]; try reflexivity; try lia.

Lemma over_screens_length (F : Z -> Screen -> Screen) (cs : list Z) (d : Display) :
  length (over_screens F cs d) = length d.
Proof.
  unfold over_screens. revert d. induction cs as [| c cs IH]; intro d; simpl.
  - reflexivity.
  - rewrite IH. apply length_set_nth.
Qed.

Lemma screen_at_set_nth_ne (d : Display) (i j : Z) (scr : Screen) :
  0 <= i -> 0 <= j -> i <> j ->
  screen_at (set_nth (Z.to_nat i) scr d) j = screen_at d j.
Proof.
  intros Hi Hj Hne. unfold screen_at. apply nth_set_nth_ne. lia.
Qed.

Lemma screen_at_set_nth_eq (d : Display) (i : Z) (scr : Screen) :
  0 <= i < Z.of_nat (length d) ->
  screen_at (set_nth (Z.to_nat i) scr d) i = scr.
Proof.
  intro Hi. unfold screen_at. apply nth_set_nth_eq. lia.
Qed.

Lemma over_screens_cons (F : Z -> Screen -> Screen) (c : Z) (cs : list Z)
    (d : Display) :
  over_screens F (c :: cs) d =
  over_screens F cs (set_nth (Z.to_nat c) (F c (screen_at d c)) d).
Proof. reflexivity. Qed.

(** A pass over the screens from [c] on leaves the screens before [c] alone. *)
Lemma over_screens_before (F : Z -> Screen -> Screen) (n : nat) (c j : Z)
    (d : Display) :
  0 <= j < c ->
  screen_at (over_screens F (seqZ c n) d) j = screen_at d j.
Proof.
  revert c d. induction n as [| n IH]; intros c d Hj.
  - reflexivity.
  - rewrite seqZ_S, over_screens_cons.
    rewrite IH by lia. apply screen_at_set_nth_ne; lia.
Qed.

(** Each screen in the range is replaced by [F] of what it was at the
    start; the others stay. *)
Lemma over_screens_at (F : Z -> Screen -> Screen) (n : nat) (c j : Z)
    (d : Display) :
  0 <= c -> c + Z.of_nat n <= Z.of_nat (length d) -> 0 <= j ->
  screen_at (over_screens F (seqZ c n) d) j =
  if (c <=? j) && (j <? c + Z.of_nat n) then F j (screen_at d j)
  else screen_at d j.
Proof.
  revert c d. induction n as [| n IH]; intros c d Hc Hn Hj.
  - cbn [seqZ seq map over_screens fold_left]. zbool.
  - rewrite seqZ_S, over_screens_cons.
    destruct (Z.eq_dec j c) as [-> | Hne].
    + rewrite over_screens_before by lia.
      rewrite screen_at_set_nth_eq by lia.
      zbool.
    + rewrite IH by (rewrite ?length_set_nth; lia).
      rewrite screen_at_set_nth_ne by lia.
      zbool.
Qed.

Lemma flat_map_screens_ext {B} (G : Z -> Screen -> list B) (n : nat) (c : Z)
    (d : Display) (scr : Screen) :
  0 <= c ->
  flat_map (fun i => G i (screen_at (set_nth (Z.to_nat c) scr d) i))
           (seqZ (c + 1) n) =
  flat_map (fun i => G i (screen_at d i)) (seqZ (c + 1) n).
Proof.
  intro Hc. rewrite !flat_map_concat_map. f_equal.
  apply map_ext_in. intros i Hi. apply in_seqZ in Hi.
  rewrite screen_at_set_nth_ne by lia. reflexivity.
Qed.

Section ScreenLoop.

(** A loop body that, on screen [i], replaces the screen by [F i] of it,
    sends the requests [Rq i], and logs and prints [Lg i] and [Out i], all
    determined by the screen as it stood. *)
Variable body : Z -> unit -> M unit.
Variable F : Z -> Screen -> Screen.
Variable Rq : Z -> Screen -> list xrequest.
Variable Lg : Z -> Screen -> list (logkind * string).
Variable Out : Z -> Screen -> list outline.

Hypothesis body_run : forall i u w,
  body i u w =
  (tt, mkWorld (set_nth (Z.to_nat i) (F i (screen_at (display w) i)) (display w))
               (requests w ++ Rq i (screen_at (display w) i))
               (fail w)
               (stderr w ++ Lg i (screen_at (display w) i))
               (stdout w ++ Out i (screen_at (display w) i))).

Lemma screen_loop_run (n : nat) (c : Z) (w : World) :
  0 <= c ->
  for_iter n c body tt w =
  (tt, mkWorld (over_screens F (seqZ c n) (display w))
               (requests w ++
                flat_map (fun i => Rq i (screen_at (display w) i)) (seqZ c n))
               (fail w)
               (stderr w ++
                flat_map (fun i => Lg i (screen_at (display w) i)) (seqZ c n))
               (stdout w ++
                flat_map (fun i => Out i (screen_at (display w) i)) (seqZ c n))).
Proof.
  revert c w. induction n as [| n IH]; intros c w Hc.
  - simpl. unfold ret. rewrite !app_nil_r. now destruct w.
  - rewrite for_iter_S, body_run. cbn [fst snd].
    rewrite IH by lia. cbn [display requests fail stderr stdout].
    rewrite !flat_map_screens_ext by exact Hc.
    rewrite seqZ_S, over_screens_cons. cbn [flat_map].
    rewrite <- !app_assoc. reflexivity.
Qed.

End ScreenLoop.

(** ** Reading and writing one screen *)

Lemma get_requests_selected (iscreen : Z) (scr : Screen) (icrtc : Z) :
  get_requests iscreen scr icrtc =
  map (GetCrtcGamma iscreen) (selected_crtcs icrtc scr).
Proof.
  unfold get_requests, selected_crtcs.
  now destruct (crtc_range icrtc (Z.of_nat (length scr))).
Qed.

(** The sums over a screen of one CRTC, no controller index given. *)
Lemma one_crtc_sums (g : XRRCrtcGamma) :
  screen_sums [g] (-1) =
  (1, mksg (0 + IZR (at_index (gamma_red g) (gamma_size g - 1)))
           (0 + IZR (at_index (gamma_green g) (gamma_size g - 1)))
           (0 + IZR (at_index (gamma_blue g) (gamma_size g - 1)))).
Proof. reflexivity. Qed.

Section ScreenRuns.

Variable verbose : bool.

Lemma getst_screen (iscreen icrtc : Z) (w : World) :
  getst verbose iscreen icrtc w =
  (screen_read icrtc (screen_at (display w) iscreen),
   mkWorld (display w)
           (requests w ++ get_requests iscreen (screen_at (display w) iscreen) icrtc)
           (fail w)
           (stderr w ++ read_log verbose icrtc (screen_at (display w) iscreen))
           (stdout w)).
Proof.
  rewrite getst_run. unfold screen_read, read_log. cbv zeta.
  now destruct (screen_sums (screen_at (display w) iscreen) icrtc).
Qed.

Lemma setst_screen (iscreen icrtc : Z) (ts : tempstate) (w : World) :
  setst verbose iscreen icrtc ts w =
  (tt,
   mkWorld (set_nth (Z.to_nat iscreen)
              (screen_write icrtc ts (screen_at (display w) iscreen)) (display w))
           (requests w ++
            write_requests icrtc ts iscreen (screen_at (display w) iscreen))
           (fail w)
           (stderr w ++ (if verbose then gamma_line else []))
           (stdout w)).
Proof.
  rewrite setst_run. unfold screen_write, write_requests, selected_crtcs. cbv zeta.
  now destruct (crtc_range icrtc _).
Qed.

(** The value [getst] returns depends on the screen it is asked about only. *)
Lemma getst_frame (iscreen icrtc : Z) (w w' : World) :
  screen_at (display w) iscreen = screen_at (display w') iscreen ->
  fst (getst verbose iscreen icrtc w) = fst (getst verbose iscreen icrtc w').
Proof. intro H. rewrite !getst_screen. simpl. now rewrite H. Qed.

End ScreenRuns.

(** ** Bounds *)

Lemma add_stderr_nil (w : World) : add_stderr w [] = w.
Proof. destruct w. unfold add_stderr. simpl. now rewrite app_nil_r. Qed.

Lemma logwarn_run (fmt : string) (w : World) :
  logwarn fmt w = (tt, add_stderr w [(Warning, fmt)]).
Proof. reflexivity. Qed.

Lemma boundts_run (ts : tempstate) (twhat : string) (w : World) :
  boundts ts twhat w = (ts, add_stderr w (bound_warnings ts)).
Proof.
  unfold boundts, boundtemp, boundbrightness, bound_warnings.
  rewrite !bind_run.
  destruct (temp ts <=? 0); [| destruct (temp ts <? MINTEMP)];
    rewrite ?bind_run, ?logwarn_run; unfold ret; cbn [fst snd];
    (destruct (Rltb (brightness ts) 0); [| destruct (Rgtb (brightness ts) 1)]);
    rewrite ?bind_run, ?logwarn_run; unfold ret, add_stderr; cbn [fst snd];
    cbn [display requests fail stderr stdout app];
    rewrite <- ?app_assoc, ?app_nil_r; try reflexivity; now destruct w.
Qed.

(** ** The modes *)

Section Modes.

Variable crtc_arg : Z.
Variable verbose : bool.
Variable temp_day : Z.
Variable temp_night : Z.

Lemma toggledaynight_run (nscreen : Z) (w : World) :
  toggledaynight crtc_arg verbose temp_day temp_night nscreen w =
  (tt,
   mkWorld
     (over_screens
        (fun _ scr => screen_write crtc_arg (toggle_state temp_day temp_night (screen_read crtc_arg scr)) scr)
        (seqZ 0 (Z.to_nat nscreen)) (display w))
     (requests w ++
      flat_map (fun i => read_write_requests crtc_arg (toggle_state temp_day temp_night) i (screen_at (display w) i))
               (seqZ 0 (Z.to_nat nscreen)))
     (fail w)
     (stderr w ++
      flat_map (fun i => read_log verbose crtc_arg (screen_at (display w) i) ++
                         (if verbose then gamma_line else []))
               (seqZ 0 (Z.to_nat nscreen)))
     (stdout w ++ flat_map (fun i => []) (seqZ 0 (Z.to_nat nscreen)))).
Proof.
  unfold toggledaynight, for_loop. rewrite Z.sub_0_r.
  apply (screen_loop_run _
           (fun _ scr => screen_write crtc_arg (toggle_state temp_day temp_night (screen_read crtc_arg scr)) scr)
           (fun i scr => read_write_requests crtc_arg (toggle_state temp_day temp_night) i scr)
           (fun i scr => read_log verbose crtc_arg scr ++
                         (if verbose then gamma_line else []))
           (fun _ _ => [])); [| lia].
  intros i u w0. rewrite bind_run, getst_screen. cbn [fst snd].
  set (cur := screen_read crtc_arg (screen_at (display w0) i)).
  replace (if temp cur >? temp_day - TOGGLE_DELTA
           then mkts temp_night (brightness cur)
           else mkts temp_day (brightness cur))
    with (toggle_state temp_day temp_night cur)
    by (unfold toggle_state; now destruct (temp cur >? temp_day - TOGGLE_DELTA)).
  rewrite setst_screen. cbn [display requests fail stderr stdout].
  unfold read_write_requests. fold cur.
  now rewrite <- !app_assoc, app_nil_r.
Qed.

Lemma deltasct_loop_run (ts : tempstate) (first last : Z) (w : World) :
  0 <= first ->
  for_loop first (last + 1)
    (fun i (_ : unit) =>
       dts <- getst verbose i crtc_arg ;;
       let dts := mkts (temp dts + temp ts) (brightness dts + brightness ts) in
       dts <- boundts dts "specified by user" ;;
       setst verbose i crtc_arg dts)
    tt w =
  (tt,
   mkWorld
     (over_screens
        (fun _ scr => screen_write crtc_arg (delta_state ts (screen_read crtc_arg scr)) scr)
        (seqZ first (Z.to_nat (last + 1 - first))) (display w))
     (requests w ++
      flat_map (fun i => read_write_requests crtc_arg (delta_state ts) i (screen_at (display w) i))
               (seqZ first (Z.to_nat (last + 1 - first))))
     (fail w)
     (stderr w ++
      flat_map (fun i =>
                  read_log verbose crtc_arg (screen_at (display w) i) ++
                  bound_warnings
                    (delta_state ts (screen_read crtc_arg (screen_at (display w) i))) ++
                  (if verbose then gamma_line else []))
               (seqZ first (Z.to_nat (last + 1 - first))))
     (stdout w ++ flat_map (fun i => []) (seqZ first (Z.to_nat (last + 1 - first))))).
Proof.
  intro Hf. unfold for_loop.
  apply (screen_loop_run _
           (fun _ scr => screen_write crtc_arg (delta_state ts (screen_read crtc_arg scr)) scr)
           (fun i scr => read_write_requests crtc_arg (delta_state ts) i scr)
           (fun i scr => read_log verbose crtc_arg scr ++
                         bound_warnings (delta_state ts (screen_read crtc_arg scr)) ++
                         (if verbose then gamma_line else []))
           (fun _ _ => [])); [| exact Hf].
  intros i u w0. rewrite bind_run, getst_screen. cbn [fst snd].
  rewrite bind_run, boundts_run. cbn [fst snd].
  rewrite setst_screen. unfold add_stderr. cbn [display requests fail stderr stdout].
  unfold read_write_requests, delta_state.
  now rewrite <- !app_assoc, app_nil_r.
Qed.

Lemma regularsct_loop_run (ts : tempstate) (first last : Z) (w : World) :
  0 <= first ->
  for_loop first (last + 1)
    (fun i (_ : unit) => setst verbose i crtc_arg ts) tt w =
  (tt,
   mkWorld
     (over_screens (fun _ scr => screen_write crtc_arg ts scr)
        (seqZ first (Z.to_nat (last + 1 - first))) (display w))
     (requests w ++
      flat_map (fun i => write_requests crtc_arg ts i (screen_at (display w) i))
               (seqZ first (Z.to_nat (last + 1 - first))))
     (fail w)
     (stderr w ++
      flat_map (fun i => if verbose then gamma_line else [])
               (seqZ first (Z.to_nat (last + 1 - first))))
     (stdout w ++ flat_map (fun i => []) (seqZ first (Z.to_nat (last + 1 - first))))).
Proof.
  intro Hf. unfold for_loop.
  apply (screen_loop_run _
           (fun _ scr => screen_write crtc_arg ts scr)
           (fun i scr => write_requests crtc_arg ts i scr)
           (fun i scr => if verbose then gamma_line else [])
           (fun _ _ => [])); [| exact Hf].
  intros i u w0. rewrite setst_screen. now rewrite app_nil_r.
Qed.

Lemma printestimate_run (first last : Z) (w : World) :
  0 <= first ->
  printestimate crtc_arg verbose first last w =
  (tt,
   mkWorld
     (over_screens (fun _ scr => scr)
        (seqZ first (Z.to_nat (last + 1 - first))) (display w))
     (requests w ++
      flat_map (fun i => get_requests i (screen_at (display w) i) crtc_arg)
               (seqZ first (Z.to_nat (last + 1 - first))))
     (fail w)
     (stderr w ++
      flat_map (fun i => read_log verbose crtc_arg (screen_at (display w) i))
               (seqZ first (Z.to_nat (last + 1 - first))))
     (stdout w ++
      flat_map (fun i => [Estimate i (screen_read crtc_arg (screen_at (display w) i))])
               (seqZ first (Z.to_nat (last + 1 - first))))).
Proof.
  intro Hf. unfold printestimate, for_loop.
  apply (screen_loop_run _
           (fun _ scr => scr)
           (fun i scr => get_requests i scr crtc_arg)
           (fun i scr => read_log verbose crtc_arg scr)
           (fun i scr => [Estimate i (screen_read crtc_arg scr)])); [| exact Hf].
  intros i u w0. rewrite bind_run, getst_screen. cbn [fst snd].
  unfold print. cbn [display requests fail stderr stdout].
  unfold screen_at. now rewrite set_nth_same.
Qed.

End Modes.

(** ** Controller selection *)

Lemma to_unsigned_nonneg (x : Z) : 0 <= x < 2 ^ 31 -> to_unsigned x = x.
Proof. intro H. unfold to_unsigned. apply Z.mod_small. lia. Qed.

Lemma to_unsigned_neg (x : Z) : - 2 ^ 31 <= x < 0 -> to_unsigned x = x + 2 ^ 32.
Proof.
  intro H. unfold to_unsigned.
  rewrite <- (Z.mod_add x 1 (2 ^ 32)) by lia.
  apply Z.mod_small. lia.
Qed.

(** The unsigned comparison picks a single CRTC exactly for an index from 0
    up to the count. *)
Lemma crtc_range_spec (icrtc ncrtc : Z) :
  - 2 ^ 31 <= icrtc < 2 ^ 31 -> 0 <= ncrtc < 2 ^ 31 ->
  crtc_range icrtc ncrtc =
  if (0 <=? icrtc) && (icrtc <? ncrtc) then (icrtc, 1) else (0, ncrtc).
Proof.
  intros Hi Hn. unfold crtc_range. rewrite (to_unsigned_nonneg ncrtc) by lia.
  destruct (Z.leb_spec 0 icrtc) as [H0 | H0]; cbn [andb].
  - rewrite to_unsigned_nonneg by lia. reflexivity.
  - rewrite to_unsigned_neg by lia. zbool.
Qed.

Lemma selected_chosen (icrtc : Z) (scr : Screen) :
  - 2 ^ 31 <= icrtc < 2 ^ 31 -> Z.of_nat (length scr) < 2 ^ 31 ->
  selected_crtcs icrtc scr = chosen_crtcs icrtc scr.
Proof.
  intros Hi Hn. unfold selected_crtcs, chosen_crtcs.
  rewrite crtc_range_spec by lia.
  destruct ((0 <=? icrtc) && (icrtc <? Z.of_nat (length scr))).
  - unfold seqZ. simpl. f_equal. lia.
  - now rewrite Nat2Z.id.
Qed.

(** C7, as stated, fails: the index -2 is set and is less than the
    controller count 2, yet the read path visits both controllers, from
    index 0, and not the one controller at that index. *)
Lemma crtc_selection_negative_index :
  requests (snd (getscreengamma 0 (-2) two_crtc_world)) =
    [GetCrtcGamma 0 0; GetCrtcGamma 0 1] /\
  ~ (-2 <> -1 ->
     -2 < Z.of_nat (length (screen_at (display two_crtc_world) 0)) ->
     requests (snd (getscreengamma 0 (-2) two_crtc_world)) =
       requests two_crtc_world ++ [GetCrtcGamma 0 (-2)]).
Proof.
  assert (H : requests (snd (getscreengamma 0 (-2) two_crtc_world)) =
              [GetCrtcGamma 0 0; GetCrtcGamma 0 1]).
  { rewrite getscreengamma_run. cbv zeta.
    change (screen_at (display two_crtc_world) 0) with [no_gamma; no_gamma].
    change (crtc_range (-2) (Z.of_nat (length [no_gamma; no_gamma]))) with (0, 2).
    cbv iota beta.
    destruct (peak_sums _ _ _) as [[r g] b]. reflexivity. }
  split; [exact H |].
  intro Hclaim. rewrite H in Hclaim.
  assert (Hlt : -2 < Z.of_nat (length (screen_at (display two_crtc_world) 0)))
    by (simpl; lia).
  specialize (Hclaim ltac:(lia) Hlt). discriminate Hclaim.
Qed.

(** C7, amended: on the read path and on the write path alike, an index
    from 0 up to the screen's controller count selects exactly that
    controller; any other index (the unset -1, a negative one, or one at or
    past the count) selects all controllers from index 0. *)
Theorem crtc_selection (verbose : bool) (iscreen icrtc : Z) (ts : tempstate)
    (w : World) :
  - 2 ^ 31 <= icrtc < 2 ^ 31 ->
  Z.of_nat (length (screen_at (display w) iscreen)) < 2 ^ 31 ->
  requests (snd (getscreengamma iscreen icrtc w)) =
    requests w ++
    map (GetCrtcGamma iscreen) (chosen_crtcs icrtc (screen_at (display w) iscreen))
  /\
  requests (snd (setst verbose iscreen icrtc ts w)) =
    requests w ++
    map (fun c => SetCrtcGamma iscreen c
                    (setst_ramp (setst_gamma (temp ts))
                       (trimdouble (brightness ts) 0 1)
                       (gamma_size (crtc_at (screen_at (display w) iscreen) c))))
        (chosen_crtcs icrtc (screen_at (display w) iscreen)).
Proof.
  intros Hi Hn. split.
  - rewrite getscreengamma_run. cbv zeta.
    rewrite <- selected_chosen by assumption. unfold selected_crtcs.
    destruct (crtc_range icrtc _) as [first n].
    destruct (peak_sums _ _ _) as [[r g] b]. reflexivity.
  - rewrite setst_screen. cbn [snd requests].
    unfold write_requests, set_requests.
    now rewrite selected_chosen by assumption.
Qed.

Lemma crtc_selection_witness :
  requests (snd (getscreengamma 0 1 two_crtc_world)) =
    requests two_crtc_world ++
    map (GetCrtcGamma 0) (chosen_crtcs 1 (screen_at (display two_crtc_world) 0))
  /\
  requests (snd (setst false 0 1 (mkts 6500 1) two_crtc_world)) =
    requests two_crtc_world ++
    map (fun c => SetCrtcGamma 0 c
                    (setst_ramp (setst_gamma (temp (mkts 6500 1)))
                       (trimdouble (brightness (mkts 6500 1)) 0 1)
                       (gamma_size (crtc_at (screen_at (display two_crtc_world) 0) c))))
        (chosen_crtcs 1 (screen_at (display two_crtc_world) 0)).
Proof.
  apply (crtc_selection false 0 1 (mkts 6500 1) two_crtc_world); simpl; lia.
Defined.

(** ** Toggle mode *)

Lemma seqZ_app (lo : Z) (a b : nat) :
  seqZ lo (a + b) = seqZ lo a ++ seqZ (lo + Z.of_nat a) b.
Proof.
  revert lo. induction a as [| a IH]; intro lo.
  - simpl. now rewrite Z.add_0_r.
  - change (S a + b)%nat with (S (a + b)). rewrite !seqZ_S, IH. simpl.
    do 3 f_equal. lia.
Qed.

(** The indices of a loop, split around the round for [i]. *)
Lemma seqZ_split (lo : Z) (n : nat) (i : Z) :
  lo <= i < lo + Z.of_nat n ->
  seqZ lo n =
  seqZ lo (Z.to_nat (i - lo)) ++ [i] ++ seqZ (i + 1) (n - Z.to_nat (i - lo) - 1).
Proof.
  intro Hi.
  replace n with (Z.to_nat (i - lo) + (1 + (n - Z.to_nat (i - lo) - 1)))%nat at 1 by lia.
  rewrite seqZ_app. f_equal.
  replace (lo + Z.of_nat (Z.to_nat (i - lo))) with i by lia.
  rewrite seqZ_app. f_equal.
  unfold seqZ. simpl. f_equal. lia.
Qed.

Lemma get_requests_screen (iscreen : Z) (scr : Screen) (icrtc : Z) (r : xrequest) :
  In r (get_requests iscreen scr icrtc) -> request_screen r = iscreen.
Proof.
  rewrite get_requests_selected. intro H. apply in_map_iff in H.
  destruct H as (c & <- & _). reflexivity.
Qed.

Lemma write_requests_screen (icrtc : Z) (ts : tempstate) (iscreen : Z)
    (scr : Screen) (r : xrequest) :
  In r (write_requests icrtc ts iscreen scr) -> request_screen r = iscreen.
Proof.
  unfold write_requests, set_requests. intro H. apply in_map_iff in H.
  destruct H as (c & <- & _). reflexivity.
Qed.

Lemma read_write_requests_screen (icrtc : Z) (next : tempstate -> tempstate)
    (iscreen : Z) (scr : Screen) (r : xrequest) :
  In r (read_write_requests icrtc next iscreen scr) -> request_screen r = iscreen.
Proof.
  unfold read_write_requests. intro H. apply in_app_or in H. destruct H as [H | H].
  - now apply get_requests_screen in H.
  - now apply write_requests_screen in H.
Qed.

(** Requests gathered over a run of screens are about those screens. *)
Lemma flat_map_requests_screen (G : Z -> list xrequest) (lo : Z) (n : nat)
    (r : xrequest) :
  (forall i r, In r (G i) -> request_screen r = i) ->
  In r (flat_map G (seqZ lo n)) -> lo <= request_screen r < lo + Z.of_nat n.
Proof.
  intros HG H. apply in_flat_map in H. destruct H as (i & Hi & Hr).
  apply in_seqZ in Hi. apply HG in Hr. lia.
Qed.

(** ** The requests of the final path *)

Section FinalPath.

Variable crtc_arg : Z.
Variable verbose : bool.
Variable temp_day : Z.

Lemma logerror_run (fmt : string) (w : World) :
  logerror fmt w =
  (tt, mkWorld (display w) (requests w) true (stderr w ++ [(Error, fmt)]) (stdout w)).
Proof. reflexivity. Qed.

Lemma printestimate_requests (first last : Z) (w : World) :
  0 <= first ->
  exists rest,
    requests (snd (printestimate crtc_arg verbose first last w)) = requests w ++ rest /\
    forall r, In r rest -> first <= request_screen r <= last.
Proof.
  intro Hf. rewrite printestimate_run by exact Hf. cbn [snd requests].
  eexists. split; [reflexivity |].
  intros r Hr. apply flat_map_requests_screen in Hr; [lia |].
  intros i r0. apply get_requests_screen.
Qed.

Lemma regularsct_requests (ts : tempstate) (first last : Z) (w : World) :
  0 <= first ->
  exists rest,
    requests (snd (regularsct crtc_arg verbose temp_day ts first last w)) =
      requests w ++ rest /\
    forall r, In r rest -> first <= request_screen r <= last.
Proof.
  intro Hf. unfold regularsct. rewrite bind_run.
  destruct (temp ts =? 0).
  - unfold ret at 1 2. cbn [fst snd]. rewrite regularsct_loop_run by exact Hf.
    cbn [snd requests]. eexists. split; [reflexivity |].
    intros r Hr. apply flat_map_requests_screen in Hr; [lia |].
    intros i r0. apply write_requests_screen.
  - rewrite boundts_run. cbn [fst snd]. rewrite regularsct_loop_run by exact Hf.
    cbn [snd requests add_stderr]. eexists. split; [reflexivity |].
    intros r Hr. apply flat_map_requests_screen in Hr; [lia |].
    intros i r0. apply write_requests_screen.
Qed.

Lemma deltasct_requests (ts : tempstate) (first last : Z) (w : World) :
  0 <= first ->
  exists rest,
    requests (snd (deltasct crtc_arg verbose ts first last w)) = requests w ++ rest /\
    forall r, In r rest -> first <= request_screen r <= last.
Proof.
  intro Hf. unfold deltasct.
  destruct ((temp ts =? MIN_DELTA) || Reqb (brightness ts) (IZR MIN_DELTA)).
  - rewrite logerror_run. cbn [snd requests]. exists [].
    split; [now rewrite app_nil_r | intros r []].
  - rewrite deltasct_loop_run by exact Hf. cbn [snd requests].
    eexists. split; [reflexivity |].
    intros r Hr. apply flat_map_requests_screen in Hr; [lia |].
    intros i r0. apply read_write_requests_screen.
Qed.

End FinalPath.

(** ** Toggle before the final path *)

Section Main.

Variable crtc_arg : Z.
Variable screen_arg : Z.
Variable verbose : bool.
Variable temp_day : Z.
Variable temp_night : Z.

(** C6: with one screen selected by the screen argument, toggle mode still
    reads and writes every screen of the display, first; what the
    estimate, absolute or delta path requests afterwards is about the
    selected screen alone. *)
Theorem toggle_covers_every_screen (flags : Z) (ts : tempstate) (w : World) :
  Z.land flags has_h = 0 -> Z.land flags has_t <> 0 ->
  0 <= screen_arg < Z.of_nat (length (display w)) ->
  let nscreen := Z.of_nat (length (display w)) in
  let wt := snd (toggledaynight crtc_arg verbose temp_day temp_night nscreen w) in
  requests wt =
    requests w ++
    flat_map (fun i => read_write_requests crtc_arg (toggle_state temp_day temp_night)
                         i (screen_at (display w) i))
             (seqZ 0 (length (display w)))
  /\
  exists rest,
    requests (snd (main crtc_arg screen_arg verbose temp_day temp_night flags ts w)) =
      requests wt ++ rest /\
    forall r, In r rest -> request_screen r = screen_arg.
Proof.
  intros Hh Ht Hs. cbv zeta. split.
  - rewrite toggledaynight_run. cbn [snd requests]. now rewrite Nat2Z.id.
  - unfold main. rewrite bind_run. unfold XScreenCount at 1. cbn [fst snd].
    rewrite bind_run. unfold get_fail at 1. cbn [fst snd].
    rewrite bind_run. rewrite Hh. cbn [Z.eqb negb].
    replace (screen_arg >=? Z.of_nat (length (display w))) with false by zbool.
    rewrite andb_false_r.
    replace (Z.land flags has_t =? 0) with false by (symmetry; now apply Z.eqb_neq).
    cbn [negb]. rewrite (bind_run (toggledaynight _ _ _ _ _)).
    set (wt := snd (toggledaynight crtc_arg verbose temp_day temp_night
                      (Z.of_nat (length (display w))) w)).
    replace (screen_arg >=? 0) with true by zbool.
    set (ts' := if Reqb (brightness ts) (IZR MIN_DELTA) && (Z.land flags has_d =? 0)
                then mkts (temp ts) 1 else ts).
    rewrite bind_run. unfold get_fail, ret. cbn [fst snd].
    destruct ((temp ts' =? MIN_DELTA) && (Z.land flags has_d =? 0));
      [| destruct (Z.land flags has_d =? 0)].
    + destruct (printestimate_requests crtc_arg verbose screen_arg screen_arg wt)
        as (rest & Hreq & Hrest); [lia |].
      exists rest. split; [exact Hreq |]. intros r Hr. apply Hrest in Hr. lia.
    + destruct (regularsct_requests crtc_arg verbose temp_day ts' screen_arg screen_arg wt)
        as (rest & Hreq & Hrest); [lia |].
      exists rest. split; [exact Hreq |]. intros r Hr. apply Hrest in Hr. lia.
    + destruct (deltasct_requests crtc_arg verbose ts' screen_arg screen_arg wt)
        as (rest & Hreq & Hrest); [lia |].
      exists rest. split; [exact Hreq |]. intros r Hr. apply Hrest in Hr. lia.
Qed.

End Main.

Lemma toggle_covers_every_screen_witness :
  let nscreen := Z.of_nat (length (display two_screen_world)) in
  let wt := snd (toggledaynight (-1) false 6500 4500 nscreen two_screen_world) in
  requests wt =
    requests two_screen_world ++
    flat_map (fun i => read_write_requests (-1) (toggle_state 6500 4500)
                         i (screen_at (display two_screen_world) i))
             (seqZ 0 (length (display two_screen_world)))
  /\
  exists rest,
    requests (snd (main (-1) 1 false 6500 4500 has_t (mkts MIN_DELTA (IZR MIN_DELTA))
                     two_screen_world)) =
      requests wt ++ rest /\
    forall r, In r rest -> request_screen r = 1.
Proof.
  apply (toggle_covers_every_screen (-1) 1 false 6500 4500 has_t
           (mkts MIN_DELTA (IZR MIN_DELTA)) two_screen_world).
  - reflexivity.
  - unfold has_t. simpl. lia.
  - unfold two_screen_world. cbn [display length]. lia.
Defined.

(** ** Delta mode *)

Section Delta.

Variable crtc_arg : Z.
Variable screen_arg : Z.
Variable verbose : bool.
Variable temp_day : Z.
Variable temp_night : Z.




End Delta.


(** ** Delta mode and the bounds *)

(** With both deltas given, delta mode takes every screen of the range
    through a read and a write of the plain sum. *)
Lemma deltasct_run (crtc_arg : Z) (verbose : bool) (ts : tempstate)
    (first last : Z) (w : World) :
  temp ts <> MIN_DELTA -> brightness ts <> IZR MIN_DELTA -> 0 <= first ->
  requests (snd (deltasct crtc_arg verbose ts first last w)) =
  requests w ++
  flat_map (fun i => read_write_requests crtc_arg (delta_state ts) i
                       (screen_at (display w) i))
           (seqZ first (Z.to_nat (last + 1 - first))).
Proof.
  intros Ht Hb Hf. unfold deltasct.
  replace ((temp ts =? MIN_DELTA) || Reqb (brightness ts) (IZR MIN_DELTA)) with false.
  - now rewrite deltasct_loop_run by exact Hf.
  - symmetry. apply orb_false_iff. split.
    + now apply Z.eqb_neq.
    + now apply Reqb_false.
Qed.

Lemma setst_gamma_700 : setst_gamma 700 = mksg 1 0 0.
Proof. reflexivity. Qed.

Lemma ramp_entry_zero (b : R) (size i : Z) : ramp_entry b 0 size i = 0.
Proof.
  unfold ramp_entry. apply to_ushort_eq; [lia |].
  rewrite Rmult_0_r. simpl. lra.
Qed.

Lemma red_world_read :
  screen_read (-1) [red_crtc] =
  mkts 700 (trimdouble (65279 / 1 / BRIGHTNESS_DIV) 0 1).
Proof.
  unfold screen_read. rewrite one_crtc_sums. unfold red_crtc.
  rewrite setst_ramp_size, setst_gamma_700.
  rewrite setst_ramp_red, setst_ramp_green, setst_ramp_blue by lia.
  cbn [red green blue]. change (256 - 1) with 255.
  rewrite (unit_ramp_entry 255 65279) by (lia || lra).
  rewrite ramp_entry_zero. rewrite !Rplus_0_l.
  unfold estimate. cbn [red green blue].
  rewrite (MAX_l 65279 0) by lra. rewrite (MAX_r 0 65279) by lra.
  rewrite (Rgtb_true 65279 0) by lra. cbn [andb Z.gtb Z.compare].
  rewrite (Rltb_true (0 / 65279 - 65279 / 65279) 0) by lra.
  rewrite (Rgtb_false (0 / 65279) 0) by lra.
  f_equal. unfold to_long. apply Rtrunc_eq; unfold MINTEMP; [lia | lra].
Qed.

(** C4 at a failing input: on a display last set to 700 K, delta mode asked
    for -1000 K reads 700, adds, and hands the plain sum -300 to [setst],
    which derives the multipliers {1, 0, 0}; the bound rule makes 6500 of
    -300, and the blue multiplier of 6500 is 1.0. *)
Theorem deltasct_writes_unbounded_sum :
  let cur := fst (getst false 0 (-1) red_world) in
  temp cur = 700 /\
  fst (boundtemp (temp cur + -1000) (-1) "specified by user" red_world) = 6500 /\
  requests (snd (deltasct (-1) false (mkts (-1000) 0) 0 0 red_world)) =
    [GetCrtcGamma 0 0;
     SetCrtcGamma 0 0
       (setst_ramp (setst_gamma (-300)) (trimdouble (brightness cur + 0) 0 1) 256)] /\
  setst_gamma (-300) = mksg 1 0 0 /\
  blue (setst_gamma 6500) = 1%R.
Proof.
  cbv zeta. rewrite getst_screen. cbn [fst].
  change (screen_at (display red_world) 0) with [red_crtc].
  rewrite red_world_read. cbn [temp brightness].
  split; [reflexivity |]. split; [reflexivity |]. split; [| split; reflexivity].
  rewrite deltasct_run by (cbn [temp brightness]; unfold MIN_DELTA; lia || lra).
  change (seqZ 0 (Z.to_nat (0 + 1 - 0))) with [0].
  cbn [flat_map]. change (screen_at (display red_world) 0) with [red_crtc].
  unfold read_write_requests, delta_state. rewrite red_world_read.
  reflexivity.
Qed.

(** ** Bounds on [exp] and [ln]

    [exp x >= (1 + x / 2^k) ^ (2^k)], evaluated from below in fixed point
    by [k] squarings; the same bound at [-x] bounds [exp x] from above. *)

Lemma fx_scale_pos : (0 < IZR fx_scale)%R.
Proof. apply IZR_lt. reflexivity. Qed.

Lemma IZR_div_le (a b : Z) : 0 < b -> (IZR (a / b) <= IZR a / IZR b)%R.
Proof.
  intro Hb. assert (Hb' : (0 < IZR b)%R) by now apply IZR_lt.
  apply (Rmult_le_reg_r (IZR b)); [exact Hb' |].
  unfold Rdiv. rewrite Rmult_assoc, Rinv_l, Rmult_1_r by lra.
  rewrite <- mult_IZR. apply IZR_le.
  rewrite Z.mul_comm. apply Z.mul_div_le. exact Hb.
Qed.

Lemma exp_double (y : R) : exp (2 * y) = (exp y * exp y)%R.
Proof. replace (2 * y)%R with (y + y)%R by ring. apply exp_plus. Qed.

Lemma sq_iter_nonneg (k : nat) (a : Z) : 0 <= a -> 0 <= sq_iter k a.
Proof.
  revert a. induction k as [| k IH]; intros a Ha; simpl.
  - exact Ha.
  - apply IH. apply Z.div_pos; [nia | reflexivity].
Qed.

Lemma sq_iter_bound (k : nat) (a : Z) (y : R) :
  0 <= a -> (IZR a / IZR fx_scale <= exp y)%R ->
  (IZR (sq_iter k a) / IZR fx_scale <= exp (2 ^ k * y))%R.
Proof.
  revert a y. induction k as [| k IH]; intros a y Ha Hy.
  - simpl. now rewrite Rmult_1_l.
  - cbn [sq_iter]. replace (2 ^ S k * y)%R with (2 ^ k * (2 * y))%R by (simpl; ring).
    apply IH; [apply Z.div_pos; [nia | reflexivity] |].
    rewrite exp_double.
    pose proof fx_scale_pos as HS.
    pose proof (IZR_div_le (a * a) fx_scale eq_refl) as Hd.
    rewrite mult_IZR in Hd.
    assert (H0 : (0 <= IZR a / IZR fx_scale)%R).
    { apply Rmult_le_pos; [now apply IZR_le | left; now apply Rinv_0_lt_compat]. }
    apply Rle_trans with ((IZR a / IZR fx_scale) * (IZR a / IZR fx_scale))%R.
    + apply (Rmult_le_reg_r (IZR fx_scale)); [exact HS |].
      unfold Rdiv at 1. rewrite Rmult_assoc, Rinv_l, Rmult_1_r by lra.
      apply Rle_trans with (1 := Hd). right. field. lra.
    + apply Rmult_le_compat; assumption.
Qed.

Lemma pow2_IZR (k : nat) : (2 ^ k)%R = IZR (2 ^ Z.of_nat k).
Proof.
  rewrite <- (pow_IZR 2 k). reflexivity.
Qed.

Theorem exp_lower_bound (k : nat) (p : Z) :
  0 <= fx_scale + p / 2 ^ Z.of_nat k ->
  (IZR (exp_lower k p) / IZR fx_scale <= exp (IZR p / IZR fx_scale))%R.
Proof.
  intro H0. unfold exp_lower.
  pose proof fx_scale_pos as HS.
  assert (H2 : (0 < 2 ^ k)%R) by (apply pow_lt; lra).
  replace (IZR p / IZR fx_scale)%R
    with (2 ^ k * (IZR p / IZR fx_scale / 2 ^ k))%R by (field; lra).
  apply sq_iter_bound; [exact H0 |].
  apply Rle_trans with (1 + IZR p / IZR fx_scale / 2 ^ k)%R;
    [| apply exp_ineq1_le].
  rewrite plus_IZR.
  assert (Hd : (IZR (p / 2 ^ Z.of_nat k) <= IZR p / 2 ^ k)%R).
  { rewrite pow2_IZR. apply IZR_div_le. apply Z.pow_pos_nonneg; lia. }
  replace ((IZR fx_scale + IZR (p / 2 ^ Z.of_nat k)) / IZR fx_scale)%R
    with (1 + IZR (p / 2 ^ Z.of_nat k) / IZR fx_scale)%R by (field; lra).
  apply Rplus_le_compat_l.
  replace (IZR p / IZR fx_scale / 2 ^ k)%R
    with (IZR p / 2 ^ k / IZR fx_scale)%R by (field; lra).
  apply Rmult_le_compat_r; [left; now apply Rinv_0_lt_compat | exact Hd].
Qed.

(** [exp (p / fx_scale) >= c] once the fixed-point bound reaches [c]. *)
Lemma exp_ge_of_lower (k : nat) (p c : Z) :
  0 <= fx_scale + p / 2 ^ Z.of_nat k -> c * fx_scale <= exp_lower k p ->
  (IZR c <= exp (IZR p / IZR fx_scale))%R.
Proof.
  intros H0 Hc. pose proof fx_scale_pos as HS.
  apply Rle_trans with (2 := exp_lower_bound k p H0).
  apply (Rmult_le_reg_r (IZR fx_scale)); [exact HS |].
  unfold Rdiv. rewrite Rmult_assoc, Rinv_l, Rmult_1_r by lra.
  rewrite <- mult_IZR. now apply IZR_le.
Qed.

(** [exp (p / fx_scale) <= c] once the bound at [-p] reaches [1 / c]. *)
Lemma exp_le_of_lower (k : nat) (p c : Z) :
  0 < c -> 0 <= fx_scale + (- p) / 2 ^ Z.of_nat k ->
  fx_scale <= c * exp_lower k (- p) ->
  (exp (IZR p / IZR fx_scale) <= IZR c)%R.
Proof.
  intros Hc H0 Hb. pose proof fx_scale_pos as HS.
  pose proof (exp_lower_bound k (- p) H0) as He.
  assert (Hc' : (0 < IZR c)%R) by now apply IZR_lt.
  assert (Hinv : (/ IZR c <= exp (IZR (- p) / IZR fx_scale))%R).
  { apply Rle_trans with (2 := He).
    apply (Rmult_le_reg_r (IZR fx_scale)); [exact HS |].
    unfold Rdiv. rewrite Rmult_assoc, Rinv_l, Rmult_1_r by lra.
    apply (Rmult_le_reg_l (IZR c)); [exact Hc' |].
    rewrite <- Rmult_assoc, Rinv_r, Rmult_1_l by lra.
    rewrite <- mult_IZR. now apply IZR_le. }
  rewrite opp_IZR in Hinv.
  replace (- IZR p / IZR fx_scale)%R with (- (IZR p / IZR fx_scale))%R in Hinv
    by (field; lra).
  rewrite exp_Ropp in Hinv.
  pose proof (exp_pos (IZR p / IZR fx_scale)) as Hpos.
  apply Rinv_le_contravar in Hinv; [| now apply Rinv_0_lt_compat].
  now rewrite !Rinv_inv in Hinv.
Qed.

Lemma ln_le_of_exp (x u : R) : (0 < x)%R -> (x <= exp u)%R -> (ln x <= u)%R.
Proof.
  intros Hx H. destruct (Rle_dec (ln x) u) as [Hle | Hgt]; [exact Hle |].
  exfalso. apply Rnot_le_lt in Hgt. apply exp_increasing in Hgt.
  rewrite exp_ln in Hgt by exact Hx. lra.
Qed.

Lemma ln_ge_of_exp (x l : R) : (0 < x)%R -> (exp l <= x)%R -> (l <= ln x)%R.
Proof.
  intros Hx H. destruct (Rle_dec l (ln x)) as [Hle | Hgt]; [exact Hle |].
  exfalso. apply Rnot_le_lt in Hgt. apply exp_increasing in Hgt.
  rewrite exp_ln in Hgt by exact Hx. lra.
Qed.

(** Decimal numbers as fixed-point arguments. *)
Lemma fx_decimal (m : Z) (d : Z) :
  0 < d -> (d | fx_scale) ->
  (IZR (m * (fx_scale / d)) / IZR fx_scale = IZR m / IZR d)%R.
Proof.
  intros Hd [q Hq]. pose proof fx_scale_pos as HS.
  assert (Hd' : (0 < IZR d)%R) by now apply IZR_lt.
  rewrite Hq, Z.div_mul by lia.
  rewrite !mult_IZR. rewrite Hq, mult_IZR in HS.
  field. split; [lra |]. intro Hq0. rewrite Hq0 in HS. lra.
Qed.

Lemma ln_700_upper : (ln 700 <= 6.551081)%R.
Proof.
  apply ln_le_of_exp; [lra |].
  replace 6.551081%R with (IZR (6551081 * (fx_scale / 1000000)) / IZR fx_scale)%R
    by (rewrite fx_decimal; [lra | lia | exists (10 ^ 34); reflexivity]).
  apply (exp_ge_of_lower 32); vm_compute; discriminate.
Qed.

(** ** The multipliers at TEMP_NORM *)

Lemma trimdouble_ge (x lo : R) :
  (0 <= lo <= 1)%R -> (lo <= x)%R -> (lo <= trimdouble x 0 1 <= 1)%R.
Proof.
  intros Hlo Hx. split; [| apply trimdouble_range; lra].
  destruct (Rle_dec x 1) as [H1 | H1].
  - destruct (Rle_dec x 0) as [H0 | H0].
    + rewrite trimdouble_low by lra. lra.
    + rewrite trimdouble_mid by lra. exact Hx.
  - rewrite trimdouble_high by lra. lra.
Qed.

Lemma setst_gamma_norm_eq :
  setst_gamma TEMP_NORM =
  mksg (trimdouble (GAMMA_K0RB + GAMMA_K1RB * ln 700) 0 1)
       (trimdouble (GAMMA_K0GB + GAMMA_K1GB * ln 700) 0 1)
       1.
Proof.
  unfold setst_gamma. change (TEMP_NORM <? TEMP_NORM) with false. cbv iota zeta.
  replace (IZR TEMP_NORM - IZR (TEMP_NORM - MINTEMP))%R with 700%R
    by (unfold TEMP_NORM, MINTEMP; simpl; lra).
  reflexivity.
Qed.

(** C9: at exactly TEMP_NORM the three multipliers [setst] derives, with
    the coefficients GAMMA_K0RB, GAMMA_K1RB, GAMMA_K0GB and GAMMA_K1GB, are
    each within 1e-6 of 1.0. *)
Theorem setst_gamma_at_norm :
  (Rabs (red (setst_gamma TEMP_NORM) - 1) <= 1 / 1000000)%R /\
  (Rabs (green (setst_gamma TEMP_NORM) - 1) <= 1 / 1000000)%R /\
  (Rabs (blue (setst_gamma TEMP_NORM) - 1) <= 1 / 1000000)%R.
Proof.
  rewrite setst_gamma_norm_eq. cbn [red green blue].
  pose proof ln_700_upper as Hu.
  assert (Hr : (1 - 1 / 1000000 <= trimdouble (GAMMA_K0RB + GAMMA_K1RB * ln 700) 0 1 <= 1)%R).
  { apply trimdouble_ge; [lra |]. unfold GAMMA_K0RB, GAMMA_K1RB. lra. }
  assert (Hg : (1 - 1 / 1000000 <= trimdouble (GAMMA_K0GB + GAMMA_K1GB * ln 700) 0 1 <= 1)%R).
  { apply trimdouble_ge; [lra |]. unfold GAMMA_K0GB, GAMMA_K1GB. lra. }
  repeat split; apply Rabs_le; lra.
Qed.

(** ** Writing a temperature and reading it back *)

Lemma trimdouble_one : trimdouble 1 0 1 = 1%R.
Proof. apply trimdouble_mid; lra. Qed.

Lemma one_crtc_written (g0 : XRRCrtcGamma) (ts : tempstate) :
  display (snd (setst false 0 (-1) ts (one_crtc_world g0))) =
  [[setst_ramp (setst_gamma (temp ts)) (trimdouble (brightness ts) 0 1)
      (gamma_size g0)]].
Proof. rewrite setst_screen. reflexivity. Qed.

Lemma roundtrip_estimate (g0 : XRRCrtcGamma) (t : Z) :
  1 <= gamma_size g0 ->
  roundtrip g0 t =
  temp (estimate 1
          (mksg (0 + IZR (peak (gamma_size g0) (red (setst_gamma t))))
                (0 + IZR (peak (gamma_size g0) (green (setst_gamma t))))
                (0 + IZR (peak (gamma_size g0) (blue (setst_gamma t)))))).
Proof.
  intro Hs. unfold roundtrip. rewrite getst_screen. cbn [fst].
  rewrite one_crtc_written. cbn [temp brightness].
  change (screen_at [[setst_ramp (setst_gamma t) (trimdouble 1 0 1) (gamma_size g0)]] 0)
    with [setst_ramp (setst_gamma t) (trimdouble 1 0 1) (gamma_size g0)].
  unfold screen_read. rewrite one_crtc_sums. rewrite setst_ramp_size.
  rewrite setst_ramp_red, setst_ramp_green, setst_ramp_blue by lia.
  rewrite trimdouble_one. reflexivity.
Qed.

(** *** [exp] near a known value *)

Lemma Rabs_bound (x a : R) : (Rabs x <= a)%R -> (- a <= x <= a)%R.
Proof. unfold Rabs. destruct (Rcase_abs x); lra. Qed.

Lemma exp_near (e eps : R) :
  (Rabs e <= eps)%R -> (eps <= 1 / 2)%R ->
  (1 - eps <= exp e <= 1 + 2 * eps)%R.
Proof.
  intros He Heps.
  assert (He' : (- eps <= e <= eps)%R) by now apply Rabs_bound.
  pose proof (exp_ineq1_le e) as H1.
  pose proof (exp_ineq1_le (- e)) as H2.
  rewrite exp_Ropp in H2.
  pose proof (exp_pos e) as Hp.
  split; [lra |].
  assert (H3 : ((1 - e) * exp e <= 1)%R).
  { apply (Rmult_le_compat_r (exp e)) in H2; [| lra].
    rewrite Rinv_l in H2 by lra. lra. }
  assert (H4 : ((1 - eps) * exp e <= 1)%R) by nra.
  nra.
Qed.

(** The inverse formula [exp ((s - k0) / k1) + t0], when [s] is close to
    [k0 + k1 * ln u], is close to [u + t0]; so is its rounding. *)
Lemma recover (u t0 : Z) (s k0 k1 : R) :
  1 <= u <= 10000 -> 0 <= t0 ->
  (19 / 100 <= Rabs k1)%R ->
  (Rabs (s - (k0 + k1 * ln (IZR u))) <= 1 / 10000)%R ->
  Z.abs (to_long (exp ((s - k0) / k1) + IZR t0 + 0.5) - (u + t0)) <= 50.
Proof.
  intros Hu Ht0 Hk Hs.
  assert (Hu' : (1 <= IZR u <= 10000)%R) by (split; apply IZR_le; lia).
  assert (Ht0' : (0 <= IZR t0)%R) by (apply IZR_le; lia).
  assert (Hk0 : k1 <> 0%R).
  { intro E. rewrite E, Rabs_R0 in Hk. lra. }
  set (L := ln (IZR u)) in *.
  set (e := ((s - (k0 + k1 * L)) / k1)%R).
  assert (Hsplit : ((s - k0) / k1 = L + e)%R) by (unfold e; field; exact Hk0).
  assert (He : (Rabs e <= 1 / 1000)%R).
  { unfold e, Rdiv. rewrite Rabs_mult, Rabs_inv.
    assert (Hk' : (0 < Rabs k1)%R) by lra.
    apply (Rmult_le_reg_r (Rabs k1)); [exact Hk' |].
    rewrite Rmult_assoc, Rinv_l, Rmult_1_r by lra.
    apply Rle_trans with (1 := Hs). nra. }
  pose proof (exp_near e (1 / 1000) He ltac:(lra)) as Hexp.
  rewrite Hsplit, exp_plus. unfold L. rewrite exp_ln by lra.
  set (x := exp e) in *.
  assert (Hx : (IZR u - 10 <= IZR u * x <= IZR u + 20)%R) by nra.
  unfold to_long. rewrite Rtrunc_nonneg by nra.
  pose proof (Zfloor_bound (IZR u * x + IZR t0 + 0.5)) as Hf.
  set (z := Zfloor (IZR u * x + IZR t0 + 0.5)) in *.
  assert (Hz : (IZR (u + t0) - 11 < IZR z < IZR (u + t0) + 21)%R)
    by (rewrite plus_IZR; lra).
  destruct Hz as [Hz1 Hz2].
  replace (IZR (u + t0) - 11)%R with (IZR (u + t0 - 11)) in Hz1
    by (rewrite minus_IZR; reflexivity).
  replace (IZR (u + t0) + 21)%R with (IZR (u + t0 + 21)) in Hz2
    by (rewrite plus_IZR; reflexivity).
  apply lt_IZR in Hz1, Hz2. lia.
Qed.

Lemma recover_at (t u t0 : Z) (s k0 k1 : R) :
  t = u + t0 -> 1 <= u <= 10000 -> 0 <= t0 ->
  (19 / 100 <= Rabs k1)%R ->
  (Rabs (s - (k0 + k1 * ln (IZR u))) <= 1 / 10000)%R ->
  Z.abs (to_long (exp ((s - k0) / k1) + IZR t0 + 0.5) - t) <= 50.
Proof. intros ->. apply recover. Qed.

(** *** The peaks of a written table *)

Lemma gain_bounds (size : Z) : 2 <= size -> (32767 <= gain size < 65535)%R.
Proof.
  intro Hs. unfold gain. rewrite minus_IZR.
  assert (H2 : (2 <= IZR size)%R) by (apply IZR_le; lia).
  assert (Hi : (0 < / IZR size <= / 2)%R).
  { split; [apply Rinv_0_lt_compat; lra | apply Rinv_le_contravar; lra]. }
  replace (65535 * (IZR size - 1) / IZR size)%R
    with (65535 - 65535 * / IZR size)%R by (field; lra).
  lra.
Qed.

Lemma peak_round (size : Z) (m : R) :
  2 <= size -> (0 <= m <= 1)%R ->
  (gain size * m - 1 / 2 < IZR (peak size m) <= gain size * m + 1 / 2)%R.
Proof.
  intros Hs Hm. unfold peak.
  rewrite ramp_entry_floor by (lra || lia).
  unfold ramp_value. rewrite GAMMA_MULT_eq.
  replace (65535 * 1 * IZR (size - 1) / IZR size * m)%R
    with (gain size * m)%R by (unfold gain; lra).
  pose proof (Zfloor_bound (gain size * m + 0.5)) as Hf.
  lra.
Qed.

Lemma peak_zero (size : Z) : 2 <= size -> peak size 0 = 0.
Proof.
  intro Hs. pose proof (peak_round size 0 Hs ltac:(lra)) as [H1 H2].
  rewrite Rmult_0_r in H1, H2.
  assert (H1' : (IZR (-1) < IZR (peak size 0))%R) by (simpl; lra).
  assert (H2' : (IZR (peak size 0) < IZR 1)%R) by (simpl; lra).
  apply lt_IZR in H1', H2'. lia.
Qed.

(** The peak at multiplier 1.0 is at least 32767. *)
Lemma peak_one_large (size : Z) : 2 <= size -> 32767 <= peak size 1.
Proof.
  intro Hs. pose proof (peak_round size 1 Hs ltac:(lra)) as [H1 _].
  pose proof (gain_bounds size Hs) as Hg.
  assert (H : (IZR 32766 < IZR (peak size 1))%R) by lra.
  apply lt_IZR in H. lia.
Qed.

Lemma peak_mono (size : Z) (m m' : R) :
  2 <= size -> (0 <= m)%R -> (m <= m')%R -> (m' <= 1)%R ->
  peak size m <= peak size m'.
Proof.
  intros Hs H0 Hm H1. unfold peak.
  rewrite !ramp_entry_floor by (lra || lia).
  apply Zfloor_le. unfold ramp_value. rewrite GAMMA_MULT_eq.
  assert (Hk : (0 <= 65535 * 1 * IZR (size - 1) / IZR size)%R).
  { pose proof (gain_bounds size Hs). unfold gain in *. lra. }
  nra.
Qed.

(** A peak above zero, and below the peak at 1.0, for a multiplier away
    from both ends. *)
Lemma peak_inner (size : Z) (m : R) :
  2 <= size -> (1 / 10 <= m <= 9 / 10)%R ->
  0 < peak size m < peak size 1.
Proof.
  intros Hs Hm.
  pose proof (peak_round size m Hs ltac:(lra)) as [H1 H2].
  pose proof (peak_round size 1 Hs ltac:(lra)) as [H3 H4].
  pose proof (gain_bounds size Hs) as Hg.
  split.
  - apply lt_IZR. nra.
  - apply lt_IZR. nra.
Qed.

(** The ratio of a peak to the peak at 1.0 is the multiplier, up to
    1/32767. *)
Lemma ratio_close (size : Z) (m : R) :
  2 <= size -> (0 <= m <= 1)%R ->
  (Rabs (IZR (peak size m) / IZR (peak size 1) - m) <= 1 / 32767)%R.
Proof.
  intros Hs Hm.
  pose proof (peak_round size m Hs Hm) as [H1 H2].
  pose proof (peak_round size 1 Hs ltac:(lra)) as [H3 H4].
  pose proof (peak_one_large size Hs) as HQ. apply IZR_le in HQ.
  set (P := IZR (peak size m)) in *. set (Q := IZR (peak size 1)) in *.
  set (G := gain size) in *.
  assert (Hd : (- 1 <= P - m * Q <= 1)%R) by nra.
  assert (HQi : (0 < / Q <= / 32767)%R).
  { split; [apply Rinv_0_lt_compat; lra | apply Rinv_le_contravar; lra]. }
  replace (P / Q - m)%R with ((P - m * Q) * / Q)%R by (field; lra).
  apply Rabs_le. nra.
Qed.

(** *** The three branches of the estimate *)

Lemma div_pos_lt (x y : R) : (0 < y)%R -> (x < y)%R -> (x / y < 1)%R.
Proof.
  intros Hy Hx. apply (Rmult_lt_reg_r y); [exact Hy |].
  unfold Rdiv. rewrite Rmult_assoc, Rinv_l by lra. lra.
Qed.

Lemma div_pos_pos (x y : R) : (0 < y)%R -> (0 < x)%R -> (0 < x / y)%R.
Proof. intros Hy Hx. apply Rmult_lt_0_compat; [exact Hx | now apply Rinv_0_lt_compat]. Qed.

Lemma div_pos_le (x y : R) : (0 < y)%R -> (x <= y)%R -> (x / y <= 1)%R.
Proof.
  intros Hy Hx. apply (Rmult_le_reg_r y); [exact Hy |].
  unfold Rdiv. rewrite Rmult_assoc, Rinv_l by lra. lra.
Qed.

(** Red is the peak, blue is present: the warm side, from green and blue. *)
Lemma estimate_warm2 (r g bl : R) :
  (0 < bl < r)%R -> (0 <= g <= r)%R ->
  temp (estimate 1 (mksg r g bl)) =
  to_long (exp ((g / r + bl / r - (GAMMA_K0GR + GAMMA_K0BR)) /
                (GAMMA_K1GR + GAMMA_K1BR)) + IZR MINTEMP + 0.5).
Proof.
  intros Hb Hg. unfold estimate. cbn [red green blue].
  rewrite (MAX_l r g) by lra. rewrite (MAX_r bl r) by lra.
  rewrite (Rgtb_true r 0) by lra. cbn [andb Z.gtb Z.compare].
  assert (Hr : (r / r = 1)%R) by (field; lra).
  pose proof (div_pos_lt bl r ltac:(lra) ltac:(lra)) as H1.
  pose proof (div_pos_pos bl r ltac:(lra) ltac:(lra)) as H2.
  rewrite (Rltb_true (bl / r - r / r) 0) by lra.
  rewrite (Rgtb_true (bl / r) 0) by lra.
  cbn [temp]. do 4 f_equal. rewrite Hr. lra.
Qed.

(** Red is the peak, blue is absent: the warm side, from green alone. *)
Lemma estimate_warm1 (r g : R) :
  (0 < g <= r)%R ->
  temp (estimate 1 (mksg r g 0)) =
  to_long (exp ((g / r - GAMMA_K0GR) / GAMMA_K1GR) + IZR MINTEMP + 0.5).
Proof.
  intros Hg. unfold estimate. cbn [red green blue].
  rewrite (MAX_l r g) by lra. rewrite (MAX_r 0 r) by lra.
  rewrite (Rgtb_true r 0) by lra. cbn [andb Z.gtb Z.compare].
  assert (Hr : (r / r = 1)%R) by (field; lra).
  assert (H0 : (0 / r = 0)%R) by (field; lra).
  pose proof (div_pos_pos g r ltac:(lra) ltac:(lra)) as H2.
  rewrite Hr, H0.
  rewrite (Rltb_true (0 - 1) 0) by lra. rewrite (Rgtb_false 0 0) by lra.
  rewrite (Rgtb_true (g / r) 0) by lra. reflexivity.
Qed.

(** Blue is the peak: the cool side, from green and red. *)
Lemma estimate_cool (r g bl : R) :
  (0 < bl)%R -> (0 <= r <= bl)%R -> (0 <= g <= bl)%R ->
  temp (estimate 1 (mksg r g bl)) =
  to_long (exp ((g / bl + r / bl - (GAMMA_K0GB + GAMMA_K0RB)) /
                (GAMMA_K1GB + GAMMA_K1RB)) + IZR (TEMP_NORM - MINTEMP) + 0.5).
Proof.
  intros Hb Hr Hg. unfold estimate. cbn [red green blue].
  assert (Hm : (MAX r g <= bl)%R).
  { unfold MAX. destruct (Rgtb r g); lra. }
  rewrite (MAX_l bl (MAX r g)) by exact Hm.
  rewrite (Rgtb_true bl 0) by lra. cbn [andb Z.gtb Z.compare].
  assert (Hbb : (bl / bl = 1)%R) by (field; lra).
  pose proof (div_pos_le r bl ltac:(lra) ltac:(lra)) as H1.
  rewrite (Rltb_false (bl / bl - r / bl) 0) by lra.
  cbn [temp]. do 4 f_equal. rewrite Hbb. lra.
Qed.

(** *** Checked bounds on logarithms *)

Lemma ln_upper_checked (k : nat) (c m d : Z) :
  ln_upper_check k c m d = true -> (ln (IZR c) <= IZR m / IZR d)%R.
Proof.
  unfold ln_upper_check. rewrite !andb_true_iff.
  intros ((((Hc & Hd) & Hdiv) & H0) & Hb).
  apply Z.ltb_lt in Hc, Hd. apply Z.eqb_eq in Hdiv. apply Z.leb_le in H0, Hb.
  apply ln_le_of_exp; [now apply IZR_lt |].
  rewrite <- (fx_decimal m d Hd) by (apply Z.mod_divide; [lia | exact Hdiv]).
  now apply (exp_ge_of_lower k).
Qed.

Lemma ln_lower_checked (k : nat) (c m d : Z) :
  ln_lower_check k c m d = true -> (IZR m / IZR d <= ln (IZR c))%R.
Proof.
  unfold ln_lower_check. rewrite !andb_true_iff.
  intros ((((Hc & Hd) & Hdiv) & H0) & Hb).
  apply Z.ltb_lt in Hc, Hd. apply Z.eqb_eq in Hdiv. apply Z.leb_le in H0, Hb.
  apply ln_ge_of_exp; [now apply IZR_lt |].
  rewrite <- (fx_decimal m d Hd) by (apply Z.mod_divide; [lia | exact Hdiv]).
  now apply (exp_le_of_lower k).
Qed.

Lemma ln_300 : (5.7 <= ln 300 <= 5.71)%R.
Proof.
  pose proof (ln_lower_checked 24 300 570 100 ltac:(vm_compute; reflexivity)).
  pose proof (ln_upper_checked 24 300 571 100 ltac:(vm_compute; reflexivity)). lra.
Qed.

Lemma ln_2000 : (7.6 <= ln 2000 <= 7.61)%R.
Proof.
  pose proof (ln_lower_checked 24 2000 760 100 ltac:(vm_compute; reflexivity)).
  pose proof (ln_upper_checked 24 2000 761 100 ltac:(vm_compute; reflexivity)). lra.
Qed.

Lemma ln_3800 : (8.24 <= ln 3800 <= 8.25)%R.
Proof.
  pose proof (ln_lower_checked 24 3800 824 100 ltac:(vm_compute; reflexivity)).
  pose proof (ln_upper_checked 24 3800 825 100 ltac:(vm_compute; reflexivity)). lra.
Qed.

Lemma ln_700 : (6.55107 <= ln 700 <= 6.551081)%R.
Proof.
  pose proof (ln_lower_checked 32 700 655107 100000 ltac:(vm_compute; reflexivity)).
  pose proof ln_700_upper. lra.
Qed.

Lemma ln_3200 : (8.07 <= ln 3200 <= 8.08)%R.
Proof.
  pose proof (ln_lower_checked 24 3200 807 100 ltac:(vm_compute; reflexivity)).
  pose proof (ln_upper_checked 24 3200 808 100 ltac:(vm_compute; reflexivity)). lra.
Qed.

Lemma ln_9200 : (9.12 <= ln 9200 <= 9.13)%R.
Proof.
  pose proof (ln_lower_checked 24 9200 912 100 ltac:(vm_compute; reflexivity)).
  pose proof (ln_upper_checked 24 9200 913 100 ltac:(vm_compute; reflexivity)). lra.
Qed.

(** *** The round trip, by branch *)

Lemma peak_nonneg (size : Z) (m : R) :
  2 <= size -> (0 <= m <= 1)%R -> 0 <= peak size m.
Proof.
  intros Hs Hm. rewrite <- (peak_zero size Hs). apply peak_mono; lra || lia.
Qed.

Lemma peak_le_one (size : Z) (m : R) :
  2 <= size -> (0 <= m <= 1)%R -> peak size m <= peak size 1.
Proof. intros Hs Hm. apply peak_mono; lra || lia. Qed.

Lemma setst_gamma_warm (t : Z) :
  MINTEMP < t < TEMP_NORM ->
  setst_gamma t =
  mksg 1
       (trimdouble (GAMMA_K0GR + GAMMA_K1GR * ln (IZR (t - MINTEMP))) 0 1)
       (trimdouble (GAMMA_K0BR + GAMMA_K1BR * ln (IZR (t - MINTEMP))) 0 1).
Proof.
  intro Ht. unfold setst_gamma.
  replace (t <? TEMP_NORM) with true by zbool.
  replace (t >? MINTEMP) with true by zbool.
  cbv zeta. now rewrite (minus_IZR t).
Qed.

Lemma setst_gamma_cool (t : Z) :
  TEMP_NORM <= t ->
  setst_gamma t =
  mksg (trimdouble (GAMMA_K0RB + GAMMA_K1RB * ln (IZR (t - (TEMP_NORM - MINTEMP)))) 0 1)
       (trimdouble (GAMMA_K0GB + GAMMA_K1GB * ln (IZR (t - (TEMP_NORM - MINTEMP)))) 0 1)
       1.
Proof.
  intro Ht. unfold setst_gamma.
  replace (t <? TEMP_NORM) with false by zbool.
  cbv zeta. now rewrite (minus_IZR t).
Qed.

(** Warm side, green and blue both inside their range. *)
Lemma roundtrip_warm2 (g0 : XRRCrtcGamma) (t : Z) :
  2 <= gamma_size g0 -> MINTEMP < t < TEMP_NORM ->
  (1 / 10 <= GAMMA_K0GR + GAMMA_K1GR * ln (IZR (t - MINTEMP)) <= 1)%R ->
  (1 / 10 <= GAMMA_K0BR + GAMMA_K1BR * ln (IZR (t - MINTEMP)) <= 9 / 10)%R ->
  Z.abs (roundtrip g0 t - t) <= 50.
Proof.
  intros Hs Ht Hg Hb.
  rewrite roundtrip_estimate by lia. rewrite setst_gamma_warm by exact Ht.
  cbn [red green blue]. rewrite !Rplus_0_l.
  rewrite !trimdouble_mid by lra.
  set (size := gamma_size g0) in *. set (L := ln (IZR (t - MINTEMP))) in *.
  set (mg := (GAMMA_K0GR + GAMMA_K1GR * L)%R) in *.
  set (mb := (GAMMA_K0BR + GAMMA_K1BR * L)%R) in *.
  pose proof (peak_inner size mb Hs ltac:(lra)) as [Hb0 Hb1].
  pose proof (peak_nonneg size mg Hs ltac:(lra)) as Hg0.
  pose proof (peak_le_one size mg Hs ltac:(lra)) as Hg1.
  apply IZR_lt in Hb0, Hb1. apply IZR_le in Hg0, Hg1.
  rewrite estimate_warm2 by lra.
  apply (recover_at t (t - MINTEMP) MINTEMP).
  - lia.
  - unfold MINTEMP, TEMP_NORM in *. lia.
  - unfold MINTEMP. lia.
  - unfold GAMMA_K1GR, GAMMA_K1BR. rewrite Rabs_right; lra.
  - fold L.
    pose proof (Rabs_bound _ _ (ratio_close size mg Hs ltac:(lra))) as Hrg.
    pose proof (Rabs_bound _ _ (ratio_close size mb Hs ltac:(lra))) as Hrb.
    apply Rabs_le. unfold mg, mb in *. lra.
Qed.

(** Warm side, blue clamped to zero. *)
Lemma roundtrip_warm1 (g0 : XRRCrtcGamma) (t : Z) :
  2 <= gamma_size g0 -> MINTEMP < t < TEMP_NORM ->
  (1 / 10 <= GAMMA_K0GR + GAMMA_K1GR * ln (IZR (t - MINTEMP)) <= 1)%R ->
  (GAMMA_K0BR + GAMMA_K1BR * ln (IZR (t - MINTEMP)) <= 0)%R ->
  Z.abs (roundtrip g0 t - t) <= 50.
Proof.
  intros Hs Ht Hg Hb.
  rewrite roundtrip_estimate by lia. rewrite setst_gamma_warm by exact Ht.
  cbn [red green blue]. rewrite !Rplus_0_l.
  rewrite (trimdouble_mid (GAMMA_K0GR + _)) by lra.
  rewrite (trimdouble_low (GAMMA_K0BR + _)) by lra.
  rewrite peak_zero by exact Hs.
  set (size := gamma_size g0) in *. set (L := ln (IZR (t - MINTEMP))) in *.
  set (mg := (GAMMA_K0GR + GAMMA_K1GR * L)%R) in *.
  assert (Hg0 : 0 < peak size mg).
  { destruct (Rle_dec mg (9 / 10)) as [H9 | H9].
    - apply (peak_inner size mg Hs). lra.
    - apply Z.lt_le_trans with (peak size (9 / 10)).
      + apply (peak_inner size (9 / 10) Hs). lra.
      + apply peak_mono; lra || lia. }
  pose proof (peak_le_one size mg Hs ltac:(lra)) as Hg1.
  apply IZR_lt in Hg0. apply IZR_le in Hg1.
  rewrite estimate_warm1 by lra.
  apply (recover_at t (t - MINTEMP) MINTEMP).
  - lia.
  - unfold MINTEMP, TEMP_NORM in *. lia.
  - unfold MINTEMP. lia.
  - unfold GAMMA_K1GR. rewrite Rabs_right; lra.
  - fold L.
    pose proof (Rabs_bound _ _ (ratio_close size mg Hs ltac:(lra))) as Hrg.
    apply Rabs_le. unfold mg in *. lra.
Qed.

(** Cool side, red and green inside their range, or clamped from at most
    1/100000 above it. *)
Lemma roundtrip_cool (g0 : XRRCrtcGamma) (t : Z) :
  2 <= gamma_size g0 -> TEMP_NORM <= t <= 15800 ->
  (1 / 10 <= GAMMA_K0RB + GAMMA_K1RB * ln (IZR (t - (TEMP_NORM - MINTEMP)))
          <= 1 + 1 / 100000)%R ->
  (1 / 10 <= GAMMA_K0GB + GAMMA_K1GB * ln (IZR (t - (TEMP_NORM - MINTEMP)))
          <= 1 + 1 / 100000)%R ->
  Z.abs (roundtrip g0 t - t) <= 50.
Proof.
  intros Hs Ht Hr Hg.
  rewrite roundtrip_estimate by lia. rewrite setst_gamma_cool by lia.
  cbn [red green blue]. rewrite !Rplus_0_l.
  set (size := gamma_size g0) in *.
  set (L := ln (IZR (t - (TEMP_NORM - MINTEMP)))) in *.
  set (xr := (GAMMA_K0RB + GAMMA_K1RB * L)%R) in *.
  set (xg := (GAMMA_K0GB + GAMMA_K1GB * L)%R) in *.
  assert (Hclamp : forall x, (1 / 10 <= x <= 1 + 1 / 100000)%R ->
            (1 / 10 <= trimdouble x 0 1 <= 1)%R /\
            (- (1 / 100000) <= trimdouble x 0 1 - x <= 0)%R).
  { intros x Hx. destruct (Rle_dec x 1) as [H1 | H1].
    - rewrite trimdouble_mid by lra. lra.
    - rewrite trimdouble_high by lra. lra. }
  destruct (Hclamp xr Hr) as [Hmr Her]. destruct (Hclamp xg Hg) as [Hmg Heg].
  set (mr := trimdouble xr 0 1) in *. set (mg := trimdouble xg 0 1) in *.
  pose proof (peak_one_large size Hs) as H1.
  pose proof (peak_nonneg size mr Hs ltac:(lra)) as Hr0.
  pose proof (peak_le_one size mr Hs ltac:(lra)) as Hr1.
  pose proof (peak_nonneg size mg Hs ltac:(lra)) as Hg0.
  pose proof (peak_le_one size mg Hs ltac:(lra)) as Hg1.
  apply IZR_le in H1, Hr0, Hr1, Hg0, Hg1.
  rewrite estimate_cool by lra.
  apply (recover_at t (t - (TEMP_NORM - MINTEMP)) (TEMP_NORM - MINTEMP)).
  - lia.
  - unfold MINTEMP, TEMP_NORM in *. lia.
  - unfold MINTEMP, TEMP_NORM. lia.
  - unfold GAMMA_K1GB, GAMMA_K1RB. rewrite Rabs_left; lra.
  - fold L.
    pose proof (Rabs_bound _ _ (ratio_close size mr Hs ltac:(lra))) as Hrr.
    pose proof (Rabs_bound _ _ (ratio_close size mg Hs ltac:(lra))) as Hrg.
    apply Rabs_le. unfold xr, xg in *. lra.
Qed.

(** *** The round trip at the six temperatures *)

Lemma peak_single (m : R) : peak 1 m = 0.
Proof.
  unfold peak, ramp_entry. change (1 - 1) with 0.
  apply to_ushort_eq; [lia |]. rewrite GAMMA_MULT_eq. simpl. lra.
Qed.

(** C1, as stated, fails on a table of one entry: the entry written is 0
    in every channel, and the temperature read back for 1000 is 0. *)
Lemma roundtrip_single_entry :
  roundtrip single_entry_crtc 1000 = 0 /\
  ~ Z.abs (roundtrip single_entry_crtc 1000 - 1000) <= 50.
Proof.
  assert (H : roundtrip single_entry_crtc 1000 = 0).
  { rewrite roundtrip_estimate by (simpl; lia).
    change (gamma_size single_entry_crtc) with 1. rewrite !peak_single.
    unfold estimate. cbn [red green blue].
    rewrite (MAX_l (0 + 0) (0 + 0)) by lra. rewrite (MAX_l (0 + 0) (0 + 0)) by lra.
    rewrite (Rgtb_false (0 + 0) 0) by lra. cbn [andb temp].
    unfold to_long. apply Rtrunc_eq; [lia | simpl; lra]. }
  split; [exact H |]. rewrite H. simpl. lia.
Qed.

(** C1, amended: on a table of at least two entries, writing one of the
    temperatures 1000, 2700, 4500, 6500, 9000, 15000 at brightness 1.0 with
    [setst] and reading the display back with [getst] recovers the
    temperature within 50 K. *)
Theorem roundtrip_within_50 (g0 : XRRCrtcGamma) (t : Z) :
  2 <= gamma_size g0 ->
  In t [1000; 2700; 4500; 6500; 9000; 15000] ->
  Z.abs (roundtrip g0 t - t) <= 50.
Proof.
  intros Hs Ht. simpl in Ht.
  destruct Ht as [<- | [<- | [<- | [<- | [<- | [<- | []]]]]]].
  - pose proof ln_300 as HL.
    apply roundtrip_warm1; try exact Hs; try (unfold MINTEMP, TEMP_NORM; lia);
      change (IZR (1000 - MINTEMP)) with 300%R;
      unfold GAMMA_K0GR, GAMMA_K1GR, GAMMA_K0BR, GAMMA_K1BR; lra.
  - pose proof ln_2000 as HL.
    apply roundtrip_warm2; try exact Hs; try (unfold MINTEMP, TEMP_NORM; lia);
      change (IZR (2700 - MINTEMP)) with 2000%R;
      unfold GAMMA_K0GR, GAMMA_K1GR, GAMMA_K0BR, GAMMA_K1BR; lra.
  - pose proof ln_3800 as HL.
    apply roundtrip_warm2; try exact Hs; try (unfold MINTEMP, TEMP_NORM; lia);
      change (IZR (4500 - MINTEMP)) with 3800%R;
      unfold GAMMA_K0GR, GAMMA_K1GR, GAMMA_K0BR, GAMMA_K1BR; lra.
  - pose proof ln_700 as HL.
    apply roundtrip_cool; try exact Hs; try (unfold MINTEMP, TEMP_NORM; lia);
      change (IZR (6500 - (TEMP_NORM - MINTEMP))) with 700%R;
      unfold GAMMA_K0RB, GAMMA_K1RB, GAMMA_K0GB, GAMMA_K1GB; lra.
  - pose proof ln_3200 as HL.
    apply roundtrip_cool; try exact Hs; try (unfold MINTEMP, TEMP_NORM; lia);
      change (IZR (9000 - (TEMP_NORM - MINTEMP))) with 3200%R;
      unfold GAMMA_K0RB, GAMMA_K1RB, GAMMA_K0GB, GAMMA_K1GB; lra.
  - pose proof ln_9200 as HL.
    apply roundtrip_cool; try exact Hs; try (unfold MINTEMP, TEMP_NORM; lia);
      change (IZR (15000 - (TEMP_NORM - MINTEMP))) with 9200%R;
      unfold GAMMA_K0RB, GAMMA_K1RB, GAMMA_K0GB, GAMMA_K1GB; lra.
Qed.

Lemma roundtrip_within_50_witness :
  Z.abs (roundtrip unit_ramp 4500 - 4500) <= 50.
Proof.
  apply (roundtrip_within_50 unit_ramp 4500).
  - unfold unit_ramp. rewrite setst_ramp_size. lia.
  - simpl. auto.
Defined.

(** * Further properties of the program *)

(** ** Clamping and the bounds *)

(** X1: the three-entry lookup of [trimdouble] is the clamp of [x] to
    [[a, b]]. *)
Theorem trimdouble_clamp (x a b : R) :
  (a <= b)%R -> trimdouble x a b = Rmax a (Rmin x b).
Proof.
  intro Hab. unfold Rmax, Rmin.
  destruct (Rle_dec x b) as [Hxb | Hxb].
  - destruct (Rle_dec a x) as [Hax | Hax].
    + destruct (Req_dec_T x a) as [-> | Hne].
      * apply trimdouble_low; lra.
      * apply trimdouble_mid; lra.
    + apply trimdouble_low; lra.
  - destruct (Rle_dec a b) as [_ | Hn]; [| contradiction].
    apply trimdouble_high; lra.
Qed.

Lemma trimdouble_clamp_witness : trimdouble 1.5 0 1 = Rmax 0 (Rmin 1.5 1).
Proof. apply (trimdouble_clamp 1.5 0 1). lra. Defined.

(** X2: [boundtemp] returns a temperature of at least MINTEMP whenever the
    fallback is negative or itself at least MINTEMP; it returns a
    temperature of at least MINTEMP unchanged and without a word; below
    MINTEMP it logs one warning, which leaves the error flag, the display
    and the requests alone; and a fallback from 0 on is returned as it is,
    also when it is below MINTEMP. *)
Theorem boundtemp_bounds (temp dfl : Z) (what : string) (w : World) :
  (dfl < 0 \/ MINTEMP <= dfl -> MINTEMP <= fst (boundtemp temp dfl what w)) /\
  (MINTEMP <= temp -> boundtemp temp dfl what w = (temp, w)) /\
  (temp < MINTEMP ->
     (0 <= dfl -> fst (boundtemp temp dfl what w) = dfl) /\
     exists line,
       snd (boundtemp temp dfl what w) = add_stderr w [(Warning, line)]).
Proof.
  unfold boundtemp, MINTEMP, TEMP_NORM.
  destruct (Z.leb_spec temp 0) as [H0 | H0];
    [| destruct (Z.ltb_spec temp 700) as [H1 | H1]];
    rewrite ?bind_run, ?logwarn_run; unfold ret; cbn [fst snd];
    destruct (Z.ltb_spec dfl 0) as [Hd | Hd];
    (split; [intros [Hn | Hp]; lia | split; [intro; try lia; reflexivity |]]);
    intro Hlt; try lia; (split; [intro; try lia; reflexivity | eexists; reflexivity]).
Qed.


(** ** What [getst] reports *)

Lemma to_long_ge (z : Z) (x : R) : 0 <= z -> (IZR z <= x)%R -> z <= to_long x.
Proof.
  intros Hz Hx. unfold to_long. rewrite Rtrunc_nonneg.
  - now apply Zfloor_lub.
  - apply IZR_le in Hz. lra.
Qed.

Lemma to_long_half : to_long (0 + 0.5) = 0.
Proof. unfold to_long. apply Rtrunc_eq; [lia | simpl; lra]. Qed.

Lemma estimate_range (n : Z) (sg : sgamma) :
  (temp (estimate n sg) = 0 \/ MINTEMP <= temp (estimate n sg)) /\
  (0 <= brightness (estimate n sg) <= 1)%R.
Proof.
  unfold estimate.
  destruct (Rgtb (MAX (blue sg) (MAX (red sg) (green sg))) 0 && (n >? 0));
    cbn [temp brightness].
  - split; [right | apply trimdouble_range; lra].
    apply to_long_ge; [unfold MINTEMP; lia |].
    destruct (Rltb _ 0); [destruct (Rgtb _ 0); [| destruct (Rgtb _ 0)] |];
      try (pose proof (exp_pos ((green sg / MAX (blue sg) (MAX (red sg) (green sg)) + 1 +
             (blue sg / MAX (blue sg) (MAX (red sg) (green sg)) -
              red sg / MAX (blue sg) (MAX (red sg) (green sg))) -
             (GAMMA_K0GR + GAMMA_K0BR)) / (GAMMA_K1GR + GAMMA_K1BR))));
      try (pose proof (exp_pos ((green sg / MAX (blue sg) (MAX (red sg) (green sg)) -
             GAMMA_K0GR) / GAMMA_K1GR)));
      try (pose proof (exp_pos ((green sg / MAX (blue sg) (MAX (red sg) (green sg)) + 1 -
             (blue sg / MAX (blue sg) (MAX (red sg) (green sg)) -
              red sg / MAX (blue sg) (MAX (red sg) (green sg))) -
             (GAMMA_K0GB + GAMMA_K0RB)) / (GAMMA_K1GB + GAMMA_K1RB))));
      unfold MINTEMP, TEMP_NORM in *; simpl IZR in *; lra.
  - split; [left; apply to_long_half | apply trimdouble_range; lra].
Qed.

Lemma crtc_range_zero (icrtc : Z) : crtc_range icrtc 0 = (0, 0).
Proof.
  unfold crtc_range, to_unsigned. rewrite Z.mod_0_l by lia.
  pose proof (Z.mod_pos_bound icrtc (2 ^ 32) ltac:(lia)) as Hb.
  destruct (Z.ltb_spec (icrtc mod 2 ^ 32) 0); [lia | reflexivity].
Qed.

(** X4: whatever the display holds, the state [getst] reports has a
    temperature that is 0 (no signal) or at least MINTEMP and a brightness
    in [[0, 1]]; on a screen without CRTCs it is temperature 0 at
    brightness 0.  Reading changes no table, leaves the error flag and the
    standard output alone, and sends GetCrtcGamma requests about that
    screen only. *)
Theorem getst_reports (verbose : bool) (iscreen icrtc : Z) (w : World) :
  (temp (fst (getst verbose iscreen icrtc w)) = 0 \/
   MINTEMP <= temp (fst (getst verbose iscreen icrtc w))) /\
  (0 <= brightness (fst (getst verbose iscreen icrtc w)) <= 1)%R /\
  (screen_at (display w) iscreen = [] ->
   fst (getst verbose iscreen icrtc w) = mkts 0 0) /\
  display (snd (getst verbose iscreen icrtc w)) = display w /\
  fail (snd (getst verbose iscreen icrtc w)) = fail w /\
  stdout (snd (getst verbose iscreen icrtc w)) = stdout w /\
  exists cs,
    requests (snd (getst verbose iscreen icrtc w)) =
    requests w ++ map (GetCrtcGamma iscreen) cs.
Proof.
  rewrite getst_screen. cbn [fst snd display fail stdout requests].
  unfold screen_read.
  destruct (screen_sums (screen_at (display w) iscreen) icrtc) as [n sg] eqn:Hs.
  pose proof (estimate_range n sg) as [Ht Hb].
  split; [exact Ht |]. split; [exact Hb |]. split.
  - intro He. rewrite He in Hs. unfold screen_sums in Hs.
    change (Z.of_nat (length (@nil XRRCrtcGamma))) with 0 in Hs.
    rewrite crtc_range_zero in Hs.
    cbn in Hs. injection Hs as <- <-.
    unfold estimate. cbn [red green blue].
    rewrite (MAX_l 0 0) by lra. rewrite (MAX_l 0 0) by lra.
    rewrite (Rgtb_false 0 0) by lra. cbn [andb].
    rewrite to_long_half, trimdouble_low by lra. reflexivity.
  - repeat split; try reflexivity.
    rewrite get_requests_selected. eexists. reflexivity.
Qed.

(** ** What [setst] writes and what it keeps *)

Lemma write_crtc_nth (sg : sgamma) (b : R) (scr : Screen) (c : Z) (k : nat) :
  nth k (write_crtc sg b scr c) no_gamma =
  if (Z.to_nat c =? k)%nat && (k <? length scr)%nat
  then setst_ramp sg b (gamma_size (nth k scr no_gamma))
  else nth k scr no_gamma.
Proof.
  unfold write_crtc, crtc_at.
  destruct (Nat.eqb_spec (Z.to_nat c) k) as [-> | Hne]; cbn [andb].
  - destruct (Nat.ltb_spec k (length scr)) as [Hl | Hl].
    + now rewrite nth_set_nth_eq.
    + now rewrite set_nth_beyond.
  - now rewrite nth_set_nth_ne.
Qed.

Lemma write_crtcs_cons (sg : sgamma) (b : R) (c : Z) (cs : list Z) (scr : Screen) :
  write_crtcs sg b (c :: cs) scr = write_crtcs sg b cs (write_crtc sg b scr c).
Proof. reflexivity. Qed.

(** Entry [k] of a screen after the CRTCs [cs] were written: the new table,
    of the old size, when [k] is among them, the old table otherwise. *)
Lemma write_crtcs_nth (sg : sgamma) (b : R) (cs : list Z) (scr : Screen) (k : nat) :
  nth k (write_crtcs sg b cs scr) no_gamma =
  if existsb (fun c => (Z.to_nat c =? k)%nat) cs && (k <? length scr)%nat
  then setst_ramp sg b (gamma_size (nth k scr no_gamma))
  else nth k scr no_gamma.
Proof.
  revert scr. induction cs as [| c cs IH]; intro scr.
  - reflexivity.
  - rewrite write_crtcs_cons, IH, write_crtc_length, !write_crtc_nth.
    cbn [existsb].
    destruct (Nat.eqb (Z.to_nat c) k), (existsb _ cs), (Nat.ltb k (length scr));
      cbn [andb orb]; try reflexivity.
Qed.

Lemma write_crtcs_size (sg : sgamma) (b : R) (cs : list Z) (scr : Screen) (k : nat) :
  gamma_size (nth k (write_crtcs sg b cs scr) no_gamma) =
  gamma_size (nth k scr no_gamma).
Proof.
  rewrite write_crtcs_nth.
  destruct (existsb _ cs && (k <? length scr)%nat); reflexivity.
Qed.

Lemma selected_crtcs_length (icrtc : Z) (scr scr' : Screen) :
  length scr = length scr' -> selected_crtcs icrtc scr = selected_crtcs icrtc scr'.
Proof. intro H. unfold selected_crtcs. now rewrite H. Qed.

Lemma screen_write_length (icrtc : Z) (ts : tempstate) (scr : Screen) :
  length (screen_write icrtc ts scr) = length scr.
Proof. unfold screen_write. apply write_crtcs_length. Qed.

(** Writing twice is writing the second state. *)
Lemma screen_write_twice (icrtc : Z) (ts1 ts2 : tempstate) (scr : Screen) :
  screen_write icrtc ts2 (screen_write icrtc ts1 scr) = screen_write icrtc ts2 scr.
Proof.
  apply (nth_ext _ _ no_gamma no_gamma).
  - now rewrite !screen_write_length.
  - intros k Hk. rewrite !screen_write_length in Hk.
    unfold screen_write at 1 3.
    rewrite (selected_crtcs_length icrtc _ scr) by apply screen_write_length.
    rewrite !write_crtcs_nth, screen_write_length.
    destruct (existsb _ _ && (k <? length scr)%nat) eqn:Hhit.
    + unfold screen_write. now rewrite write_crtcs_size.
    + unfold screen_write. now rewrite write_crtcs_nth, Hhit.
Qed.

Lemma set_nth_screen_length (d : Display) (i : Z) (scr : Screen) (j : Z) :
  length scr = length (screen_at d i) ->
  length (screen_at (set_nth (Z.to_nat i) scr d) j) = length (screen_at d j).
Proof.
  intro H. unfold screen_at in *.
  destruct (Nat.eq_dec (Z.to_nat i) (Z.to_nat j)) as [E | E].
  - rewrite <- E. destruct (Nat.lt_ge_cases (Z.to_nat i) (length d)) as [Hl | Hl].
    + now rewrite nth_set_nth_eq.
    + now rewrite set_nth_beyond.
  - now rewrite nth_set_nth_ne.
Qed.

(** X5: [setst] keeps the shape of the display: the number of screens, the
    number of CRTCs of every screen and the size of every gamma table stay
    as they were, every screen other than the one written keeps its tables,
    and the error flag and the standard output are left alone. *)
Theorem setst_keeps_shape (verbose : bool) (iscreen icrtc : Z) (ts : tempstate)
    (w : World) :
  length (display (snd (setst verbose iscreen icrtc ts w))) = length (display w) /\
  (forall j,
     length (screen_at (display (snd (setst verbose iscreen icrtc ts w))) j) =
     length (screen_at (display w) j)) /\
  (forall j c,
     gamma_size (crtc_at (screen_at (display (snd (setst verbose iscreen icrtc ts w))) j) c) =
     gamma_size (crtc_at (screen_at (display w) j) c)) /\
  (forall j, 0 <= iscreen -> 0 <= j -> j <> iscreen ->
     screen_at (display (snd (setst verbose iscreen icrtc ts w))) j =
     screen_at (display w) j) /\
  fail (snd (setst verbose iscreen icrtc ts w)) = fail w /\
  stdout (snd (setst verbose iscreen icrtc ts w)) = stdout w.
Proof.
  rewrite setst_screen. cbn [snd display fail stdout].
  split; [apply length_set_nth |]. split.
  { intro j. apply set_nth_screen_length. apply screen_write_length. }
  split.
  { intros j c. unfold screen_at at 1.
    destruct (Nat.eq_dec (Z.to_nat iscreen) (Z.to_nat j)) as [E | E].
    - rewrite <- E.
      destruct (Nat.lt_ge_cases (Z.to_nat iscreen) (length (display w))) as [Hl | Hl].
      + rewrite nth_set_nth_eq by exact Hl.
        unfold screen_write, crtc_at. rewrite write_crtcs_size.
        unfold screen_at. now rewrite E.
      + rewrite set_nth_beyond by exact Hl. unfold screen_at. now rewrite E.
    - rewrite nth_set_nth_ne by exact E. reflexivity. }
  split.
  { intros j Hi Hj Hne. apply screen_at_set_nth_ne; lia. }
  split; reflexivity.
Qed.

(** X6: the last write wins: after two calls of [setst] on the same screen
    with the same controller index, the display is as after the second
    alone; in particular a repeated call changes nothing more. *)
Theorem setst_last_write_wins (v1 v2 : bool) (iscreen icrtc : Z)
    (ts1 ts2 : tempstate) (w : World) :
  display (snd (setst v2 iscreen icrtc ts2 (snd (setst v1 iscreen icrtc ts1 w)))) =
  display (snd (setst v2 iscreen icrtc ts2 w)).
Proof.
  rewrite !setst_screen. cbn [snd display].
  set (scr := screen_at (display w) iscreen).
  destruct (Nat.lt_ge_cases (Z.to_nat iscreen) (length (display w))) as [Hl | Hl].
  - unfold screen_at at 1. rewrite nth_set_nth_eq by exact Hl.
    now rewrite set_nth_twice, screen_write_twice.
  - rewrite (set_nth_beyond _ (screen_write icrtc ts1 scr)) by exact Hl.
    reflexivity.
Qed.

Lemma setst_gamma_range (t : Z) :
  (0 <= red (setst_gamma t) <= 1)%R /\
  (0 <= green (setst_gamma t) <= 1)%R /\
  (0 <= blue (setst_gamma t) <= 1)%R.
Proof.
  unfold setst_gamma.
  destruct (t <? TEMP_NORM); [destruct (t >? MINTEMP) |]; cbn [red green blue];
    repeat split; try lra; apply trimdouble_range; lra.
Qed.

Lemma to_ushort_range (x : R) : 0 <= to_ushort x <= 65535.
Proof.
  unfold to_ushort. pose proof (Z.mod_pos_bound (Rtrunc x) (2 ^ 16) ltac:(lia)). lia.
Qed.

Lemma ramp_channel_range (b mult : R) (size : Z) (l : list Z) :
  Forall (fun x => 0 <= x <= 65535) (map (ramp_entry b mult size) l).
Proof.
  apply Forall_forall. intros x Hx. apply in_map_iff in Hx.
  destruct Hx as (i & <- & _). apply to_ushort_range.
Qed.

Lemma ramp_channel_nondecreasing_any (b mult : R) (size : Z) :
  (0 <= b <= 1)%R -> (0 <= mult <= 1)%R ->
  nondecreasing (map (ramp_entry b mult size) (map Z.of_nat (seq 0 (Z.to_nat size)))).
Proof.
  intros Hb Hm. destruct (Z.le_gt_cases 1 size) as [Hs | Hs].
  - now apply ramp_channel_nondecreasing.
  - intros i j Hi Hij Hj. rewrite !length_map, length_seq in Hj. lia.
Qed.

Lemma setst_ramp_well_formed (t : Z) (b : R) (size : Z) :
  well_formed_gamma (setst_ramp (setst_gamma t) (trimdouble b 0 1) size).
Proof.
  pose proof (setst_gamma_range t) as (Hr & Hg & Hbl).
  pose proof (trimdouble_range b 0 1 ltac:(lra)) as Hb.
  unfold well_formed_gamma, setst_ramp. cbn [gamma_size gamma_red gamma_green gamma_blue].
  split; [| split].
  - rewrite !length_map, length_seq. auto.
  - repeat split; apply ramp_channel_range.
  - repeat split; now apply ramp_channel_nondecreasing_any.
Qed.

(** X7: every table [setst] sends, for any state and on any display, is
    well formed: each channel has as many entries as the CRTC's gamma size,
    every entry is an unsigned 16-bit value, and no channel decreases with
    the index; the table has the size the CRTC reported; and [setst] sends
    nothing but SetCrtcGamma requests about the screen it was given. *)
Theorem setst_sends_well_formed_tables (verbose : bool) (iscreen icrtc : Z)
    (ts : tempstate) (w : World) :
  exists new,
    requests (snd (setst verbose iscreen icrtc ts w)) = requests w ++ new /\
    forall r, In r new ->
      exists c g,
        r = SetCrtcGamma iscreen c g /\
        gamma_size g = gamma_size (crtc_at (screen_at (display w) iscreen) c) /\
        well_formed_gamma g.
Proof.
  rewrite setst_screen. cbn [snd requests]. eexists. split; [reflexivity |].
  intros r Hr. unfold write_requests, set_requests in Hr.
  apply in_map_iff in Hr. destruct Hr as (c & <- & _).
  eexists _, _. split; [reflexivity |]. split; [apply setst_ramp_size |].
  apply setst_ramp_well_formed.
Qed.

(** ** The three final modes *)

Lemma over_screens_id (cs : list Z) (d : Display) :
  over_screens (fun _ scr => scr) cs d = d.
Proof.
  revert d. induction cs as [| c cs IH]; intro d.
  - reflexivity.
  - rewrite over_screens_cons. unfold screen_at. rewrite set_nth_same. apply IH.
Qed.

Lemma setst_screen_at (verbose : bool) (j icrtc : Z) (ts : tempstate) (w : World) :
  0 <= j < Z.of_nat (length (display w)) ->
  screen_at (display (snd (setst verbose j icrtc ts w))) j =
  screen_write icrtc ts (screen_at (display w) j).
Proof.
  intro Hj. rewrite setst_screen. cbn [snd display].
  now apply screen_at_set_nth_eq.
Qed.

Lemma getst_value (verbose : bool) (j icrtc : Z) (w : World) :
  fst (getst verbose j icrtc w) = screen_read icrtc (screen_at (display w) j).
Proof. now rewrite getst_screen. Qed.

(** A pass over the screens [first] to [last], all on the display. *)
Lemma over_screens_range (F : Z -> Screen -> Screen) (first last j : Z)
    (d : Display) :
  0 <= first -> last < Z.of_nat (length d) -> 0 <= j ->
  screen_at (over_screens F (seqZ first (Z.to_nat (last + 1 - first))) d) j =
  if (first <=? j) && (j <=? last) then F j (screen_at d j) else screen_at d j.
Proof.
  intros Hf Hl Hj. destruct (Z.le_gt_cases first (last + 1)) as [Hle | Hgt].
  - rewrite over_screens_at by lia. zbool.
  - replace (Z.to_nat (last + 1 - first)) with 0%nat by lia.
    cbn [seqZ seq map over_screens fold_left]. zbool.
Qed.

Section FinalModes.

Variable crtc_arg : Z.
Variable verbose : bool.
Variable temp_day : Z.

(** The screens after absolute mode. *)
Lemma regularsct_screen_at (ts : tempstate) (first last : Z) (w : World) :
  0 <= first -> last < Z.of_nat (length (display w)) ->
  (forall j, 0 <= j ->
     screen_at (display (snd (regularsct crtc_arg verbose temp_day ts first last w))) j =
     if (first <=? j) && (j <=? last)
     then screen_write crtc_arg
            (if temp ts =? 0 then mkts temp_day (brightness ts) else ts)
            (screen_at (display w) j)
     else screen_at (display w) j) /\
  fail (snd (regularsct crtc_arg verbose temp_day ts first last w)) = fail w.
Proof.
  intros Hf Hl. unfold regularsct. rewrite bind_run.
  assert (Hpre : exists lg,
            (if temp ts =? 0 then ret (mkts temp_day (brightness ts))
             else boundts ts "specified by user") w =
            ((if temp ts =? 0 then mkts temp_day (brightness ts) else ts),
             add_stderr w lg)).
  { destruct (temp ts =? 0).
    - exists []. now rewrite add_stderr_nil.
    - eexists. apply boundts_run. }
  destruct Hpre as (lg & ->). cbn [fst snd].
  rewrite regularsct_loop_run by exact Hf.
  cbn [snd display fail add_stderr]. split; [| reflexivity].
  intros j Hj. now rewrite over_screens_range by lia.
Qed.

(** What estimate mode does to the world. *)
Lemma printestimate_effects (first last : Z) (w : World) :
  0 <= first ->
  let w' := snd (printestimate crtc_arg verbose first last w) in
  display w' = display w /\ fail w' = fail w /\
  stdout w' =
    stdout w ++
    map (fun i => Estimate i (screen_read crtc_arg (screen_at (display w) i)))
        (seqZ first (Z.to_nat (last + 1 - first))) /\
  requests w' =
    requests w ++
    flat_map (fun i => map (GetCrtcGamma i)
                         (selected_crtcs crtc_arg (screen_at (display w) i)))
             (seqZ first (Z.to_nat (last + 1 - first))).
Proof.
  intro Hf. cbv zeta. rewrite printestimate_run by exact Hf.
  cbn [snd display fail stdout requests].
  split; [apply over_screens_id |]. split; [reflexivity |]. split.
  - f_equal.
  - f_equal. apply flat_map_ext. intro i. apply get_requests_selected.
Qed.

(** X8: absolute mode writes, to every screen from [first] to [last] and to
    no other, the day default when the temperature given is 0 and else the
    state exactly as given: the bound check before the write only logs
    warnings, so a temperature below MINTEMP or a negative one reaches
    [setst] as it is, and the error flag is not raised.  Each of these
    screens ends with the table of that state on the CRTCs selected. *)
Theorem regularsct_writes (ts : tempstate) (first last : Z) (w : World) :
  0 <= first -> last < Z.of_nat (length (display w)) ->
  let ts' := if temp ts =? 0 then mkts temp_day (brightness ts) else ts in
  let w' := snd (regularsct crtc_arg verbose temp_day ts first last w) in
  (forall j, 0 <= j ->
     screen_at (display w') j =
     if (first <=? j) && (j <=? last)
     then screen_at (display (snd (setst verbose j crtc_arg ts' w))) j
     else screen_at (display w) j) /\
  fail w' = fail w /\
  (forall j, first <= j <= last ->
     screen_at (display w') j =
     write_crtcs (setst_gamma (temp ts')) (trimdouble (brightness ts') 0 1)
       (selected_crtcs crtc_arg (screen_at (display w) j))
       (screen_at (display w) j)).
Proof.
  intros Hf Hl. cbv zeta.
  destruct (regularsct_screen_at ts first last w Hf Hl) as [Hscr Hfail].
  split; [| split; [exact Hfail |]].
  - intros j Hj. rewrite Hscr by exact Hj.
    destruct ((first <=? j) && (j <=? last)) eqn:Hin; [| reflexivity].
    apply andb_true_iff in Hin. destruct Hin as [H1 H2].
    apply Z.leb_le in H1, H2.
    now rewrite setst_screen_at by lia.
  - intros j Hj. rewrite Hscr by lia.
    now replace ((first <=? j) && (j <=? last)) with true by zbool.
Qed.

(** X9: delta mode with both deltas given writes, to every screen from
    [first] to [last] and to no other, the temperature and brightness read
    on that screen plus the deltas, the plain sums; the error flag is not
    raised.  Each of these screens ends with the table of that sum on the
    CRTCs selected. *)
Theorem deltasct_writes (ts : tempstate) (first last : Z) (w : World) :
  temp ts <> MIN_DELTA -> brightness ts <> IZR MIN_DELTA ->
  0 <= first -> last < Z.of_nat (length (display w)) ->
  let w' := snd (deltasct crtc_arg verbose ts first last w) in
  (forall j, 0 <= j ->
     screen_at (display w') j =
     if (first <=? j) && (j <=? last)
     then
       let cur := fst (getst verbose j crtc_arg w) in
       screen_at (display (snd (setst verbose j crtc_arg
                                  (mkts (temp cur + temp ts)
                                        (brightness cur + brightness ts)) w))) j
     else screen_at (display w) j) /\
  fail w' = fail w /\
  (forall j, first <= j <= last ->
     let cur := fst (getst verbose j crtc_arg w) in
     screen_at (display w') j =
     write_crtcs (setst_gamma (temp cur + temp ts))
       (trimdouble (brightness cur + brightness ts) 0 1)
       (selected_crtcs crtc_arg (screen_at (display w) j))
       (screen_at (display w) j)).
Proof.
  intros Ht Hb Hf Hl. cbv zeta. unfold deltasct.
  replace ((temp ts =? MIN_DELTA) || Reqb (brightness ts) (IZR MIN_DELTA)) with false
    by (symmetry; apply orb_false_iff; split;
        [now apply Z.eqb_neq | now apply Reqb_false]).
  rewrite deltasct_loop_run by exact Hf.
  cbn [snd display fail]. split; [| split; [reflexivity |]].
  - intros j Hj. rewrite over_screens_range by lia.
    destruct ((first <=? j) && (j <=? last)) eqn:Hin; [| reflexivity].
    apply andb_true_iff in Hin. destruct Hin as [H1 H2].
    apply Z.leb_le in H1, H2.
    rewrite setst_screen_at by lia. now rewrite getst_value.
  - intros j Hj. rewrite over_screens_range by lia.
    replace ((first <=? j) && (j <=? last)) with true by zbool.
    now rewrite getst_value.
Qed.

(** X10: estimate mode is read-only: it changes no table and does not raise
    the error flag, it sends GetCrtcGamma requests only, about screens from
    [first] to [last], and it prints one line per screen, in order, with the
    state [getst] reads on the display as it found it. *)
Theorem printestimate_reads (first last : Z) (w : World) :
  0 <= first ->
  let w' := snd (printestimate crtc_arg verbose first last w) in
  display w' = display w /\ fail w' = fail w /\
  stdout w' =
    stdout w ++
    map (fun i => Estimate i (fst (getst verbose i crtc_arg w)))
        (seqZ first (Z.to_nat (last + 1 - first))) /\
  exists new,
    requests w' = requests w ++ new /\
    forall r, In r new ->
      exists i c, r = GetCrtcGamma i c /\ first <= i <= last.
Proof.
  intro Hf. cbv zeta.
  destruct (printestimate_effects first last w Hf) as (H1 & H2 & H3 & H4).
  split; [exact H1 |]. split; [exact H2 |]. split.
  - rewrite H3. f_equal. apply map_ext. intro i. now rewrite getst_value.
  - eexists. split; [exact H4 |].
    intros r Hr. apply in_flat_map in Hr. destruct Hr as (i & Hi & Hr).
    apply in_seqZ in Hi. apply in_map_iff in Hr. destruct Hr as (c & <- & _).
    exists i, c. split; [reflexivity | lia].
Qed.

End FinalModes.

Lemma regularsct_writes_witness :
  let w' := snd (regularsct (-1) false 6500 (mkts 0 1) 0 1 two_screen_world) in
  (forall j, 0 <= j ->
     screen_at (display w') j =
     if (0 <=? j) && (j <=? 1)
     then screen_at (display (snd (setst false j (-1) (mkts 6500 1)
                                     two_screen_world))) j
     else screen_at (display two_screen_world) j) /\
  fail w' = fail two_screen_world /\
  (forall j, 0 <= j <= 1 ->
     screen_at (display w') j =
     write_crtcs (setst_gamma 6500) (trimdouble 1 0 1)
       (selected_crtcs (-1) (screen_at (display two_screen_world) j))
       (screen_at (display two_screen_world) j)).
Proof.
  apply (regularsct_writes (-1) false 6500 (mkts 0 1) 0 1 two_screen_world);
    unfold two_screen_world; cbn [display length]; lia.
Defined.

Lemma deltasct_writes_witness :
  let w' := snd (deltasct (-1) false (mkts 100 0.1) 0 1 two_screen_world) in
  (forall j, 0 <= j ->
     screen_at (display w') j =
     if (0 <=? j) && (j <=? 1)
     then
       let cur := fst (getst false j (-1) two_screen_world) in
       screen_at (display (snd (setst false j (-1)
                                  (mkts (temp cur + 100) (brightness cur + 0.1))
                                  two_screen_world))) j
     else screen_at (display two_screen_world) j) /\
  fail w' = fail two_screen_world /\
  (forall j, 0 <= j <= 1 ->
     let cur := fst (getst false j (-1) two_screen_world) in
     screen_at (display w') j =
     write_crtcs (setst_gamma (temp cur + 100))
       (trimdouble (brightness cur + 0.1) 0 1)
       (selected_crtcs (-1) (screen_at (display two_screen_world) j))
       (screen_at (display two_screen_world) j)).
Proof.
  apply (deltasct_writes (-1) false (mkts 100 0.1) 0 1 two_screen_world).
  - cbn [temp]. unfold MIN_DELTA. lia.
  - cbn [brightness]. unfold MIN_DELTA. lra.
  - lia.
  - unfold two_screen_world; cbn [display length]; lia.
Defined.

Lemma printestimate_reads_witness :
  let w' := snd (printestimate (-1) false 0 1 two_screen_world) in
  display w' = display two_screen_world /\ fail w' = fail two_screen_world /\
  stdout w' =
    stdout two_screen_world ++
    map (fun i => Estimate i (fst (getst false i (-1) two_screen_world)))
        (seqZ 0 (Z.to_nat (1 + 1 - 0))) /\
  exists new,
    requests w' = requests two_screen_world ++ new /\
    forall r, In r new ->
      exists i c, r = GetCrtcGamma i c /\ 0 <= i <= 1.
Proof.
  apply (printestimate_reads (-1) false 0 1 two_screen_world). lia.
Defined.

(** ** The exit status *)

Section ExitStatus.

Variable crtc_arg : Z.
Variable screen_arg : Z.
Variable verbose : bool.
Variable temp_day : Z.
Variable temp_night : Z.

Lemma toggledaynight_fail (nscreen : Z) (w : World) :
  fail (snd (toggledaynight crtc_arg verbose temp_day temp_night nscreen w)) = fail w.
Proof. now rewrite toggledaynight_run. Qed.

Lemma printestimate_fail (first last : Z) (w : World) :
  0 <= first ->
  fail (snd (printestimate crtc_arg verbose first last w)) = fail w.
Proof. intro Hf. now rewrite printestimate_run. Qed.

Lemma regularsct_fail (ts : tempstate) (first last : Z) (w : World) :
  0 <= first ->
  fail (snd (regularsct crtc_arg verbose temp_day ts first last w)) = fail w.
Proof.
  intro Hf. unfold regularsct. rewrite bind_run.
  destruct (temp ts =? 0).
  - unfold ret at 1 2. cbn [fst snd]. now rewrite regularsct_loop_run.
  - rewrite boundts_run. cbn [fst snd]. now rewrite regularsct_loop_run.
Qed.

Lemma deltasct_fail (ts : tempstate) (first last : Z) (w : World) :
  0 <= first ->
  fail (snd (deltasct crtc_arg verbose ts first last w)) =
  fail w || ((temp ts =? MIN_DELTA) || Reqb (brightness ts) (IZR MIN_DELTA)).
Proof.
  intro Hf. unfold deltasct.
  destruct ((temp ts =? MIN_DELTA) || Reqb (brightness ts) (IZR MIN_DELTA)).
  - rewrite logerror_run. cbn [snd fail]. now rewrite orb_true_r.
  - rewrite deltasct_loop_run by exact Hf. cbn [snd fail]. now rewrite orb_false_r.
Qed.

(** The error flag when [main] returns. *)
Lemma main_fail (flags : Z) (ts : tempstate) (w : World) :
  fail (snd (main crtc_arg screen_arg verbose temp_day temp_night flags ts w)) =
  fail w ||
  ((Z.land flags has_h =? 0) &&
   ((screen_arg >=? Z.of_nat (length (display w))) ||
    (negb (Z.land flags has_d =? 0) &&
     ((temp ts =? MIN_DELTA) || Reqb (brightness ts) (IZR MIN_DELTA))))).
Proof.
  unfold main, XScreenCount, get_fail. rewrite !bind_run. cbn [fst snd].
  unfold ret at 1. cbn [snd].
  destruct (Z.land flags has_h =? 0) eqn:Hh; cbn [negb andb].
  2:{ unfold usage, print. cbn [snd fail]. now rewrite orb_false_r. }
  destruct (fail w) eqn:Hfw; cbn [negb andb orb].
  - (* an error was logged before: the screen index is not examined *)
    rewrite bind_run.
    set (wt := snd ((if negb (Z.land flags has_t =? 0)
                     then toggledaynight crtc_arg verbose temp_day temp_night
                            (Z.of_nat (length (display w)))
                     else ret tt) w)).
    assert (Hwt : fail wt = true).
    { unfold wt. destruct (negb (Z.land flags has_t =? 0)).
      - now rewrite toggledaynight_fail.
      - exact Hfw. }
    destruct (screen_arg >=? 0) eqn:Hs0.
    + apply Z.geb_le in Hs0.
      destruct (_ && (Z.land flags has_d =? 0)); [| destruct (Z.land flags has_d =? 0)].
      * now rewrite printestimate_fail by lia.
      * now rewrite regularsct_fail by lia.
      * rewrite deltasct_fail by lia. now rewrite Hwt.
    + destruct (_ && (Z.land flags has_d =? 0)); [| destruct (Z.land flags has_d =? 0)].
      * now rewrite printestimate_fail by lia.
      * now rewrite regularsct_fail by lia.
      * rewrite deltasct_fail by lia. now rewrite Hwt.
  - destruct (screen_arg >=? Z.of_nat (length (display w))) eqn:Hsn; cbn [orb].
    + unfold errorargscreen. destruct (_ >? 1); now rewrite logerror_run.
    + rewrite bind_run.
      set (wt := snd ((if negb (Z.land flags has_t =? 0)
                       then toggledaynight crtc_arg verbose temp_day temp_night
                              (Z.of_nat (length (display w)))
                       else ret tt) w)).
      assert (Hwt : fail wt = false).
      { unfold wt. destruct (negb (Z.land flags has_t =? 0)).
        - now rewrite toggledaynight_fail.
        - exact Hfw. }
      destruct (Z.land flags has_d =? 0) eqn:Hd; cbn [negb andb].
      * rewrite andb_true_r.
        destruct (screen_arg >=? 0) eqn:Hs0;
          [apply Z.geb_le in Hs0 |];
          (destruct (temp _ =? MIN_DELTA);
           [rewrite printestimate_fail by lia | rewrite regularsct_fail by lia]);
          exact Hwt.
      * rewrite !andb_false_r.
        destruct (screen_arg >=? 0) eqn:Hs0;
          [apply Z.geb_le in Hs0 |];
          rewrite deltasct_fail by lia; now rewrite Hwt.
Qed.

(** X11: [main] returns EXIT_FAILURE exactly when an error was already
    logged while the arguments were read, or, help not being asked for,
    when the screen index is not below the number of screens or delta mode
    lacks one of its two deltas; in every other case it returns
    EXIT_SUCCESS: warnings about temperature or brightness out of range
    never change the exit status. *)
Theorem main_exit_status (flags : Z) (ts : tempstate) (w : World) :
  let failed :=
    fail w = true \/
    (Z.land flags has_h = 0 /\
     (Z.of_nat (length (display w)) <= screen_arg \/
      (Z.land flags has_d <> 0 /\
       (temp ts = MIN_DELTA \/ brightness ts = IZR MIN_DELTA)))) in
  (failed ->
   fst (main crtc_arg screen_arg verbose temp_day temp_night flags ts w) = EXIT_FAILURE) /\
  (~ failed ->
   fst (main crtc_arg screen_arg verbose temp_day temp_night flags ts w) = EXIT_SUCCESS).
Proof.
  cbv zeta.
  assert (Hexit :
    fst (main crtc_arg screen_arg verbose temp_day temp_night flags ts w) =
    if fail (snd (main crtc_arg screen_arg verbose temp_day temp_night flags ts w))
    then EXIT_FAILURE else EXIT_SUCCESS).
  { unfold main, XScreenCount, get_fail. rewrite !bind_run. reflexivity. }
  rewrite Hexit, main_fail.
  assert (Hiff :
    fail w ||
    ((Z.land flags has_h =? 0) &&
     ((screen_arg >=? Z.of_nat (length (display w))) ||
      (negb (Z.land flags has_d =? 0) &&
       ((temp ts =? MIN_DELTA) || Reqb (brightness ts) (IZR MIN_DELTA))))) = true <->
    (fail w = true \/
     (Z.land flags has_h = 0 /\
      (Z.of_nat (length (display w)) <= screen_arg \/
       (Z.land flags has_d <> 0 /\
        (temp ts = MIN_DELTA \/ brightness ts = IZR MIN_DELTA)))))).
  { rewrite orb_true_iff, andb_true_iff, orb_true_iff, andb_true_iff,
      orb_true_iff, negb_true_iff.
    rewrite Z.eqb_eq, Z.geb_le, Z.eqb_neq, Z.eqb_eq.
    unfold Reqb. destruct (Req_dec_T (brightness ts) (IZR MIN_DELTA)); intuition congruence. }
  destruct (fail w || _) eqn:Hb.
  - split; [reflexivity |]. intro Hn. exfalso. apply Hn. now apply Hiff.
  - split; [| reflexivity]. intro Hy. apply Hiff in Hy. discriminate.
Qed.

End ExitStatus.

(** ** What [main] does in each mode *)

Section MainModes.

Variable crtc_arg : Z.
Variable screen_arg : Z.
Variable verbose : bool.
Variable temp_day : Z.
Variable temp_night : Z.

(** The screens the final path works on. *)
Lemma main_unfold (flags : Z) (ts : tempstate) (w : World) :
  Z.land flags has_h = 0 -> screen_arg < Z.of_nat (length (display w)) ->
  Z.land flags has_t = 0 ->
  snd (main crtc_arg screen_arg verbose temp_day temp_night flags ts w) =
  let nscreen := Z.of_nat (length (display w)) in
  let ts' :=
    if Reqb (brightness ts) (IZR MIN_DELTA) && (Z.land flags has_d =? 0)
    then mkts (temp ts) 1 else ts in
  let first := if screen_arg >=? 0 then screen_arg else 0 in
  let last := if screen_arg >=? 0 then screen_arg else nscreen - 1 in
  snd ((if (temp ts' =? MIN_DELTA) && (Z.land flags has_d =? 0)
        then printestimate crtc_arg verbose first last
        else if Z.land flags has_d =? 0
             then regularsct crtc_arg verbose temp_day ts' first last
             else deltasct crtc_arg verbose ts' first last) w).
Proof.
  intros Hh Hs Ht. cbv zeta.
  unfold main, XScreenCount, get_fail. rewrite !bind_run. cbn [fst snd].
  unfold ret at 1. cbn [snd].
  rewrite Hh, Ht. cbn [Z.eqb negb].
  replace (screen_arg >=? Z.of_nat (length (display w))) with false by zbool.
  rewrite andb_false_r. rewrite bind_run. unfold ret at 1. cbn [fst snd].
  destruct (screen_arg >=? 0); reflexivity.
Qed.

(** X12: when help is asked for, [main] prints the usage text and does
    nothing else, whatever the other flags and arguments; when the screen
    index is not below the number of screens (and no error was logged
    before), it logs one error; in both cases no request is sent and no
    table changes. *)
Theorem main_help_or_bad_screen (flags : Z) (ts : tempstate) (w : World) :
  (Z.land flags has_h <> 0 ->
   snd (main crtc_arg screen_arg verbose temp_day temp_night flags ts w) =
   mkWorld (display w) (requests w) (fail w) (stderr w) (stdout w ++ [Usage])) /\
  (Z.land flags has_h = 0 -> fail w = false ->
   Z.of_nat (length (display w)) <= screen_arg ->
   exists line,
     snd (main crtc_arg screen_arg verbose temp_day temp_night flags ts w) =
     mkWorld (display w) (requests w) true (stderr w ++ [(Error, line)]) (stdout w)).
Proof.
  split.
  - intro Hh. unfold main, XScreenCount, get_fail. rewrite !bind_run.
    cbn [fst snd]. unfold ret at 1. cbn [snd].
    replace (Z.land flags has_h =? 0) with false by (symmetry; now apply Z.eqb_neq).
    reflexivity.
  - intros Hh Hf Hs. unfold main, XScreenCount, get_fail. rewrite !bind_run.
    cbn [fst snd]. unfold ret at 1. cbn [snd].
    rewrite Hh, Hf. cbn [Z.eqb negb andb].
    replace (screen_arg >=? Z.of_nat (length (display w))) with true by zbool.
    unfold errorargscreen. destruct (_ >? 1); rewrite logerror_run;
      eexists; reflexivity.
Qed.

(** X13: with no temperature given and neither delta nor toggle asked
    for, [main] only estimates: no table changes, every request is a
    GetCrtcGamma, and one line is printed per selected screen (the screen
    named by the screen argument, or every screen when none is named) with
    the state [getst] reads there. *)
Theorem main_estimates (flags : Z) (ts : tempstate) (w : World) :
  Z.land flags has_h = 0 -> Z.land flags has_d = 0 -> Z.land flags has_t = 0 ->
  temp ts = MIN_DELTA -> screen_arg < Z.of_nat (length (display w)) ->
  let w' := snd (main crtc_arg screen_arg verbose temp_day temp_night flags ts w) in
  let screens :=
    if screen_arg >=? 0 then [screen_arg] else seqZ 0 (length (display w)) in
  display w' = display w /\ fail w' = fail w /\
  stdout w' =
    stdout w ++ map (fun i => Estimate i (fst (getst verbose i crtc_arg w))) screens /\
  exists new,
    requests w' = requests w ++ new /\
    forall r, In r new -> exists i c, r = GetCrtcGamma i c.
Proof.
  intros Hh Hd Ht Hts Hs. cbv zeta.
  rewrite main_unfold by assumption. cbv zeta.
  rewrite Hd. cbn [Z.eqb]. rewrite !andb_true_r.
  replace (temp (if Reqb (brightness ts) (IZR MIN_DELTA)
                 then mkts (temp ts) 1 else ts) =? MIN_DELTA) with true
    by (destruct (Reqb _ _); cbn [temp]; rewrite Hts; reflexivity).
  destruct (Z.geb_spec screen_arg 0) as [Hs0 | Hs0].
  - pose proof (printestimate_effects crtc_arg verbose screen_arg screen_arg w
                  ltac:(lia)) as (H1 & H2 & H3 & H4).
    replace (Z.to_nat (screen_arg + 1 - screen_arg)) with 1%nat in H3, H4 by lia.
    change (seqZ screen_arg 1) with [screen_arg + Z.of_nat 0] in H3, H4.
    rewrite Z.add_0_r in H3, H4.
    split; [exact H1 |]. split; [exact H2 |]. split.
    + rewrite H3. f_equal. apply map_ext. intro i. now rewrite getst_value.
    + eexists. split; [exact H4 |].
      intros r Hr. apply in_flat_map in Hr. destruct Hr as (i & _ & Hr).
      apply in_map_iff in Hr. destruct Hr as (c & <- & _). now exists i, c.
  - pose proof (printestimate_effects crtc_arg verbose 0
                  (Z.of_nat (length (display w)) - 1) w
                  ltac:(lia)) as (H1 & H2 & H3 & H4).
    replace (Z.to_nat (Z.of_nat (length (display w)) - 1 + 1 - 0))
      with (length (display w)) in H3, H4 by lia.
    split; [exact H1 |]. split; [exact H2 |]. split.
    + rewrite H3. f_equal. apply map_ext. intro i. now rewrite getst_value.
    + eexists. split; [exact H4 |].
      intros r Hr. apply in_flat_map in Hr. destruct Hr as (i & _ & Hr).
      apply in_map_iff in Hr. destruct Hr as (c & <- & _). now exists i, c.
Qed.

(** The screens after absolute mode, seen from [main]. *)
Lemma main_sets_screens (flags : Z) (ts : tempstate) (w : World) (j : Z) :
  Z.land flags has_h = 0 -> Z.land flags has_d = 0 -> Z.land flags has_t = 0 ->
  temp ts <> MIN_DELTA -> screen_arg < Z.of_nat (length (display w)) ->
  0 <= j < Z.of_nat (length (display w)) ->
  screen_at (display (snd (main crtc_arg screen_arg verbose temp_day temp_night
                             flags ts w))) j =
  if (screen_arg <? 0) || (j =? screen_arg)
  then screen_write crtc_arg
         (mkts (if temp ts =? 0 then temp_day else temp ts)
               (if Reqb (brightness ts) (IZR MIN_DELTA) then 1%R else brightness ts))
         (screen_at (display w) j)
  else screen_at (display w) j.
Proof.
  intros Hh Hd Ht Hts Hs Hj.
  rewrite main_unfold by assumption. cbv zeta.
  rewrite Hd. cbn [Z.eqb]. rewrite !andb_true_r.
  set (ts' := if Reqb (brightness ts) (IZR MIN_DELTA) then mkts (temp ts) 1 else ts).
  assert (Htemp : temp ts' = temp ts) by (unfold ts'; now destruct (Reqb _ _)).
  assert (Hbr : brightness ts' =
                if Reqb (brightness ts) (IZR MIN_DELTA) then 1%R else brightness ts)
    by (unfold ts'; now destruct (Reqb _ _)).
  replace (temp ts' =? MIN_DELTA) with false
    by (symmetry; apply Z.eqb_neq; now rewrite Htemp).
  assert (Htarget :
    (if temp ts' =? 0 then mkts temp_day (brightness ts') else ts') =
    mkts (if temp ts =? 0 then temp_day else temp ts)
         (if Reqb (brightness ts) (IZR MIN_DELTA) then 1%R else brightness ts)).
  { rewrite Htemp, <- Hbr, <- Htemp. destruct (temp ts' =? 0); [reflexivity |].
    now destruct ts'. }
  destruct (Z.geb_spec screen_arg 0) as [Hs0 | Hs0].
  - destruct (regularsct_screen_at crtc_arg verbose temp_day ts' screen_arg
                screen_arg w ltac:(lia) ltac:(lia)) as [Hscr _].
    rewrite Hscr by lia. rewrite Htarget.
    replace (screen_arg <? 0) with false by zbool. cbn [orb].
    destruct (Z.eqb_spec j screen_arg) as [-> | Hne]; zbool.
  - destruct (regularsct_screen_at crtc_arg verbose temp_day ts' 0
                (Z.of_nat (length (display w)) - 1) w
                ltac:(lia) ltac:(lia)) as [Hscr _].
    rewrite Hscr by lia. rewrite Htarget.
    replace (screen_arg <? 0) with true by zbool. cbn [orb]. zbool.
Qed.

(** X14: with a temperature given and neither delta nor toggle asked for,
    [main] writes, to the selected screens and to no other, the day default
    when the temperature is 0 and the temperature given otherwise, at the
    brightness given or at 1.0 when none was given: each selected screen
    ends with the table of that state on the CRTCs selected. *)
Theorem main_sets (flags : Z) (ts : tempstate) (w : World) :
  Z.land flags has_h = 0 -> Z.land flags has_d = 0 -> Z.land flags has_t = 0 ->
  temp ts <> MIN_DELTA -> screen_arg < Z.of_nat (length (display w)) ->
  let w' := snd (main crtc_arg screen_arg verbose temp_day temp_night flags ts w) in
  let target :=
    mkts (if temp ts =? 0 then temp_day else temp ts)
         (if Reqb (brightness ts) (IZR MIN_DELTA) then 1%R else brightness ts) in
  forall j, 0 <= j < Z.of_nat (length (display w)) ->
    screen_at (display w') j =
    (if (screen_arg <? 0) || (j =? screen_arg)
     then screen_at (display (snd (setst verbose j crtc_arg target w))) j
     else screen_at (display w) j) /\
    screen_at (display w') j =
    (if (screen_arg <? 0) || (j =? screen_arg)
     then write_crtcs (setst_gamma (temp target))
            (trimdouble (brightness target) 0 1)
            (selected_crtcs crtc_arg (screen_at (display w) j))
            (screen_at (display w) j)
     else screen_at (display w) j).
Proof.
  intros Hh Hd Ht Hts Hs. cbv zeta. intros j Hj.
  rewrite main_sets_screens by assumption.
  split; [now rewrite setst_screen_at by exact Hj | reflexivity].
Qed.

End MainModes.

Lemma main_estimates_witness :
  let w' := snd (main (-1) (-1) false 6500 4500 0
                   (mkts MIN_DELTA (IZR MIN_DELTA)) two_screen_world) in
  display w' = display two_screen_world /\ fail w' = fail two_screen_world /\
  stdout w' =
    stdout two_screen_world ++
    map (fun i => Estimate i (fst (getst false i (-1) two_screen_world)))
        (seqZ 0 (length (display two_screen_world))) /\
  exists new,
    requests w' = requests two_screen_world ++ new /\
    forall r, In r new -> exists i c, r = GetCrtcGamma i c.
Proof.
  apply (main_estimates (-1) (-1) false 6500 4500 0
           (mkts MIN_DELTA (IZR MIN_DELTA)) two_screen_world);
    reflexivity.
Defined.

Lemma main_sets_witness :
  screen_at (display (snd (main (-1) 1 false 6500 4500 0
                             (mkts 0 (IZR MIN_DELTA)) two_screen_world))) 1 =
  screen_at (display (snd (setst false 1 (-1) (mkts 6500 1) two_screen_world))) 1 /\
  screen_at (display (snd (main (-1) 1 false 6500 4500 0
                             (mkts 0 (IZR MIN_DELTA)) two_screen_world))) 1 =
  write_crtcs (setst_gamma 6500) (trimdouble 1 0 1)
    (selected_crtcs (-1) (screen_at (display two_screen_world) 1))
    (screen_at (display two_screen_world) 1).
Proof.
  assert (Hb : Reqb (IZR MIN_DELTA) (IZR MIN_DELTA) = true)
    by (now apply Reqb_true).
  pose proof (main_sets (-1) 1 false 6500 4500 0 (mkts 0 (IZR MIN_DELTA))
                two_screen_world eq_refl eq_refl eq_refl
                ltac:(cbn [temp]; unfold MIN_DELTA; lia)
                ltac:(unfold two_screen_world; cbn [display length]; lia)
                1
                ltac:(unfold two_screen_world; cbn [display length]; lia)) as H.
  cbn [temp brightness Z.eqb Z.ltb Z.compare orb Pos.compare Pos.eqb] in H.
  rewrite Hb in H. exact H.
Defined.

(** ** The arguments *)

Lemma land_lor_has_h (f : Z) : Z.land (Z.lor f has_h) has_h <> 0.
Proof.
  rewrite Z.land_lor_distr_l. change (Z.land has_h has_h) with 1.
  intro H. apply Z.lor_eq_0_iff in H. destruct H as [_ H]. discriminate H.
Qed.

Lemma land_lor_keeps_has_h (f b : Z) :
  Z.land f has_h <> 0 -> Z.land (Z.lor f b) has_h <> 0.
Proof.
  intros Hf H. rewrite Z.land_lor_distr_l in H.
  apply Z.lor_eq_0_iff in H. now destruct H.
Qed.

Lemma land_lor_flag_bits (f b : Z) :
  Z.land f flag_bits = f -> Z.land b flag_bits = b ->
  Z.land (Z.lor f b) flag_bits = Z.lor f b.
Proof. intros Hf Hb. now rewrite Z.land_lor_distr_l, Hf, Hb. Qed.

Section Arguments.

Variable atoi : string -> Z.
Variable atof : string -> R.

(** What every round of the loop keeps. *)
Lemma collectargs_loop_keeps (n : nat) (argc : Z) (argv : list string) (i : Z)
    (flags : Z) (g : Globals.t) (ts : tempstate) (w : World) :
  Z.land flags flag_bits = flags ->
  let r := collectargs_loop atoi atof n argc argv i flags g ts w in
  Z.land (fst (fst (fst r))) flag_bits = fst (fst (fst r)) /\
  (Z.land flags has_h <> 0 -> Z.land (fst (fst (fst r))) has_h <> 0) /\
  (fail (snd r) = true -> fail w = true \/ Z.land (fst (fst (fst r))) has_h <> 0) /\
  (fail w = true -> fail (snd r) = true) /\
  display (snd r) = display w /\ requests (snd r) = requests w /\
  stdout (snd r) = stdout w /\
  Globals.temp_day (snd (fst (fst r))) = Globals.temp_day g /\
  Globals.temp_night (snd (fst (fst r))) = Globals.temp_night g.
Proof.
  revert i flags g ts w.
  induction n as [| n IH]; intros i flags g ts w Hfl; cbv zeta.
  - cbn [collectargs_loop]. unfold ret. cbn [fst snd]. tauto.
  - cbn [collectargs_loop].
    destruct (i <? argc); [| unfold ret; cbn [fst snd]; tauto].
    cbv zeta.
    destruct (IS (arg_at argv i) "-h" || IS (arg_at argv i) "--help").
    { unfold ret. cbn [fst snd].
      split; [now apply land_lor_flag_bits |].
      split; [intros _; apply land_lor_has_h |].
      split; [intros _; right; apply land_lor_has_h |]. tauto. }
    destruct (IS (arg_at argv i) "-v" || IS (arg_at argv i) "--verbose").
    { exact (IH (i + 1) flags (Globals.mk _ _ _ _ _) ts w Hfl). }
    destruct (IS (arg_at argv i) "-d" || IS (arg_at argv i) "--delta").
    { destruct (IH (i + 1) (Z.lor flags has_d) g ts w
                  (land_lor_flag_bits _ _ Hfl eq_refl))
        as (H1 & H2 & H3).
      split; [exact H1 |]. split; [| exact H3].
      intro Hh. apply H2. now apply land_lor_keeps_has_h. }
    destruct (IS (arg_at argv i) "-t" || IS (arg_at argv i) "--toggle").
    { destruct (IH (i + 1) (Z.lor flags has_t) g ts w
                  (land_lor_flag_bits _ _ Hfl eq_refl))
        as (H1 & H2 & H3).
      split; [exact H1 |]. split; [| exact H3].
      intro Hh. apply H2. now apply land_lor_keeps_has_h. }
    destruct (IS (arg_at argv i) "-s" || IS (arg_at argv i) "--screen" ||
              IS (arg_at argv i) "-c" || IS (arg_at argv i) "--crtc").
    { rewrite bind_run. unfold collectindex. cbv zeta.
      destruct (i + 1 <? argc).
      - unfold ret at 1 2. cbn [fst snd negb].
        destruct (IS (arg_at argv i) "-c" || IS (arg_at argv i) "--crtc");
          exact (IH (i + 1 + 1) flags (Globals.mk _ _ _ _ _) ts w Hfl).
      - rewrite bind_run, logerror_run. unfold ret. cbn [fst snd negb].
        cbn [display requests fail stdout].
        split; [now apply land_lor_flag_bits |].
        split; [intros _; apply land_lor_has_h |].
        split; [intros _; right; apply land_lor_has_h |]. tauto. }
    destruct (temp ts =? MIN_DELTA).
    { apply (IH (i + 1) flags g _ w Hfl). }
    destruct (Reqb (brightness ts) (IZR MIN_DELTA)).
    { apply (IH (i + 1) flags g _ w Hfl). }
    rewrite bind_run, logerror_run. cbn [fst snd].
    destruct (IH (i + 1) (Z.lor flags has_h) g ts
                (mkWorld (display w) (requests w) true
                         (stderr w ++ [(Error, "unrecognized argument '%s'"%string)])
                         (stdout w))
                (land_lor_flag_bits _ _ Hfl eq_refl))
      as (H1 & H2 & H3 & H4 & H5 & H6 & H7 & H8).
    cbn [display requests fail stdout] in *.
    split; [exact H1 |].
    split; [intros _; apply H2, land_lor_has_h |].
    split; [intros _; right; apply H2, land_lor_has_h |].
    split; [intros _; now apply H4 |].
    tauto.
Qed.

(** The loop only adds lines to the log. *)
Lemma collectargs_loop_logs (n : nat) (argc : Z) (argv : list string) (i : Z)
    (flags : Z) (g : Globals.t) (ts : tempstate) (w : World) :
  exists lg,
    stderr (snd (collectargs_loop atoi atof n argc argv i flags g ts w)) =
    stderr w ++ lg.
Proof.
  revert i flags g ts w.
  induction n as [| n IH]; intros i flags g ts w.
  - exists []. cbn [collectargs_loop]. unfold ret. cbn [snd]. now rewrite app_nil_r.
  - cbn [collectargs_loop].
    destruct (i <? argc);
      [| exists []; unfold ret; cbn [snd]; now rewrite app_nil_r].
    cbv zeta.
    destruct (IS (arg_at argv i) "-h" || IS (arg_at argv i) "--help");
      [exists []; unfold ret; cbn [snd]; now rewrite app_nil_r |].
    destruct (IS (arg_at argv i) "-v" || IS (arg_at argv i) "--verbose");
      [apply IH |].
    destruct (IS (arg_at argv i) "-d" || IS (arg_at argv i) "--delta");
      [apply IH |].
    destruct (IS (arg_at argv i) "-t" || IS (arg_at argv i) "--toggle");
      [apply IH |].
    destruct (IS (arg_at argv i) "-s" || IS (arg_at argv i) "--screen" ||
              IS (arg_at argv i) "-c" || IS (arg_at argv i) "--crtc").
    { rewrite bind_run. unfold collectindex. cbv zeta.
      destruct (i + 1 <? argc).
      - unfold ret at 1 2. cbn [fst snd negb]. apply IH.
      - rewrite bind_run, logerror_run. unfold ret. cbn [fst snd negb stderr].
        eexists. reflexivity. }
    destruct (temp ts =? MIN_DELTA); [apply IH |].
    destruct (Reqb (brightness ts) (IZR MIN_DELTA)); [apply IH |].
    rewrite bind_run, logerror_run. cbn [fst snd].
    destruct (IH (i + 1) (Z.lor flags has_h) g ts
                (mkWorld (display w) (requests w) true
                   (stderr w ++ [(Error, "unrecognized argument '%s'"%string)])
                   (stdout w))) as (lg & ->).
    cbn [stderr]. rewrite <- app_assoc. eexists. reflexivity.
Qed.

(** The defaults after [collectargs] has run from the initial globals. *)
Lemma collectargs_errors_keep (argc : Z) (argv : list string) (w : World) :
  let r := collectargs atoi atof argc argv (mkts MIN_DELTA (IZR MIN_DELTA))
             Globals.initial w in
  Globals.temp_day (snd (fst (fst r))) = TEMP_NORM /\
  Globals.temp_night (snd (fst (fst r))) = 4500.
Proof.
  cbv zeta. unfold collectargs.
  pose proof (collectargs_loop_keeps (Z.to_nat argc) argc argv 1 0 Globals.initial
                (mkts MIN_DELTA (IZR MIN_DELTA)) w eq_refl) as H.
  cbv zeta in H. tauto.
Qed.

(** X15: [collectargs] sets no bit of [flags] other than the three of help,
    delta and toggle; whenever it logs an error it also asks for help; it
    never clears the error flag; and it sends no request, changes no table,
    prints nothing and leaves the day and night defaults alone. *)
Theorem collectargs_errors_ask_for_help (argc : Z) (argv : list string)
    (ts : tempstate) (g : Globals.t) (w : World) :
  let r := collectargs atoi atof argc argv ts g w in
  let flags := fst (fst (fst r)) in
  Z.land flags flag_bits = flags /\
  (fail (snd r) = true -> fail w = true \/ Z.land flags has_h <> 0) /\
  (fail w = true -> fail (snd r) = true) /\
  display (snd r) = display w /\ requests (snd r) = requests w /\
  stdout (snd r) = stdout w /\
  Globals.temp_day (snd (fst (fst r))) = Globals.temp_day g /\
  Globals.temp_night (snd (fst (fst r))) = Globals.temp_night g.
Proof.
  cbv zeta. unfold collectargs.
  pose proof (collectargs_loop_keeps (Z.to_nat argc) argc argv 1 0 g ts w eq_refl)
    as H.
  cbv zeta in H. tauto.
Qed.

End Arguments.

(** ** The environment *)

Lemma warnings_only_nil : warnings_only [].
Proof. intros l []. Qed.

Lemma warnings_only_cons (fmt : string) (ls : list (logkind * string)) :
  warnings_only ls -> warnings_only ((Warning, fmt) :: ls).
Proof. intros H l [<- | Hl]; [reflexivity | now apply H]. Qed.

Lemma warnings_only_app (l1 l2 : list (logkind * string)) :
  warnings_only l1 -> warnings_only l2 -> warnings_only (l1 ++ l2).
Proof.
  intros H1 H2 l Hl. apply in_app_or in Hl. destruct Hl; [now apply H1 | now apply H2].
Qed.

Lemma add_stderr_app (w : World) (l1 l2 : list (logkind * string)) :
  add_stderr (add_stderr w l1) l2 = add_stderr w (l1 ++ l2).
Proof. unfold add_stderr. cbn [display requests fail stderr stdout]. now rewrite app_assoc. Qed.

Lemma boundtemp_run (temp dfl : Z) (what : string) (w : World) :
  0 <= dfl ->
  exists lg,
    warnings_only lg /\
    boundtemp temp dfl what w =
    ((if MINTEMP <=? temp then temp else dfl), add_stderr w lg).
Proof.
  intro Hd. unfold boundtemp.
  replace (dfl <? 0) with false by zbool.
  destruct (Z.leb_spec temp 0) as [H0 | H0].
  - rewrite bind_run, logwarn_run. unfold ret. cbn [fst snd].
    eexists. split; [apply warnings_only_cons, warnings_only_nil |].
    replace (MINTEMP <=? temp) with false by (unfold MINTEMP; zbool). reflexivity.
  - destruct (Z.ltb_spec temp MINTEMP) as [H1 | H1].
    + rewrite bind_run, logwarn_run. unfold ret. cbn [fst snd].
      eexists. split; [apply warnings_only_cons, warnings_only_nil |].
      replace (MINTEMP <=? temp) with false by zbool. reflexivity.
    + exists []. split; [apply warnings_only_nil |].
      replace (MINTEMP <=? temp) with true by zbool.
      now rewrite add_stderr_nil.
Qed.

Section Environment.

Variable strtol : string -> option Z.
Variable getenv : string -> option string.

Lemma envtotemp_run (p : string) (dfl : Z) (envn : string) (w : World) :
  0 <= dfl ->
  exists lg,
    warnings_only lg /\
    envtotemp strtol p dfl envn w =
    (env_default strtol (Some p) dfl, add_stderr w lg).
Proof.
  intro Hd. unfold envtotemp, env_default. rewrite bind_run.
  destruct (strtol p) as [x |].
  - unfold ret at 1 2. cbn [fst snd]. now apply boundtemp_run.
  - rewrite bind_run, logwarn_run. unfold ret at 1 2. cbn [fst snd].
    destruct (boundtemp_run dfl dfl envn
                (add_stderr w [(Warning,
                   "invalid value for %s environment variable (expect integer)"%string)])
                Hd) as (lg & Hlg & ->).
    eexists. split; [| rewrite add_stderr_app; f_equal; now destruct (MINTEMP <=? dfl)].
    now apply warnings_only_cons.
Qed.

Lemma checkenvironment_run (g : Globals.t) (w : World) :
  0 <= Globals.temp_day g -> 0 <= Globals.temp_night g ->
  exists lg,
    warnings_only lg /\
    checkenvironment strtol getenv g w =
    (Globals.mk (Globals.crtc_arg g) (Globals.screen_arg g) (Globals.verbose g)
       (env_default strtol (getenv XSCT_TEMPERATURE_DAY) (Globals.temp_day g))
       (env_default strtol (getenv XSCT_TEMPERATURE_NIGHT) (Globals.temp_night g)),
     add_stderr w lg).
Proof.
  intros Hd Hn. unfold checkenvironment. rewrite bind_run.
  assert (Hday : exists lg,
    warnings_only lg /\
    match getenv XSCT_TEMPERATURE_DAY with
    | Some p =>
      x <- envtotemp strtol p (Globals.temp_day g) XSCT_TEMPERATURE_DAY ;;
      ret (Globals.mk (Globals.crtc_arg g) (Globals.screen_arg g)
             (Globals.verbose g) x (Globals.temp_night g))
    | None => ret g
    end w =
    (Globals.mk (Globals.crtc_arg g) (Globals.screen_arg g) (Globals.verbose g)
       (env_default strtol (getenv XSCT_TEMPERATURE_DAY) (Globals.temp_day g))
       (Globals.temp_night g),
     add_stderr w lg)).
  { destruct (getenv XSCT_TEMPERATURE_DAY) as [p |].
    - destruct (envtotemp_run p (Globals.temp_day g) XSCT_TEMPERATURE_DAY w Hd)
        as (lg & Hlg & E).
      exists lg. split; [exact Hlg |]. rewrite bind_run, E. reflexivity.
    - exists []. split; [apply warnings_only_nil |].
      unfold ret, env_default. rewrite add_stderr_nil. now destruct g. }
  destruct Hday as (lg1 & Hlg1 & ->). cbn [fst snd].
  cbn [Globals.crtc_arg Globals.screen_arg Globals.verbose Globals.temp_day
       Globals.temp_night].
  destruct (getenv XSCT_TEMPERATURE_NIGHT) as [p |].
  - destruct (envtotemp_run p (Globals.temp_night g) XSCT_TEMPERATURE_NIGHT
                (add_stderr w lg1) Hn) as (lg2 & Hlg2 & E).
    exists (lg1 ++ lg2). split; [now apply warnings_only_app |].
    rewrite bind_run, E. unfold ret. cbn [fst snd]. now rewrite add_stderr_app.
  - exists lg1. split; [exact Hlg1 |]. reflexivity.
Qed.

(** X16: with defaults that are not negative, [checkenvironment] replaces
    the day (night) default by the value of XSCT_TEMPERATURE_DAY
    (XSCT_TEMPERATURE_NIGHT) when the variable is set and reads as an
    integer of at least MINTEMP, and keeps the default in every other case:
    variable not set, no integer read, or an integer below MINTEMP.  It
    leaves the CRTC index, the screen index and verbosity alone, logs
    warnings only, and does not raise the error flag.  Defaults that are at
    least MINTEMP before, as the initial 6500 and 4500 are, are at least
    MINTEMP after, whatever the environment holds. *)
Theorem checkenvironment_defaults (g : Globals.t) (w : World) :
  0 <= Globals.temp_day g -> 0 <= Globals.temp_night g ->
  fst (checkenvironment strtol getenv g w) =
    Globals.mk (Globals.crtc_arg g) (Globals.screen_arg g) (Globals.verbose g)
      (env_default strtol (getenv XSCT_TEMPERATURE_DAY) (Globals.temp_day g))
      (env_default strtol (getenv XSCT_TEMPERATURE_NIGHT) (Globals.temp_night g)) /\
  (exists lg,
     warnings_only lg /\
     snd (checkenvironment strtol getenv g w) = add_stderr w lg) /\
  (MINTEMP <= Globals.temp_day g -> MINTEMP <= Globals.temp_night g ->
   MINTEMP <= Globals.temp_day (fst (checkenvironment strtol getenv g w)) /\
   MINTEMP <= Globals.temp_night (fst (checkenvironment strtol getenv g w))).
Proof.
  intros Hd Hn. destruct (checkenvironment_run g w Hd Hn) as (lg & Hlg & ->).
  split; [reflexivity |]. split; [now exists lg |].
  intros Hd' Hn'.
  cbn [fst Globals.temp_day Globals.temp_night]. unfold env_default.
  split.
  - destruct (getenv XSCT_TEMPERATURE_DAY) as [p |]; [| exact Hd'].
    destruct (strtol p) as [x |]; [| exact Hd'].
    destruct (Z.leb_spec MINTEMP x); assumption.
  - destruct (getenv XSCT_TEMPERATURE_NIGHT) as [p |]; [| exact Hn'].
    destruct (strtol p) as [x |]; [| exact Hn'].
    destruct (Z.leb_spec MINTEMP x); assumption.
Qed.

End Environment.

Lemma checkenvironment_defaults_witness :
  fst (checkenvironment example_strtol example_getenv Globals.initial
         two_crtc_world) =
    Globals.mk (-1) (-1) false
      (env_default example_strtol (example_getenv XSCT_TEMPERATURE_DAY) TEMP_NORM)
      (env_default example_strtol (example_getenv XSCT_TEMPERATURE_NIGHT) 4500) /\
  (exists lg,
     warnings_only lg /\
     snd (checkenvironment example_strtol example_getenv Globals.initial
            two_crtc_world) = add_stderr two_crtc_world lg) /\
  (MINTEMP <= Globals.temp_day Globals.initial ->
   MINTEMP <= Globals.temp_night Globals.initial ->
   MINTEMP <= Globals.temp_day
                (fst (checkenvironment example_strtol example_getenv
                        Globals.initial two_crtc_world)) /\
   MINTEMP <= Globals.temp_night
                (fst (checkenvironment example_strtol example_getenv
                        Globals.initial two_crtc_world))).
Proof.
  apply (checkenvironment_defaults example_strtol example_getenv Globals.initial
           two_crtc_world); simpl; unfold TEMP_NORM; lia.
Defined.

(** ** The program from its first line *)

Lemma not_option (a : string) :
  is_option a = false ->
  IS a "-h" || IS a "--help" = false /\
  IS a "-v" || IS a "--verbose" = false /\
  IS a "-d" || IS a "--delta" = false /\
  IS a "-t" || IS a "--toggle" = false /\
  IS a "-s" || IS a "--screen" || IS a "-c" || IS a "--crtc" = false.
Proof.
  unfold is_option. intro H.
  repeat (apply orb_false_iff in H; destruct H as [H ?]).
  repeat split; repeat (apply orb_false_iff; split); assumption.
Qed.

Section Program.

Variable atoi : string -> Z.
Variable atof : string -> R.
Variable strtol : string -> option Z.
Variable getenv : string -> option string.
Variable XOpenDisplay : bool.
Variable errno : Z.

(** A round of the loop on an argument that is no option. *)
Lemma collectargs_loop_plain (n : nat) (argc : Z) (argv : list string) (i : Z)
    (flags : Z) (g : Globals.t) (ts : tempstate) :
  i < argc -> is_option (arg_at argv i) = false ->
  collectargs_loop atoi atof (S n) argc argv i flags g ts =
  if temp ts =? MIN_DELTA then
    collectargs_loop atoi atof n argc argv (i + 1) flags g
      (mkts (atoi (arg_at argv i)) (brightness ts))
  else if Reqb (brightness ts) (IZR MIN_DELTA) then
    collectargs_loop atoi atof n argc argv (i + 1) flags g
      (mkts (temp ts) (atof (arg_at argv i)))
  else
    logerror "unrecognized argument '%s'" ;;
    collectargs_loop atoi atof n argc argv (i + 1) (Z.lor flags has_h) g ts.
Proof.
  intros Hi Ha. cbn [collectargs_loop].
  replace (i <? argc) with true by zbool. cbv zeta.
  destruct (not_option _ Ha) as (-> & -> & -> & -> & ->). reflexivity.
Qed.

(** The loop past the last argument. *)
Lemma collectargs_loop_done (n : nat) (argc : Z) (argv : list string) (i : Z)
    (flags : Z) (g : Globals.t) (ts : tempstate) :
  argc <= i ->
  collectargs_loop atoi atof n argc argv i flags g ts = ret (flags, g, ts).
Proof.
  intro Hi. destruct n; cbn [collectargs_loop]; [reflexivity |].
  now replace (i <? argc) with false by zbool.
Qed.

(** The run with the connection open, in three steps. *)
Lemma xsct_connected (argc : Z) (argv : list string) (w : World) :
  XOpenDisplay = true ->
  exists lg,
    warnings_only lg /\
    let parsed :=
      collectargs atoi atof argc argv (mkts MIN_DELTA (IZR MIN_DELTA))
        Globals.initial w in
    let g := snd (fst (fst parsed)) in
    xsct atoi atof strtol getenv XOpenDisplay errno argc argv w =
    main (Globals.crtc_arg g) (Globals.screen_arg g) (Globals.verbose g)
      (env_default strtol (getenv XSCT_TEMPERATURE_DAY) TEMP_NORM)
      (env_default strtol (getenv XSCT_TEMPERATURE_NIGHT) 4500)
      (fst (fst (fst parsed))) (snd (fst parsed))
      (add_stderr (snd parsed) lg).
Proof.
  intros ->. cbv zeta. unfold xsct, opendisplay. cbn [negb].
  rewrite bind_run. change (ret true w) with (true, w). cbn [fst snd negb].
  rewrite bind_run.
  pose proof (collectargs_errors_keep atoi atof argc argv w) as (Hd & Hn).
  cbv zeta in Hd, Hn.
  destruct (collectargs atoi atof argc argv (mkts MIN_DELTA (IZR MIN_DELTA))
              Globals.initial w) as [[[flags g] ts] w1].
  cbn [fst snd] in *.
  destruct (checkenvironment_run strtol getenv g w1) as (lg & Hlg & E);
    try (rewrite ?Hd, ?Hn; unfold TEMP_NORM; lia).
  exists lg. split; [exact Hlg |].
  rewrite bind_run, E. cbn [fst snd].
  cbn [Globals.crtc_arg Globals.screen_arg Globals.verbose Globals.temp_day
       Globals.temp_night].
  now rewrite Hd, Hn.
Qed.

(** [main] when help is asked for. *)
Lemma main_help_run (crtc_arg screen_arg : Z) (verbose : bool)
    (temp_day temp_night flags : Z) (ts : tempstate) (w : World) :
  Z.land flags has_h <> 0 ->
  main crtc_arg screen_arg verbose temp_day temp_night flags ts w =
  ((if fail w then EXIT_FAILURE else EXIT_SUCCESS),
   mkWorld (display w) (requests w) (fail w) (stderr w) (stdout w ++ [Usage])).
Proof.
  intro Hh. unfold main, XScreenCount, get_fail. rewrite !bind_run.
  cbn [fst snd]. unfold ret at 1. cbn [snd].
  replace (Z.land flags has_h =? 0) with false by (symmetry; now apply Z.eqb_neq).
  reflexivity.
Qed.

(** The exit status is the error flag at the end. *)
Lemma main_status (crtc_arg screen_arg : Z) (verbose : bool)
    (temp_day temp_night flags : Z) (ts : tempstate) (w : World) :
  fst (main crtc_arg screen_arg verbose temp_day temp_night flags ts w) =
  if fail (snd (main crtc_arg screen_arg verbose temp_day temp_night flags ts w))
  then EXIT_FAILURE else EXIT_SUCCESS.
Proof. unfold main, XScreenCount, get_fail. rewrite !bind_run. reflexivity. Qed.

(** X18: the runs that leave the X server alone.  Without a connection the
    program ends with EXIT_FAILURE and the error flag raised.  With a
    connection, when help is asked for or [collectargs] has rejected an
    argument, the program prints the usage text and ends, with EXIT_FAILURE
    exactly when an error was logged.  In all these runs no request is sent
    and no table changes. *)
Theorem xsct_leaves_server_alone (argc : Z) (argv : list string) (w : World) :
  let parsed :=
    collectargs atoi atof argc argv (mkts MIN_DELTA (IZR MIN_DELTA))
      Globals.initial w in
  let r := xsct atoi atof strtol getenv XOpenDisplay errno argc argv w in
  (XOpenDisplay = false ->
   fst r = EXIT_FAILURE /\ fail (snd r) = true /\ display (snd r) = display w /\
   requests (snd r) = requests w /\ stdout (snd r) = stdout w) /\
  (XOpenDisplay = true ->
   Z.land (fst (fst (fst parsed))) has_h <> 0 \/
   (fail w = false /\ fail (snd parsed) = true) ->
   fst r = (if fail (snd parsed) then EXIT_FAILURE else EXIT_SUCCESS) /\
   display (snd r) = display w /\ requests (snd r) = requests w /\
   stdout (snd r) = stdout w ++ [Usage]).
Proof.
  cbv zeta. split.
  - intro Hx. unfold xsct, opendisplay. rewrite Hx. cbn [negb].
    rewrite !bind_run.
    destruct (negb (errno =? 0)); rewrite logerror_run; cbn [fst snd];
      unfold loginfo, flog, ret; cbn [fst snd negb display requests fail stdout];
      repeat split; reflexivity.
  - intros Hx Hcase.
    destruct (xsct_connected argc argv w Hx) as (lg & _ & E). cbv zeta in E.
    rewrite E. clear E.
    pose proof (collectargs_loop_keeps atoi atof (Z.to_nat argc) argc argv 1 0
                  Globals.initial (mkts MIN_DELTA (IZR MIN_DELTA)) w eq_refl)
      as (_ & _ & Herr & _ & Hdis & Hreq & Hout & _).
    fold (collectargs atoi atof argc argv (mkts MIN_DELTA (IZR MIN_DELTA))
            Globals.initial w) in Herr, Hdis, Hreq, Hout.
    assert (Hh : Z.land (fst (fst (fst (collectargs atoi atof argc argv
                   (mkts MIN_DELTA (IZR MIN_DELTA)) Globals.initial w)))) has_h <> 0).
    { destruct Hcase as [Hh | [Hf0 Hf1]]; [exact Hh |].
      destruct (Herr Hf1) as [Hf | Hh]; [congruence | exact Hh]. }
    rewrite main_help_run by exact Hh.
    cbn [fst snd display requests fail stdout add_stderr].
    rewrite Hdis, Hreq, Hout. repeat split; reflexivity.
Qed.

(** X19: run without arguments on an open connection, the program only
    estimates: it prints one line for every screen of the display, with the
    state [getst] reads there over all CRTCs, sends GetCrtcGamma requests
    only, changes no table and leaves the error flag as it was, whatever
    the environment holds. *)
Theorem xsct_no_arguments (argc : Z) (argv : list string) (w : World) :
  XOpenDisplay = true -> argc <= 1 ->
  let r := xsct atoi atof strtol getenv XOpenDisplay errno argc argv w in
  display (snd r) = display w /\ fail (snd r) = fail w /\
  fst r = (if fail w then EXIT_FAILURE else EXIT_SUCCESS) /\
  stdout (snd r) =
    stdout w ++
    map (fun i => Estimate i (fst (getst false i (-1) w)))
        (seqZ 0 (length (display w))) /\
  exists new,
    requests (snd r) = requests w ++ new /\
    forall q, In q new -> exists i c, q = GetCrtcGamma i c.
Proof.
  intros Hx Hargc. cbv zeta.
  destruct (xsct_connected argc argv w Hx) as (lg & _ & E). cbv zeta in E.
  rewrite E. clear E.
  unfold collectargs. rewrite collectargs_loop_done by lia.
  unfold ret. cbn [fst snd Globals.crtc_arg Globals.screen_arg Globals.verbose
                   Globals.initial].
  set (D := env_default strtol (getenv XSCT_TEMPERATURE_DAY) TEMP_NORM).
  set (N := env_default strtol (getenv XSCT_TEMPERATURE_NIGHT) 4500).
  rewrite main_status.
  rewrite (main_unfold (-1) (-1) false D N 0 (mkts MIN_DELTA (IZR MIN_DELTA)))
    by (cbn [display add_stderr]; reflexivity || lia).
  cbv zeta. cbn [Z.land Z.eqb andb temp brightness Z.geb Z.compare].
  rewrite (Reqb_true (IZR MIN_DELTA) (IZR MIN_DELTA)) by reflexivity.
  cbn [andb temp Z.eqb]. change (MIN_DELTA =? MIN_DELTA) with true. cbn iota.
  pose proof (printestimate_effects (-1) false 0
                (Z.of_nat (length (display (add_stderr w lg))) - 1)
                (add_stderr w lg) ltac:(lia)) as (H1 & H2 & H3 & H4).
  cbn [display fail stdout requests add_stderr] in H1, H2, H3, H4.
  replace (Z.to_nat (Z.of_nat (length (display w)) - 1 + 1 - 0))
    with (length (display w)) in H3, H4 by lia.
  cbn [display add_stderr andb].
  split; [exact H1 |]. split; [exact H2 |]. split; [now rewrite H2 |]. split.
  - rewrite H3. f_equal. apply map_ext. intro i. now rewrite getst_value.
  - eexists. split; [exact H4 |].
    intros q Hq. apply in_flat_map in Hq. destruct Hq as (i & _ & Hq).
    apply in_map_iff in Hq. destruct Hq as (c & <- & _). now exists i, c.
Qed.

(** X20: run on an open connection with a temperature, or a temperature
    and a brightness, as its only arguments, the program writes to every
    screen of the display, over all CRTCs, the temperature [atoi] reads (the
    day default, as the environment sets it, when that is 0) at the
    brightness [atof] reads, or at 1.0 when no brightness is given; the
    error flag stays as it was.  Every screen ends with the table of that
    state on the CRTCs the index -1 selects. *)
Theorem xsct_sets_temperature (prog a : string) (rest : list string) (w : World) :
  XOpenDisplay = true -> is_option a = false -> atoi a <> MIN_DELTA ->
  rest = [] \/ (exists b, rest = [b] /\ is_option b = false) ->
  let argv := prog :: a :: rest in
  let r := xsct atoi atof strtol getenv XOpenDisplay errno
             (Z.of_nat (length argv)) argv w in
  let target :=
    mkts (if atoi a =? 0
          then env_default strtol (getenv XSCT_TEMPERATURE_DAY) TEMP_NORM
          else atoi a)
         (match rest with
          | b :: _ => if Reqb (atof b) (IZR MIN_DELTA) then 1%R else atof b
          | [] => 1%R
          end) in
  (forall j, 0 <= j < Z.of_nat (length (display w)) ->
     screen_at (display (snd r)) j =
     screen_at (display (snd (setst false j (-1) target w))) j) /\
  fail (snd r) = fail w /\
  (forall j, 0 <= j < Z.of_nat (length (display w)) ->
     screen_at (display (snd r)) j =
     write_crtcs (setst_gamma (temp target)) (trimdouble (brightness target) 0 1)
       (selected_crtcs (-1) (screen_at (display w) j))
       (screen_at (display w) j)).
Proof.
  intros Hx Ha Hta Hrest. cbv zeta.
  destruct (xsct_connected (Z.of_nat (length (prog :: a :: rest)))
              (prog :: a :: rest) w Hx) as (lg & _ & E).
  cbv zeta in E. rewrite E. clear E.
  set (D := env_default strtol (getenv XSCT_TEMPERATURE_DAY) TEMP_NORM).
  set (N := env_default strtol (getenv XSCT_TEMPERATURE_NIGHT) 4500).
  assert (Hparsed :
    collectargs atoi atof (Z.of_nat (length (prog :: a :: rest)))
      (prog :: a :: rest) (mkts MIN_DELTA (IZR MIN_DELTA)) Globals.initial w =
    ((0, Globals.initial,
      mkts (atoi a)
           (match rest with b :: _ => atof b | [] => IZR MIN_DELTA end)), w)).
  { unfold collectargs.
    destruct Hrest as [-> | (b & -> & Hb)].
    - change (Z.of_nat (length [prog; a])) with 2.
      change (Z.to_nat 2) with 2%nat.
      rewrite collectargs_loop_plain by (lia || exact Ha).
      cbn [temp brightness]. change (MIN_DELTA =? MIN_DELTA) with true. cbn iota.
      rewrite collectargs_loop_done by lia. reflexivity.
    - change (Z.of_nat (length [prog; a; b])) with 3.
      change (Z.to_nat 3) with 3%nat.
      rewrite collectargs_loop_plain by (lia || exact Ha).
      cbn [temp brightness]. change (MIN_DELTA =? MIN_DELTA) with true. cbn iota.
      change (arg_at [prog; a; b] 1) with a.
      rewrite collectargs_loop_plain by (lia || exact Hb).
      cbn [temp brightness].
      replace (atoi a =? MIN_DELTA) with false by (symmetry; now apply Z.eqb_neq).
      rewrite (Reqb_true (IZR MIN_DELTA) (IZR MIN_DELTA)) by reflexivity.
      rewrite collectargs_loop_done by lia. reflexivity. }
  rewrite Hparsed. cbn [fst snd Globals.crtc_arg Globals.screen_arg Globals.verbose
                        Globals.initial].
  assert (Hscreens : forall j, 0 <= j < Z.of_nat (length (display w)) ->
    screen_at
      (display
         (snd (main (-1) (-1) false D N 0
                 (mkts (atoi a)
                    (match rest with b :: _ => atof b | [] => IZR MIN_DELTA end))
                 (add_stderr w lg)))) j =
    screen_write (-1)
      (mkts (if atoi a =? 0 then D else atoi a)
            (match rest with
             | b :: _ => if Reqb (atof b) (IZR MIN_DELTA) then 1%R else atof b
             | [] => 1%R
             end))
      (screen_at (display w) j)).
  { intros j Hj.
    rewrite main_sets_screens
      by (cbn [display add_stderr temp]; reflexivity || lia || assumption).
    cbn [display add_stderr temp brightness Z.ltb Z.compare orb].
    do 2 f_equal.
    destruct rest as [| b rest']; [| reflexivity].
    now rewrite (Reqb_true (IZR MIN_DELTA) (IZR MIN_DELTA)). }
  split; [| split].
  - intros j Hj. rewrite Hscreens by exact Hj.
    now rewrite setst_screen_at by exact Hj.
  - rewrite main_fail. cbn [display fail add_stderr Z.land Z.eqb negb andb].
    replace (-1 >=? Z.of_nat (length (display w))) with false by zbool.
    cbn [orb andb]. now rewrite orb_false_r.
  - intros j Hj. rewrite Hscreens by exact Hj. reflexivity.
Qed.

End Program.

Lemma xsct_no_arguments_witness :
  let r := xsct example_atoi example_atof example_strtol example_getenv true 0
             1 ["xsct"%string] two_screen_world in
  display (snd r) = display two_screen_world /\
  fail (snd r) = fail two_screen_world /\
  fst r = (if fail two_screen_world then EXIT_FAILURE else EXIT_SUCCESS) /\
  stdout (snd r) =
    stdout two_screen_world ++
    map (fun i => Estimate i (fst (getst false i (-1) two_screen_world)))
        (seqZ 0 (length (display two_screen_world))) /\
  exists new,
    requests (snd r) = requests two_screen_world ++ new /\
    forall q, In q new -> exists i c, q = GetCrtcGamma i c.
Proof.
  apply (xsct_no_arguments example_atoi example_atof example_strtol
           example_getenv true 0 1 ["xsct"%string] two_screen_world);
    [reflexivity | lia].
Defined.

Lemma xsct_sets_temperature_witness :
  let r := xsct example_atoi example_atof example_strtol example_getenv true 0
             3 ["xsct"; "5000"; "0.8"]%string two_screen_world in
  (forall j, 0 <= j < Z.of_nat (length (display two_screen_world)) ->
     screen_at (display (snd r)) j =
     screen_at (display (snd (setst false j (-1)
                                (mkts 5000
                                   (if Reqb 0.8 (IZR MIN_DELTA) then 1%R else 0.8%R))
                                two_screen_world))) j) /\
  fail (snd r) = fail two_screen_world /\
  (forall j, 0 <= j < Z.of_nat (length (display two_screen_world)) ->
     screen_at (display (snd r)) j =
     write_crtcs (setst_gamma 5000)
       (trimdouble (if Reqb 0.8 (IZR MIN_DELTA) then 1%R else 0.8%R) 0 1)
       (selected_crtcs (-1) (screen_at (display two_screen_world) j))
       (screen_at (display two_screen_world) j)).
Proof.
  apply (xsct_sets_temperature example_atoi example_atof example_strtol
           example_getenv true 0 "xsct" "5000" ["0.8"%string] two_screen_world).
  - reflexivity.
  - reflexivity.
  - vm_compute. discriminate.
  - right. exists "0.8"%string. split; reflexivity.
Defined.

(** ** Toggle together with the final modes *)

Section ToggleModes.

Variable crtc_arg : Z.
Variable screen_arg : Z.
Variable verbose : bool.
Variable temp_day : Z.
Variable temp_night : Z.

(** [main] with the toggle asked for: the toggle over every screen, then
    the final mode on the world the toggle left. *)
Lemma main_unfold_toggle (flags : Z) (ts : tempstate) (w : World) :
  Z.land flags has_h = 0 -> screen_arg < Z.of_nat (length (display w)) ->
  Z.land flags has_t <> 0 ->
  snd (main crtc_arg screen_arg verbose temp_day temp_night flags ts w) =
  let nscreen := Z.of_nat (length (display w)) in
  let ts' :=
    if Reqb (brightness ts) (IZR MIN_DELTA) && (Z.land flags has_d =? 0)
    then mkts (temp ts) 1 else ts in
  let first := if screen_arg >=? 0 then screen_arg else 0 in
  let last := if screen_arg >=? 0 then screen_arg else nscreen - 1 in
  snd ((if (temp ts' =? MIN_DELTA) && (Z.land flags has_d =? 0)
        then printestimate crtc_arg verbose first last
        else if Z.land flags has_d =? 0
             then regularsct crtc_arg verbose temp_day ts' first last
             else deltasct crtc_arg verbose ts' first last)
         (snd (toggledaynight crtc_arg verbose temp_day temp_night nscreen w))).
Proof.
  intros Hh Hs Ht. cbv zeta.
  unfold main, XScreenCount, get_fail. rewrite !bind_run. cbn [fst snd].
  unfold ret at 1. cbn [snd].
  rewrite Hh. cbn [Z.eqb negb].
  replace (Z.land flags has_t =? 0) with false by (symmetry; now apply Z.eqb_neq).
  cbn [negb].
  replace (screen_arg >=? Z.of_nat (length (display w))) with false by zbool.
  rewrite andb_false_r. rewrite bind_run.
  destruct (screen_arg >=? 0); reflexivity.
Qed.

(** Every screen after the toggle. *)
Lemma toggledaynight_screen_at (w : World) (j : Z) :
  0 <= j < Z.of_nat (length (display w)) ->
  screen_at (display (snd (toggledaynight crtc_arg verbose temp_day temp_night
                             (Z.of_nat (length (display w))) w))) j =
  screen_write crtc_arg
    (toggle_state temp_day temp_night (screen_read crtc_arg (screen_at (display w) j)))
    (screen_at (display w) j).
Proof.
  intro Hj. rewrite toggledaynight_run. cbn [snd display].
  rewrite Nat2Z.id. rewrite over_screens_at by lia. zbool.
Qed.

Lemma toggledaynight_length (nscreen : Z) (w : World) :
  length (display (snd (toggledaynight crtc_arg verbose temp_day temp_night
                          nscreen w))) = length (display w).
Proof. rewrite toggledaynight_run. cbn [snd display]. apply over_screens_length. Qed.

(** X21: a temperature given together with the toggle overrides it: on the
    selected screens (the one of the screen argument, or all when none is
    named) the display ends as absolute mode alone leaves it, the day
    default or the temperature given at the brightness given or 1.0; only
    the screens not selected keep what the toggle wrote.  Table by table:
    a selected screen ends with the table of the temperature given, any
    other with the table of the default the toggle chose. *)
Theorem main_toggle_then_set (flags : Z) (ts : tempstate) (w : World) :
  Z.land flags has_h = 0 -> Z.land flags has_t <> 0 -> Z.land flags has_d = 0 ->
  temp ts <> MIN_DELTA -> screen_arg < Z.of_nat (length (display w)) ->
  let w' := snd (main crtc_arg screen_arg verbose temp_day temp_night flags ts w) in
  let target :=
    mkts (if temp ts =? 0 then temp_day else temp ts)
         (if Reqb (brightness ts) (IZR MIN_DELTA) then 1%R else brightness ts) in
  forall j, 0 <= j < Z.of_nat (length (display w)) ->
    screen_at (display w') j =
    (if (screen_arg <? 0) || (j =? screen_arg)
     then screen_at (display (snd (setst verbose j crtc_arg target w))) j
     else screen_at (display (snd (setst verbose j crtc_arg
                                     (toggle_state temp_day temp_night
                                        (fst (getst verbose j crtc_arg w))) w))) j) /\
    screen_at (display w') j =
    (let cur := fst (getst verbose j crtc_arg w) in
     let written :=
       if (screen_arg <? 0) || (j =? screen_arg) then target
       else mkts (if temp cur >? temp_day - TOGGLE_DELTA
                  then temp_night else temp_day) (brightness cur) in
     write_crtcs (setst_gamma (temp written))
       (trimdouble (brightness written) 0 1)
       (selected_crtcs crtc_arg (screen_at (display w) j))
       (screen_at (display w) j)).
Proof.
  intros Hh Ht Hd Hts Hs. cbv zeta. intros j Hj.
  match goal with
  | |- ?A = ?B /\ _ => assert (Hold : A = B)
  end.
  {
    rewrite main_unfold_toggle by assumption. cbv zeta.
    rewrite Hd. cbn [Z.eqb]. rewrite !andb_true_r.
    set (ts' := if Reqb (brightness ts) (IZR MIN_DELTA) then mkts (temp ts) 1 else ts).
    assert (Htemp : temp ts' = temp ts) by (unfold ts'; now destruct (Reqb _ _)).
    assert (Hbr : brightness ts' =
                  if Reqb (brightness ts) (IZR MIN_DELTA) then 1%R else brightness ts)
      by (unfold ts'; now destruct (Reqb _ _)).
    replace (temp ts' =? MIN_DELTA) with false
      by (symmetry; apply Z.eqb_neq; now rewrite Htemp).
    assert (Htarget :
      (if temp ts' =? 0 then mkts temp_day (brightness ts') else ts') =
      mkts (if temp ts =? 0 then temp_day else temp ts)
           (if Reqb (brightness ts) (IZR MIN_DELTA) then 1%R else brightness ts)).
    { rewrite Htemp, <- Hbr, <- Htemp. destruct (temp ts' =? 0); [reflexivity |].
      now destruct ts'. }
    set (wt := snd (toggledaynight crtc_arg verbose temp_day temp_night
                      (Z.of_nat (length (display w))) w)).
    assert (Hlen : length (display wt) = length (display w))
      by apply toggledaynight_length.
    assert (Hwt : screen_at (display wt) j =
                  screen_write crtc_arg
                    (toggle_state temp_day temp_night
                       (screen_read crtc_arg (screen_at (display w) j)))
                    (screen_at (display w) j))
      by now apply toggledaynight_screen_at.
    rewrite !setst_screen_at by exact Hj. rewrite getst_value.
    destruct (Z.geb_spec screen_arg 0) as [Hs0 | Hs0].
    - destruct (regularsct_screen_at crtc_arg verbose temp_day ts' screen_arg
                  screen_arg wt ltac:(lia) ltac:(lia)) as [Hscr _].
      rewrite Hscr by lia. rewrite Htarget, Hwt.
      replace (screen_arg <? 0) with false by zbool. cbn [orb].
      destruct (Z.eqb_spec j screen_arg) as [-> | Hne].
      + replace ((screen_arg <=? screen_arg) && (screen_arg <=? screen_arg))
          with true by zbool.
        apply screen_write_twice.
      + now replace ((screen_arg <=? j) && (j <=? screen_arg)) with false by zbool.
    - destruct (regularsct_screen_at crtc_arg verbose temp_day ts' 0
                  (Z.of_nat (length (display w)) - 1) wt
                  ltac:(lia) ltac:(lia)) as [Hscr _].
      rewrite Hscr by lia. rewrite Htarget, Hwt.
      replace (screen_arg <? 0) with true by zbool. cbn [orb].
      replace ((0 <=? j) && (j <=? Z.of_nat (length (display w)) - 1))
        with true by zbool.
      apply screen_write_twice.
  }
  split; [exact Hold |]. rewrite Hold.
  rewrite !setst_screen_at by exact Hj. rewrite getst_value.
  destruct ((screen_arg <? 0) || (j =? screen_arg)); reflexivity.
Qed.

(** X22: the toggle asked for alone, with no temperature and no delta,
    toggles every screen and then prints, for every selected screen, the
    state read back from the tables the toggle has just written; the error
    flag stays as it was.  Every screen ends with the table of the default
    the toggle chose for it, at the brightness read, on the CRTCs
    selected. *)
Theorem main_toggle_alone (flags : Z) (ts : tempstate) (w : World) :
  Z.land flags has_h = 0 -> Z.land flags has_t <> 0 -> Z.land flags has_d = 0 ->
  temp ts = MIN_DELTA -> screen_arg < Z.of_nat (length (display w)) ->
  let w' := snd (main crtc_arg screen_arg verbose temp_day temp_night flags ts w) in
  let toggled j :=
    snd (setst verbose j crtc_arg
           (toggle_state temp_day temp_night (fst (getst verbose j crtc_arg w))) w) in
  let screens :=
    if screen_arg >=? 0 then [screen_arg] else seqZ 0 (length (display w)) in
  (forall j, 0 <= j < Z.of_nat (length (display w)) ->
     screen_at (display w') j = screen_at (display (toggled j)) j) /\
  stdout w' =
    stdout w ++
    map (fun i => Estimate i (fst (getst verbose i crtc_arg (toggled i)))) screens /\
  fail w' = fail w /\
  (forall j, 0 <= j < Z.of_nat (length (display w)) ->
     let cur := fst (getst verbose j crtc_arg w) in
     screen_at (display w') j =
     write_crtcs
       (setst_gamma (if temp cur >? temp_day - TOGGLE_DELTA
                     then temp_night else temp_day))
       (trimdouble (brightness cur) 0 1)
       (selected_crtcs crtc_arg (screen_at (display w) j))
       (screen_at (display w) j)).
Proof.
  intros Hh Ht Hd Hts Hs. cbv zeta.
  match goal with
  | |- ?A /\ ?B /\ ?C /\ _ => cut (A /\ B /\ C)
  end.
  { intros (H1 & H2 & H3). split; [exact H1 |]. split; [exact H2 |].
    split; [exact H3 |].
    intros j Hj. rewrite H1 by exact Hj.
    rewrite setst_screen_at by exact Hj. now rewrite getst_value. }
  rewrite main_unfold_toggle by assumption. cbv zeta.
  rewrite Hd. cbn [Z.eqb]. rewrite !andb_true_r.
  replace (temp (if Reqb (brightness ts) (IZR MIN_DELTA)
                 then mkts (temp ts) 1 else ts) =? MIN_DELTA) with true
    by (destruct (Reqb _ _); cbn [temp]; rewrite Hts; reflexivity).
  set (wt := snd (toggledaynight crtc_arg verbose temp_day temp_night
                    (Z.of_nat (length (display w))) w)).
  assert (Hlen : length (display wt) = length (display w))
    by apply toggledaynight_length.
  assert (Hwt : forall j, 0 <= j < Z.of_nat (length (display w)) ->
                screen_at (display wt) j =
                screen_at (display (snd (setst verbose j crtc_arg
                   (toggle_state temp_day temp_night
                      (fst (getst verbose j crtc_arg w))) w))) j).
  { intros j Hj. rewrite setst_screen_at by exact Hj. rewrite getst_value.
    now apply toggledaynight_screen_at. }
  assert (Hout : stdout wt = stdout w /\ fail wt = fail w).
  { unfold wt. rewrite toggledaynight_run. cbn [snd stdout fail].
    split; [| reflexivity].
    rewrite <- (app_nil_r (stdout w)) at 2. f_equal.
    induction (seqZ 0 _) as [| i l IH]; [reflexivity | exact IH]. }
  destruct Hout as [Hout Hfail].
  destruct (Z.geb_spec screen_arg 0) as [Hs0 | Hs0].
  - pose proof (printestimate_effects crtc_arg verbose screen_arg screen_arg wt
                  ltac:(lia)) as (H1 & H2 & H3 & _).
    replace (Z.to_nat (screen_arg + 1 - screen_arg)) with 1%nat in H3 by lia.
    change (seqZ screen_arg 1) with [screen_arg + Z.of_nat 0] in H3.
    rewrite Z.add_0_r in H3.
    split; [| split].
    + intros j Hj. rewrite H1. now apply Hwt.
    + rewrite H3, Hout. cbn [map]. rewrite getst_value.
      now rewrite <- Hwt by lia.
    + now rewrite H2.
  - pose proof (printestimate_effects crtc_arg verbose 0
                  (Z.of_nat (length (display w)) - 1) wt
                  ltac:(lia)) as (H1 & H2 & H3 & _).
    replace (Z.to_nat (Z.of_nat (length (display w)) - 1 + 1 - 0))
      with (length (display w)) in H3 by lia.
    split; [| split].
    + intros j Hj. rewrite H1. now apply Hwt.
    + rewrite H3, Hout. f_equal. apply map_ext_in. intros i Hi.
      apply in_seqZ in Hi. rewrite getst_value. now rewrite <- Hwt by lia.
    + now rewrite H2.
Qed.

End ToggleModes.

Lemma main_toggle_then_set_witness :
  screen_at (display (snd (main (-1) (-1) false 6500 4500 has_t
                             (mkts 5000 (IZR MIN_DELTA)) two_screen_world))) 1 =
  screen_at (display (snd (setst false 1 (-1) (mkts 5000 1) two_screen_world))) 1 /\
  screen_at (display (snd (main (-1) (-1) false 6500 4500 has_t
                             (mkts 5000 (IZR MIN_DELTA)) two_screen_world))) 1 =
  write_crtcs (setst_gamma 5000) (trimdouble 1 0 1)
    (selected_crtcs (-1) (screen_at (display two_screen_world) 1))
    (screen_at (display two_screen_world) 1).
Proof.
  assert (Hb : Reqb (IZR MIN_DELTA) (IZR MIN_DELTA) = true)
    by (now apply Reqb_true).
  pose proof (main_toggle_then_set (-1) (-1) false 6500 4500 has_t
                (mkts 5000 (IZR MIN_DELTA)) two_screen_world
                eq_refl ltac:(discriminate) eq_refl
                ltac:(cbn [temp]; unfold MIN_DELTA; lia)
                ltac:(unfold two_screen_world; cbn [display length]; lia)
                1
                ltac:(unfold two_screen_world; cbn [display length]; lia)) as H.
  cbv zeta in H.
  cbn [temp brightness Z.eqb Z.ltb Z.compare orb Pos.compare Pos.eqb] in H.
  rewrite Hb in H. exact H.
Defined.

Lemma main_toggle_alone_witness :
  let w' := snd (main (-1) (-1) false 6500 4500 has_t
                   (mkts MIN_DELTA (IZR MIN_DELTA)) two_screen_world) in
  let toggled j :=
    snd (setst false j (-1)
           (toggle_state 6500 4500 (fst (getst false j (-1) two_screen_world)))
           two_screen_world) in
  (forall j, 0 <= j < Z.of_nat (length (display two_screen_world)) ->
     screen_at (display w') j = screen_at (display (toggled j)) j) /\
  stdout w' =
    stdout two_screen_world ++
    map (fun i => Estimate i (fst (getst false i (-1) (toggled i))))
        (seqZ 0 (length (display two_screen_world))) /\
  fail w' = fail two_screen_world /\
  (forall j, 0 <= j < Z.of_nat (length (display two_screen_world)) ->
     let cur := fst (getst false j (-1) two_screen_world) in
     screen_at (display w') j =
     write_crtcs
       (setst_gamma (if temp cur >? 6500 - TOGGLE_DELTA then 4500 else 6500))
       (trimdouble (brightness cur) 0 1)
       (selected_crtcs (-1) (screen_at (display two_screen_world) j))
       (screen_at (display two_screen_world) j)).
Proof.
  apply (main_toggle_alone (-1) (-1) false 6500 4500 has_t
           (mkts MIN_DELTA (IZR MIN_DELTA)) two_screen_world);
    first [reflexivity | discriminate].
Defined.

(** ** The round trip over the whole range *)

Lemma ln_between (a d b : Z) :
  0 < a -> a <= d <= b ->
  (ln (IZR a) <= ln (IZR d) <= ln (IZR b))%R.
Proof.
  intros Ha [Had Hdb].
  assert (Hmono : forall x y : Z, 0 < x -> x <= y -> (ln (IZR x) <= ln (IZR y))%R).
  { intros x y Hx Hxy. destruct (Z.eq_dec x y) as [-> | Hne]; [lra |].
    apply Rlt_le, ln_increasing; [apply IZR_lt; lia | apply IZR_lt; lia]. }
  split; apply Hmono; lia.
Qed.

Lemma ln_176 : (5.1683 <= ln 176)%R.
Proof.
  exact (ln_lower_checked 32 176 51683 10000 ltac:(vm_compute; reflexivity)).
Qed.

Lemma ln_175 : (ln 175 <= 5.1678)%R.
Proof.
  exact (ln_upper_checked 32 175 51678 10000 ltac:(vm_compute; reflexivity)).
Qed.

Lemma ln_1159 : (ln 1159 <= 7.0558)%R.
Proof.
  exact (ln_upper_checked 32 1159 70558 10000 ltac:(vm_compute; reflexivity)).
Qed.

Lemma ln_1160 : (7.0561 <= ln 1160)%R.
Proof.
  exact (ln_lower_checked 32 1160 70561 10000 ltac:(vm_compute; reflexivity)).
Qed.

Lemma ln_5799 : (ln 5799 <= 8.6655)%R.
Proof.
  exact (ln_upper_checked 32 5799 86655 10000 ltac:(vm_compute; reflexivity)).
Qed.

Lemma ln_10000 : (ln 10000 <= 9.22)%R.
Proof.
  exact (ln_upper_checked 24 10000 922 100 ltac:(vm_compute; reflexivity)).
Qed.

Lemma peak_inner_wide (size : Z) (m : R) :
  2 <= size -> (1 / 10000 <= m <= 1 - 1 / 20000)%R ->
  0 < peak size m < peak size 1.
Proof.
  intros Hs Hm.
  pose proof (peak_round size m Hs ltac:(lra)) as [H1 H2].
  pose proof (peak_round size 1 Hs ltac:(lra)) as [H3 H4].
  pose proof (gain_bounds size Hs) as Hg.
  split.
  - apply lt_IZR. nra.
  - apply lt_IZR. nra.
Qed.

Lemma peak_pos (size : Z) (m : R) :
  2 <= size -> (1 / 10000 <= m <= 1)%R -> 0 < peak size m.
Proof.
  intros Hs Hm.
  pose proof (peak_round size m Hs ltac:(lra)) as [H1 H2].
  pose proof (gain_bounds size Hs) as Hg.
  apply lt_IZR. nra.
Qed.

(** Warm side, green and blue both present. *)
Lemma roundtrip_warm_blue (g0 : XRRCrtcGamma) (t : Z) :
  2 <= gamma_size g0 -> MINTEMP < t < TEMP_NORM ->
  (1 / 10000 <= GAMMA_K0GR + GAMMA_K1GR * ln (IZR (t - MINTEMP)) <= 1)%R ->
  (1 / 10000 <= GAMMA_K0BR + GAMMA_K1BR * ln (IZR (t - MINTEMP))
           <= 1 - 1 / 20000)%R ->
  Z.abs (roundtrip g0 t - t) <= 50.
Proof.
  intros Hs Ht Hg Hb.
  rewrite roundtrip_estimate by lia. rewrite setst_gamma_warm by exact Ht.
  cbn [red green blue]. rewrite !Rplus_0_l.
  rewrite !trimdouble_mid by lra.
  set (size := gamma_size g0) in *. set (L := ln (IZR (t - MINTEMP))) in *.
  set (mg := (GAMMA_K0GR + GAMMA_K1GR * L)%R) in *.
  set (mb := (GAMMA_K0BR + GAMMA_K1BR * L)%R) in *.
  pose proof (peak_inner_wide size mb Hs ltac:(lra)) as [Hb0 Hb1].
  pose proof (peak_nonneg size mg Hs ltac:(lra)) as Hg0.
  pose proof (peak_le_one size mg Hs ltac:(lra)) as Hg1.
  apply IZR_lt in Hb0, Hb1. apply IZR_le in Hg0, Hg1.
  rewrite estimate_warm2 by lra.
  apply (recover_at t (t - MINTEMP) MINTEMP).
  - lia.
  - unfold MINTEMP, TEMP_NORM in *. lia.
  - unfold MINTEMP. lia.
  - unfold GAMMA_K1GR, GAMMA_K1BR. rewrite Rabs_right; lra.
  - fold L.
    pose proof (Rabs_bound _ _ (ratio_close size mg Hs ltac:(lra))) as Hrg.
    pose proof (Rabs_bound _ _ (ratio_close size mb Hs ltac:(lra))) as Hrb.
    apply Rabs_le. unfold mg, mb in *. lra.
Qed.

(** Warm side, blue clamped to zero. *)
Lemma roundtrip_warm_green (g0 : XRRCrtcGamma) (t : Z) :
  2 <= gamma_size g0 -> MINTEMP < t < TEMP_NORM ->
  (1 / 10000 <= GAMMA_K0GR + GAMMA_K1GR * ln (IZR (t - MINTEMP)) <= 1)%R ->
  (GAMMA_K0BR + GAMMA_K1BR * ln (IZR (t - MINTEMP)) <= 0)%R ->
  Z.abs (roundtrip g0 t - t) <= 50.
Proof.
  intros Hs Ht Hg Hb.
  rewrite roundtrip_estimate by lia. rewrite setst_gamma_warm by exact Ht.
  cbn [red green blue]. rewrite !Rplus_0_l.
  rewrite (trimdouble_mid (GAMMA_K0GR + _)) by lra.
  rewrite (trimdouble_low (GAMMA_K0BR + _)) by lra.
  rewrite peak_zero by exact Hs.
  set (size := gamma_size g0) in *. set (L := ln (IZR (t - MINTEMP))) in *.
  set (mg := (GAMMA_K0GR + GAMMA_K1GR * L)%R) in *.
  pose proof (peak_pos size mg Hs ltac:(lra)) as Hg0.
  pose proof (peak_le_one size mg Hs ltac:(lra)) as Hg1.
  apply IZR_lt in Hg0. apply IZR_le in Hg1.
  rewrite estimate_warm1 by lra.
  apply (recover_at t (t - MINTEMP) MINTEMP).
  - lia.
  - unfold MINTEMP, TEMP_NORM in *. lia.
  - unfold MINTEMP. lia.
  - unfold GAMMA_K1GR. rewrite Rabs_right; lra.
  - fold L.
    pose proof (Rabs_bound _ _ (ratio_close size mg Hs ltac:(lra))) as Hrg.
    apply Rabs_le. unfold mg in *. lra.
Qed.

(** X23: on a table of at least two entries, every temperature from 876 to
    15800 written with [setst] at brightness 1.0 is read back by [getst]
    within 50 K. *)
Theorem roundtrip_within_50_range (g0 : XRRCrtcGamma) (t : Z) :
  2 <= gamma_size g0 -> 876 <= t <= 15800 ->
  Z.abs (roundtrip g0 t - t) <= 50.
Proof.
  intros Hs Ht.
  destruct (Z.lt_ge_cases t TEMP_NORM) as [Hwarm | Hcool].
  - unfold TEMP_NORM in Hwarm.
    destruct (Z.le_gt_cases t 1859) as [Hlow | Hhigh].
    + pose proof (ln_between 176 (t - MINTEMP) 1159 ltac:(lia)
                    ltac:(unfold MINTEMP; lia)) as HL.
      pose proof ln_176. pose proof ln_1159.
      apply roundtrip_warm_green; try exact Hs;
        try (unfold MINTEMP, TEMP_NORM; lia);
        unfold GAMMA_K0GR, GAMMA_K1GR, GAMMA_K0BR, GAMMA_K1BR; lra.
    + pose proof (ln_between 1160 (t - MINTEMP) 5799 ltac:(lia)
                    ltac:(unfold MINTEMP; lia)) as HL.
      pose proof ln_1160. pose proof ln_5799.
      apply roundtrip_warm_blue; try exact Hs;
        try (unfold MINTEMP, TEMP_NORM; lia);
        unfold GAMMA_K0GR, GAMMA_K1GR, GAMMA_K0BR, GAMMA_K1BR; lra.
  - unfold TEMP_NORM in Hcool.
    pose proof (ln_between 700 (t - (TEMP_NORM - MINTEMP)) 10000 ltac:(lia)
                  ltac:(unfold MINTEMP, TEMP_NORM; lia)) as HL.
    pose proof ln_700. pose proof ln_10000.
    apply roundtrip_cool; try exact Hs;
      try (unfold MINTEMP, TEMP_NORM; lia);
      unfold GAMMA_K0RB, GAMMA_K1RB, GAMMA_K0GB, GAMMA_K1GB; lra.
Qed.

Lemma roundtrip_within_50_range_witness :
  Z.abs (roundtrip unit_ramp 5777 - 5777) <= 50.
Proof.
  apply (roundtrip_within_50_range unit_ramp 5777).
  - unfold unit_ramp. rewrite setst_ramp_size. lia.
  - lia.
Defined.

(** The multipliers below 876 K: red alone. *)
Lemma setst_gamma_below_876 (t : Z) : t <= 875 -> setst_gamma t = mksg 1 0 0.
Proof.
  intro Ht. destruct (Z.le_gt_cases t MINTEMP) as [Hlow | Hhigh].
  - unfold setst_gamma. cbv zeta.
    replace (t <? TEMP_NORM) with true by (unfold MINTEMP, TEMP_NORM in *; zbool).
    now replace (t >? MINTEMP) with false by zbool.
  - rewrite setst_gamma_warm by (unfold TEMP_NORM; lia).
    pose proof (ln_between 1 (t - MINTEMP) 175 ltac:(lia)
                  ltac:(unfold MINTEMP in *; lia)) as HL.
    pose proof ln_175.
    rewrite !trimdouble_low
      by (unfold GAMMA_K0GR, GAMMA_K1GR, GAMMA_K0BR, GAMMA_K1BR; lra).
    reflexivity.
Qed.

(** X24: on a table of at least two entries, every temperature up to 875,
    zero and the negative ones included, is read back as 700 after [setst]
    wrote it at brightness 1.0: below 876 K the table is red alone, and the
    temperatures cannot be told apart. *)
Theorem roundtrip_below_876 (g0 : XRRCrtcGamma) (t : Z) :
  2 <= gamma_size g0 -> t <= 875 -> roundtrip g0 t = 700.
Proof.
  intros Hs Ht.
  rewrite roundtrip_estimate by lia. rewrite setst_gamma_below_876 by exact Ht.
  cbn [red green blue]. rewrite !Rplus_0_l.
  rewrite peak_zero by exact Hs.
  pose proof (peak_one_large (gamma_size g0) Hs) as H1. apply IZR_le in H1.
  set (r := IZR (peak (gamma_size g0) 1)) in *.
  unfold estimate. cbn [red green blue].
  rewrite (MAX_l r 0) by lra. rewrite (MAX_r 0 r) by lra.
  rewrite (Rgtb_true r 0) by lra. cbn [andb Z.gtb Z.compare].
  assert (Hr : (r / r = 1)%R) by (field; lra).
  assert (H0 : (0 / r = 0)%R) by (field; lra).
  rewrite Hr, H0.
  rewrite (Rltb_true (0 - 1) 0) by lra. rewrite (Rgtb_false 0 0) by lra.
  cbn [temp]. unfold to_long. apply Rtrunc_eq; [lia |].
  unfold MINTEMP. lra.
Qed.

Lemma roundtrip_below_876_witness : roundtrip unit_ramp 0 = 700.
Proof.
  apply (roundtrip_below_876 unit_ramp 0).
  - unfold unit_ramp. rewrite setst_ramp_size. lia.
  - lia.
Defined.

(** ** The brightness read back *)

Lemma gain_range (size : Z) : 1 <= size -> (0 <= gain size < 65535)%R.
Proof.
  intro Hs. unfold gain. rewrite minus_IZR.
  assert (H1 : (1 <= IZR size)%R) by (apply IZR_le; lia).
  assert (Hi : (0 < / IZR size <= 1)%R).
  { split; [apply Rinv_0_lt_compat; lra |].
    rewrite <- Rinv_1. apply Rinv_le_contravar; lra. }
  replace (65535 * (IZR size - 1) / IZR size)%R
    with (65535 - 65535 * / IZR size)%R by (field; lra).
  lra.
Qed.

(** The last entry of a channel is its value rounded to the nearest. *)
Lemma last_entry_round (size : Z) (b m : R) :
  1 <= size -> (0 <= b <= 1)%R -> (0 <= m <= 1)%R ->
  (gain size * b * m - 1 / 2 < IZR (ramp_entry b m size (size - 1))
     <= gain size * b * m + 1 / 2)%R.
Proof.
  intros Hs Hb Hm.
  rewrite ramp_entry_floor by (lra || lia).
  unfold ramp_value. rewrite GAMMA_MULT_eq.
  replace (65535 * b * IZR (size - 1) / IZR size * m)%R
    with (gain size * b * m)%R by (unfold gain; lra).
  pose proof (Zfloor_bound (gain size * b * m + 0.5)) as Hf.
  lra.
Qed.

Lemma last_entry_mono (size : Z) (b m m' : R) :
  1 <= size -> (0 <= b <= 1)%R -> (0 <= m)%R -> (m <= m')%R -> (m' <= 1)%R ->
  ramp_entry b m size (size - 1) <= ramp_entry b m' size (size - 1).
Proof.
  intros Hs Hb H0 Hm H1.
  rewrite !ramp_entry_floor by (lra || lia).
  apply Zfloor_le. unfold ramp_value. rewrite GAMMA_MULT_eq.
  replace (65535 * b * IZR (size - 1) / IZR size)%R
    with (gain size * b)%R by (unfold gain; lra).
  pose proof (gain_range size Hs) as Hg.
  assert (Hk : (0 <= gain size * b)%R) by nra.
  nra.
Qed.

(** One of red and blue is always at full scale. *)
Lemma setst_gamma_has_one (t : Z) :
  red (setst_gamma t) = 1%R \/ blue (setst_gamma t) = 1%R.
Proof.
  unfold setst_gamma. cbv zeta.
  destruct (t <? TEMP_NORM); [left | right].
  - now destruct (t >? MINTEMP).
  - reflexivity.
Qed.

(** The brightness of an estimate over one CRTC. *)
Lemma estimate_brightness (sg : sgamma) :
  (0 <= MAX (blue sg) (MAX (red sg) (green sg)))%R ->
  brightness (estimate 1 sg) =
  trimdouble (MAX (blue sg) (MAX (red sg) (green sg)) / BRIGHTNESS_DIV) 0 1.
Proof.
  intro H0. unfold estimate. cbv zeta.
  set (b := MAX (blue sg) (MAX (red sg) (green sg))) in *.
  destruct (Rle_lt_dec b 0) as [Hle | Hgt].
  - rewrite (Rgtb_false b 0) by lra. cbn [andb brightness].
    assert (Hb : b = 0%R) by lra. rewrite Hb.
    unfold BRIGHTNESS_DIV. rewrite !trimdouble_low by lra. reflexivity.
  - rewrite (Rgtb_true b 0) by lra. cbn [andb Z.gtb Z.compare brightness].
    f_equal. unfold BRIGHTNESS_DIV. lra.
Qed.

(** The maximum [getst] takes over the three sums is the peak of the
    channel at full scale. *)
Lemma brightness_roundtrip_peak (g0 : XRRCrtcGamma) (t : Z) (b : R) :
  1 <= gamma_size g0 ->
  brightness_roundtrip g0 t b =
  trimdouble
    (IZR (ramp_entry (trimdouble b 0 1) 1 (gamma_size g0) (gamma_size g0 - 1)) /
     BRIGHTNESS_DIV) 0 1.
Proof.
  intro Hs. unfold brightness_roundtrip. rewrite getst_screen. cbn [fst].
  rewrite one_crtc_written. cbn [temp brightness].
  change (screen_at [[setst_ramp (setst_gamma t) (trimdouble b 0 1) (gamma_size g0)]] 0)
    with [setst_ramp (setst_gamma t) (trimdouble b 0 1) (gamma_size g0)].
  unfold screen_read. rewrite one_crtc_sums. rewrite setst_ramp_size.
  rewrite setst_ramp_red, setst_ramp_green, setst_ramp_blue by lia.
  rewrite !Rplus_0_l.
  set (size := gamma_size g0) in *. set (b' := trimdouble b 0 1).
  pose proof (trimdouble_range b 0 1 ltac:(lra)) as Hb'. fold b' in Hb'.
  destruct (setst_gamma_range t) as (Hr & Hg & Hbl).
  set (P := fun m => ramp_entry b' m size (size - 1)).
  assert (Hmono : forall m, (0 <= m <= 1)%R -> (0 <= IZR (P m) <= IZR (P 1%R))%R).
  { intros m Hm. split.
    - apply IZR_le.
      pose proof (last_entry_mono size b' 0 m Hs Hb' ltac:(lra) ltac:(lra) ltac:(lra)).
      unfold P. now rewrite ramp_entry_zero in H.
    - apply IZR_le. apply last_entry_mono; lra || lia. }
  pose proof (Hmono _ Hr) as Hpr. pose proof (Hmono _ Hg) as Hpg.
  pose proof (Hmono _ Hbl) as Hpb.
  assert (Hmax : MAX (IZR (P (blue (setst_gamma t))))
                   (MAX (IZR (P (red (setst_gamma t))))
                        (IZR (P (green (setst_gamma t))))) = IZR (P 1%R)).
  { assert (Hin : forall x y : R, MAX x y = x \/ MAX x y = y).
    { intros x y. unfold MAX. destruct (Rgtb x y); tauto. }
    assert (Hge : forall x y : R, (x <= MAX x y)%R /\ (y <= MAX x y)%R).
    { intros x y. unfold MAX, Rgtb. destruct (Rgt_dec x y); lra. }
    set (a := IZR (P (blue (setst_gamma t)))) in *.
    set (c := IZR (P (red (setst_gamma t)))) in *.
    set (d := IZR (P (green (setst_gamma t)))) in *.
    assert (Hup : (MAX a (MAX c d) <= IZR (P 1%R))%R).
    { destruct (Hin a (MAX c d)) as [-> | ->]; [lra |].
      destruct (Hin c d) as [-> | ->]; lra. }
    assert (Hlo : (IZR (P 1%R) <= MAX a (MAX c d))%R).
    { destruct (Hge a (MAX c d)) as [Ha Hcd]. destruct (Hge c d) as [Hc _].
      destruct (setst_gamma_has_one t) as [E | E].
      - assert (Hc1 : c = IZR (P 1%R)) by (unfold c; now rewrite E). lra.
      - assert (Ha1 : a = IZR (P 1%R)) by (unfold a; now rewrite E). lra. }
    lra. }
  rewrite estimate_brightness; cbn [red green blue]; fold (P (red (setst_gamma t)));
    fold (P (green (setst_gamma t))); fold (P (blue (setst_gamma t)));
    rewrite Hmax.
  - reflexivity.
  - pose proof (Hmono 1%R ltac:(lra)). lra.
Qed.

(** X25: the brightness read back after [setst] wrote any temperature at
    brightness [b] is [b], clamped to [[0, 1]], times
    [65535 * (size - 1) / size / 65470.988], capped at 1, within 1/100000.
    On a table of 1024 entries that factor is 1 within 2/10000000, and the
    brightness comes back within 2/100000. *)
Theorem brightness_roundtrip_scaled (g0 : XRRCrtcGamma) (t : Z) (b : R) :
  1 <= gamma_size g0 ->
  (Rabs (brightness_roundtrip g0 t b -
         Rmin 1 (trimdouble b 0 1 * gain (gamma_size g0) / BRIGHTNESS_DIV))
   <= 1 / 100000)%R /\
  (gamma_size g0 = 1024 ->
   (Rabs (brightness_roundtrip g0 t b - trimdouble b 0 1) <= 2 / 100000)%R).
Proof.
  intro Hs. rewrite brightness_roundtrip_peak by exact Hs.
  set (size := gamma_size g0) in *. set (b' := trimdouble b 0 1).
  pose proof (trimdouble_range b 0 1 ltac:(lra)) as Hb'. fold b' in Hb'.
  pose proof (last_entry_round size b' 1 Hs Hb' ltac:(lra)) as HP.
  rewrite Rmult_1_r in HP.
  pose proof (gain_range size Hs) as Hg.
  set (P := IZR (ramp_entry b' 1 size (size - 1))) in *.
  assert (HG : (0 <= gain size * b')%R) by nra.
  replace (b' * gain size)%R with (gain size * b')%R by lra.
  set (G := (gain size * b')%R) in *.
  assert (Hclose : (Rabs (trimdouble (P / BRIGHTNESS_DIV) 0 1 -
                          Rmin 1 (G / BRIGHTNESS_DIV)) <= 1 / 100000)%R).
  { unfold BRIGHTNESS_DIV. apply Rabs_le.
    unfold Rmin. destruct (Rle_dec 1 (G / 65470.988)) as [Hy | Hy].
    - destruct (Rle_lt_dec (P / 65470.988) 0) as [H0 | H0];
        [rewrite trimdouble_low by lra; lra |].
      destruct (Rle_lt_dec (P / 65470.988) 1) as [H1 | H1];
        [rewrite trimdouble_mid by lra | rewrite trimdouble_high by lra]; lra.
    - destruct (Rle_lt_dec (P / 65470.988) 0) as [H0 | H0];
        [rewrite trimdouble_low by lra; lra |].
      destruct (Rle_lt_dec (P / 65470.988) 1) as [H1 | H1];
        [rewrite trimdouble_mid by lra | rewrite trimdouble_high by lra]; lra. }
  split; [exact Hclose |].
  intro H1024.
  assert (HG1024 : G = (65535 * 1023 / 1024 * b')%R).
  { unfold G, gain. rewrite H1024. change (1024 - 1) with 1023. lra. }
  apply Rabs_bound in Hclose. apply Rabs_le.
  unfold BRIGHTNESS_DIV in *. rewrite HG1024 in Hclose.
  unfold Rmin in Hclose.
  destruct (Rle_dec 1 (65535 * 1023 / 1024 * b' / 65470.988)); lra.
Qed.

Lemma brightness_roundtrip_scaled_witness :
  (Rabs (brightness_roundtrip (setst_ramp (mksg 1 1 1) 1 1024) 5000 0.5 -
         Rmin 1 (trimdouble 0.5 0 1 *
                 gain (gamma_size (setst_ramp (mksg 1 1 1) 1 1024)) /
                 BRIGHTNESS_DIV))
   <= 1 / 100000)%R /\
  (gamma_size (setst_ramp (mksg 1 1 1) 1 1024) = 1024 ->
   (Rabs (brightness_roundtrip (setst_ramp (mksg 1 1 1) 1 1024) 5000 0.5 -
          trimdouble 0.5 0 1) <= 2 / 100000)%R).
Proof.
  apply (brightness_roundtrip_scaled (setst_ramp (mksg 1 1 1) 1 1024) 5000 0.5).
  rewrite setst_ramp_size. lia.
Defined.

(** ** Screens with several CRTCs *)

Lemma MAX_scale (k x y : R) : (0 < k)%R -> MAX (k * x) (k * y) = (k * MAX x y)%R.
Proof.
  intro Hk. unfold MAX, Rgtb.
  destruct (Rgt_dec (k * x) (k * y)) as [H | H], (Rgt_dec x y) as [H' | H'];
    try reflexivity; exfalso; nra.
Qed.

(** The estimate depends on the sums only through their ratios to the
    number of CRTCs. *)
Lemma estimate_scaled (k : Z) (r g bl : R) :
  0 < k ->
  estimate k (mksg (IZR k * r) (IZR k * g) (IZR k * bl)) = estimate 1 (mksg r g bl).
Proof.
  intro Hk. assert (HkR : (0 < IZR k)%R) by (apply IZR_lt; lia).
  unfold estimate. cbn [red green blue].
  rewrite !MAX_scale by exact HkR.
  set (b := MAX bl (MAX r g)).
  replace (k >? 0) with true by zbool. cbn [Z.gtb Z.compare]. rewrite !andb_true_r.
  destruct (Rle_lt_dec b 0) as [Hle | Hgt].
  - rewrite (Rgtb_false b 0) by lra.
    rewrite (Rgtb_false (IZR k * b) 0) by nra.
    rewrite !trimdouble_low by (lra || nra). reflexivity.
  - rewrite (Rgtb_true b 0) by lra.
    rewrite (Rgtb_true (IZR k * b) 0) by nra.
    replace (IZR k * r / (IZR k * b))%R with (r / b)%R by (field; lra).
    replace (IZR k * g / (IZR k * b))%R with (g / b)%R by (field; lra).
    replace (IZR k * bl / (IZR k * b))%R with (bl / b)%R by (field; lra).
    replace (IZR k * b / IZR k / BRIGHTNESS_DIV)%R
      with (b / 1 / BRIGHTNESS_DIV)%R by (unfold BRIGHTNESS_DIV; field; lra).
    reflexivity.
Qed.

Lemma crtc_at_repeat (g : XRRCrtcGamma) (n : nat) (c : Z) :
  0 <= c < Z.of_nat n -> crtc_at (repeat g n) c = g.
Proof.
  intro Hc. unfold crtc_at.
  assert (H : (Z.to_nat c < n)%nat) by lia.
  revert H. generalize (Z.to_nat c). clear Hc c.
  induction n as [| n IH]; intros k Hk; [lia |].
  destruct k as [| k]; [reflexivity |]. cbn [repeat nth]. apply IH. lia.
Qed.

(** The sums over CRTCs that all carry the table [g]. *)
Lemma peak_sums_uniform (scr : Screen) (g : XRRCrtcGamma) (cs : list Z)
    (a b c : R) :
  (forall i, In i cs -> crtc_at scr i = g) ->
  peak_sums scr cs (a, b, c) =
  ((a + IZR (Z.of_nat (length cs)) *
        IZR (at_index (gamma_red g) (gamma_size g - 1)))%R,
   (b + IZR (Z.of_nat (length cs)) *
        IZR (at_index (gamma_green g) (gamma_size g - 1)))%R,
   (c + IZR (Z.of_nat (length cs)) *
        IZR (at_index (gamma_blue g) (gamma_size g - 1)))%R).
Proof.
  revert a b c. induction cs as [| i cs IH]; intros a b c Hall.
  - cbn [length peak_sums fold_left Z.of_nat]. f_equal; [f_equal |]; lra.
  - unfold peak_sums. cbn [fold_left].
    unfold add_peak at 2. rewrite (Hall i) by (now left).
    change (fold_left (add_peak scr) cs) with (peak_sums scr cs).
    rewrite IH by (intros j Hj; apply Hall; now right).
    cbn [length]. rewrite Nat2Z.inj_succ, succ_IZR.
    f_equal; [f_equal |]; lra.
Qed.

(** The CRTCs selected are CRTCs of the screen. *)
Lemma selected_crtcs_range (icrtc : Z) (scr : Screen) (c : Z) :
  - 2 ^ 31 <= icrtc < 2 ^ 31 -> Z.of_nat (length scr) < 2 ^ 31 ->
  In c (selected_crtcs icrtc scr) -> 0 <= c < Z.of_nat (length scr).
Proof.
  intros Hi Hn Hc. rewrite selected_chosen in Hc by assumption.
  unfold chosen_crtcs in Hc.
  destruct ((0 <=? icrtc) && (icrtc <? Z.of_nat (length scr))) eqn:Hin.
  - apply andb_true_iff in Hin. destruct Hin as [H0 H1].
    apply Z.leb_le in H0. apply Z.ltb_lt in H1.
    destruct Hc as [<- | []]. lia.
  - apply in_seqZ in Hc. lia.
Qed.

(** A screen whose selected CRTCs all carry the table [g] reads as the
    single CRTC [g]. *)
Lemma screen_read_uniform (icrtc : Z) (scr : Screen) (g : XRRCrtcGamma) :
  scr <> [] -> - 2 ^ 31 <= icrtc < 2 ^ 31 -> Z.of_nat (length scr) < 2 ^ 31 ->
  (forall c, In c (selected_crtcs icrtc scr) -> crtc_at scr c = g) ->
  screen_read icrtc scr = screen_read (-1) [g].
Proof.
  intros Hne Hi Hn Hall.
  assert (Hlen : (0 < length scr)%nat) by (destruct scr; [congruence | simpl; lia]).
  unfold screen_read at 2. rewrite one_crtc_sums. rewrite !Rplus_0_l.
  unfold screen_read, screen_sums.
  unfold selected_crtcs in Hall.
  rewrite crtc_range_spec in * by lia.
  destruct ((0 <=? icrtc) && (icrtc <? Z.of_nat (length scr))).
  - rewrite (peak_sums_uniform scr g) by exact Hall.
    change (Z.to_nat 1) with 1%nat. rewrite seqZ_length.
    change (IZR (Z.of_nat 1)) with 1%R. rewrite !Rplus_0_l, !Rmult_1_l.
    reflexivity.
  - rewrite (peak_sums_uniform scr g) by exact Hall.
    rewrite seqZ_length, Z2Nat.id by lia.
    rewrite !Rplus_0_l. apply estimate_scaled. lia.
Qed.

(** X26: a screen whose CRTCs all carry the same gamma table reads, with
    any CRTC index, exactly as a single CRTC with that table: the sums
    [getscreengamma] forms over several CRTCs are divided out again by
    [getst]. *)
Theorem getst_identical_crtcs (verbose : bool) (iscreen icrtc : Z)
    (g : XRRCrtcGamma) (n : nat) (w : World) :
  (1 <= n)%nat -> Z.of_nat n < 2 ^ 31 -> - 2 ^ 31 <= icrtc < 2 ^ 31 ->
  screen_at (display w) iscreen = repeat g n ->
  fst (getst verbose iscreen icrtc w) =
  fst (getst verbose 0 (-1) (one_crtc_world g)).
Proof.
  intros Hn Hn31 Hi Hscr. rewrite !getst_value. rewrite Hscr.
  change (screen_at (display (one_crtc_world g)) 0) with [g].
  apply screen_read_uniform.
  - destruct n; [lia | discriminate].
  - exact Hi.
  - now rewrite repeat_length.
  - intros c Hc. apply crtc_at_repeat.
    apply selected_crtcs_range in Hc; rewrite ?repeat_length in *; assumption.
Qed.

Lemma getst_identical_crtcs_witness :
  fst (getst false 0 (-1) two_ramp_world) =
  fst (getst false 0 (-1) (one_crtc_world unit_ramp)).
Proof.
  apply (getst_identical_crtcs false 0 (-1) unit_ramp 2 two_ramp_world);
    [lia | simpl; lia | lia | reflexivity].
Defined.

(** X27: writing a state to a screen and reading it back with the same
    CRTC index gives, on a screen whose CRTCs share one table size, exactly
    what the same write and read give on a single CRTC of that size:
    [setst] installs the same table on every CRTC it selects, and [getst]
    reads the same CRTCs. *)
Theorem setst_getst_uniform_screen (v1 v2 : bool) (iscreen icrtc : Z)
    (ts : tempstate) (w : World) (g0 : XRRCrtcGamma) :
  0 <= iscreen < Z.of_nat (length (display w)) ->
  - 2 ^ 31 <= icrtc < 2 ^ 31 ->
  screen_at (display w) iscreen <> [] ->
  Z.of_nat (length (screen_at (display w) iscreen)) < 2 ^ 31 ->
  Forall (fun g => gamma_size g = gamma_size g0) (screen_at (display w) iscreen) ->
  fst (getst v2 iscreen icrtc (snd (setst v1 iscreen icrtc ts w))) =
  fst (getst false 0 (-1) (snd (setst false 0 (-1) ts (one_crtc_world g0)))).
Proof.
  intros Hs Hi Hne Hlen Hsize.
  rewrite !getst_value. rewrite setst_screen_at by exact Hs.
  rewrite one_crtc_written.
  set (scr := screen_at (display w) iscreen) in *.
  set (g := setst_ramp (setst_gamma (temp ts)) (trimdouble (brightness ts) 0 1)
              (gamma_size g0)).
  change (screen_at [[g]] 0) with [g].
  apply screen_read_uniform.
  - intro E. apply Hne. apply length_zero_iff_nil.
    rewrite <- (screen_write_length icrtc ts scr), E. reflexivity.
  - exact Hi.
  - now rewrite screen_write_length.
  - intros c Hc.
    rewrite (selected_crtcs_length icrtc _ scr) in Hc by apply screen_write_length.
    pose proof (selected_crtcs_range icrtc scr c Hi Hlen Hc) as Hrange.
    unfold crtc_at, screen_write. rewrite write_crtcs_nth.
    replace (existsb (fun c0 => (Z.to_nat c0 =? Z.to_nat c)%nat)
               (selected_crtcs icrtc scr)) with true.
    + replace (Z.to_nat c <? length scr)%nat with true
        by (symmetry; apply Nat.ltb_lt; lia).
      cbn [andb]. unfold g. f_equal.
      rewrite Forall_forall in Hsize. apply Hsize. apply nth_In. lia.
    + symmetry. apply existsb_exists. exists c. split; [exact Hc |].
      apply Nat.eqb_refl.
Qed.

Lemma setst_getst_uniform_screen_witness :
  fst (getst false 0 (-1)
         (snd (setst false 0 (-1) (mkts 5000 1) two_ramp_world))) =
  fst (getst false 0 (-1)
         (snd (setst false 0 (-1) (mkts 5000 1) (one_crtc_world unit_ramp)))).
Proof.
  apply (setst_getst_uniform_screen false false 0 (-1) (mkts 5000 1)
           two_ramp_world unit_ramp).
  - unfold two_ramp_world. cbn [display length]. lia.
  - lia.
  - discriminate.
  - unfold two_ramp_world, screen_at. cbn [display length Z.to_nat nth]. lia.
  - repeat constructor.
Defined.

(** ** More on the arguments *)

Section MoreArguments.

Variable atoi : string -> Z.
Variable atof : string -> R.
Variable strtol : string -> option Z.
Variable getenv : string -> option string.
Variable errno : Z.

(** X28: a third argument that is no option is rejected: with a
    temperature and a brightness already read, the program logs an error,
    prints the usage text and ends with EXIT_FAILURE, whatever follows on
    the command line; no request is sent and no table changes. *)
Theorem xsct_rejects_third_argument (prog a b c : string) (rest : list string)
    (w : World) :
  is_option a = false -> is_option b = false -> is_option c = false ->
  atoi a <> MIN_DELTA -> atof b <> IZR MIN_DELTA ->
  let argv := prog :: a :: b :: c :: rest in
  let r := xsct atoi atof strtol getenv true errno
             (Z.of_nat (length argv)) argv w in
  fst r = EXIT_FAILURE /\ fail (snd r) = true /\
  (exists line, In (Error, line) (stderr (snd r))) /\
  stdout (snd r) = stdout w ++ [Usage] /\
  display (snd r) = display w /\ requests (snd r) = requests w.
Proof.
  intros Ha Hb Hc Hta Htb. cbv zeta.
  set (argv := prog :: a :: b :: c :: rest).
  destruct (xsct_connected atoi atof strtol getenv true errno
              (Z.of_nat (length argv)) argv w eq_refl) as (lg & _ & E).
  cbv zeta in E. rewrite E. clear E.
  set (n := length rest).
  assert (Hargc : Z.of_nat (length argv) = Z.of_nat n + 4)
    by (unfold argv, n; cbn [length]; lia).
  assert (Hfuel : Z.to_nat (Z.of_nat (length argv)) = S (S (S (S n))))
    by (rewrite Nat2Z.id; reflexivity).
  set (w1 := mkWorld (display w) (requests w) true
               (stderr w ++ [(Error, "unrecognized argument '%s'"%string)])
               (stdout w)).
  assert (Hparsed :
    collectargs atoi atof (Z.of_nat (length argv)) argv
      (mkts MIN_DELTA (IZR MIN_DELTA)) Globals.initial w =
    collectargs_loop atoi atof (S n) (Z.of_nat (length argv)) argv 4
      (Z.lor 0 has_h) Globals.initial (mkts (atoi a) (atof b)) w1).
  { unfold collectargs. rewrite Hfuel.
    rewrite collectargs_loop_plain by (lia || exact Ha).
    cbn [temp brightness]. change (MIN_DELTA =? MIN_DELTA) with true. cbn iota.
    change (arg_at argv 1) with a.
    rewrite collectargs_loop_plain by (lia || exact Hb).
    cbn [temp brightness].
    replace (atoi a =? MIN_DELTA) with false by (symmetry; now apply Z.eqb_neq).
    rewrite (Reqb_true (IZR MIN_DELTA) (IZR MIN_DELTA)) by reflexivity.
    change (arg_at argv (1 + 1)) with b.
    rewrite collectargs_loop_plain by (lia || exact Hc).
    cbn [temp brightness].
    replace (atoi a =? MIN_DELTA) with false by (symmetry; now apply Z.eqb_neq).
    rewrite (Reqb_false (atof b) (IZR MIN_DELTA)) by exact Htb.
    rewrite bind_run, logerror_run. reflexivity. }
  rewrite Hparsed.
  pose proof (collectargs_loop_keeps atoi atof (S n) (Z.of_nat (length argv)) argv
                4 (Z.lor 0 has_h) Globals.initial (mkts (atoi a) (atof b)) w1
                eq_refl) as (_ & Hh & _ & Hfail & Hdis & Hreq & Hout & _).
  set (r1 := collectargs_loop atoi atof (S n) (Z.of_nat (length argv)) argv 4
               (Z.lor 0 has_h) Globals.initial (mkts (atoi a) (atof b)) w1) in *.
  specialize (Hh ltac:(discriminate)). specialize (Hfail eq_refl).
  rewrite main_help_run by exact Hh.
  cbn [fst snd display requests fail stdout stderr add_stderr].
  rewrite Hfail, Hdis, Hreq, Hout.
  split; [reflexivity |]. split; [reflexivity |]. split; [| tauto].
  assert (Hlog : exists lg', stderr (snd r1) = stderr w1 ++ lg').
  { unfold r1. apply collectargs_loop_logs. }
  destruct Hlog as (lg' & Hlg').
  exists "unrecognized argument '%s'"%string.
  rewrite Hlg'. unfold w1. cbn [stderr].
  apply in_or_app. left. apply in_or_app. left.
  apply in_or_app. right. now left.
Qed.

End MoreArguments.

Lemma xsct_rejects_third_argument_witness :
  let argv := ["xsct"; "5000"; "0.8"; "extra"]%string in
  let r := xsct example_atoi example_atof example_strtol example_getenv true 0
             (Z.of_nat (length argv)) argv two_screen_world in
  fst r = EXIT_FAILURE /\ fail (snd r) = true /\
  (exists line, In (Error, line) (stderr (snd r))) /\
  stdout (snd r) = stdout two_screen_world ++ [Usage] /\
  display (snd r) = display two_screen_world /\
  requests (snd r) = requests two_screen_world.
Proof.
  apply (xsct_rejects_third_argument example_atoi example_atof example_strtol
           example_getenv 0 "xsct" "5000" "0.8" "extra" [] two_screen_world).
  - reflexivity.
  - reflexivity.
  - reflexivity.
  - vm_compute. discriminate.
  - change (example_atof "0.8") with 0.8%R. unfold MIN_DELTA. lra.
Defined.

(** The arguments after one that is dropped, one place to the left. *)
Lemma arg_at_shift (p a : string) (rest : list string) (i : Z) :
  1 <= i -> arg_at (p :: a :: rest) (i + 1) = arg_at (p :: rest) i.
Proof.
  intro Hi. unfold arg_at.
  replace (Z.to_nat (i + 1)) with (S (Z.to_nat i)) by lia.
  destruct (Z.to_nat i) as [| k] eqn:Hk; [lia | reflexivity].
Qed.

Section Sentinel.

Variable atoi : string -> Z.
Variable atof : string -> R.
Variable strtol : string -> option Z.
Variable getenv : string -> option string.
Variable XOpenDisplay : bool.
Variable errno : Z.

(** The loop does not see an argument it has passed. *)
Lemma collectargs_loop_shift (n : nat) (argc : Z) (p a : string)
    (rest : list string) (i : Z) (flags : Z) (g : Globals.t) (ts : tempstate)
    (w : World) :
  1 <= i ->
  collectargs_loop atoi atof n argc (p :: a :: rest) (i + 1) flags g ts w =
  collectargs_loop atoi atof n (argc - 1) (p :: rest) i flags g ts w.
Proof.
  revert i flags g ts w.
  induction n as [| n IH]; intros i flags g ts w Hi; [reflexivity |].
  cbn [collectargs_loop].
  replace (i + 1 <? argc) with (i <? argc - 1) by zbool.
  destruct (i <? argc - 1); [| reflexivity].
  cbv zeta. rewrite arg_at_shift by exact Hi.
  destruct (IS (arg_at (p :: rest) i) "-h" || IS (arg_at (p :: rest) i) "--help");
    [reflexivity |].
  destruct (IS (arg_at (p :: rest) i) "-v" || IS (arg_at (p :: rest) i) "--verbose");
    [apply IH; lia |].
  destruct (IS (arg_at (p :: rest) i) "-d" || IS (arg_at (p :: rest) i) "--delta");
    [apply IH; lia |].
  destruct (IS (arg_at (p :: rest) i) "-t" || IS (arg_at (p :: rest) i) "--toggle");
    [apply IH; lia |].
  destruct (IS (arg_at (p :: rest) i) "-s" || IS (arg_at (p :: rest) i) "--screen" ||
            IS (arg_at (p :: rest) i) "-c" || IS (arg_at (p :: rest) i) "--crtc").
  { rewrite !bind_run. unfold collectindex. cbv zeta.
    rewrite arg_at_shift by exact Hi.
    replace (i + 1 + 1 <? argc) with (i + 1 <? argc - 1) by zbool.
    rewrite (arg_at_shift p a rest (i + 1)) by lia.
    destruct (i + 1 <? argc - 1).
    - unfold ret at 1 2 3 4. cbn [fst snd negb]. apply IH. lia.
    - reflexivity. }
  destruct (temp ts =? MIN_DELTA); [apply IH; lia |].
  destruct (Reqb (brightness ts) (IZR MIN_DELTA)); [apply IH; lia |].
  rewrite !bind_run. apply IH. lia.
Qed.

(** X29: a first argument that is no option and that [atoi] reads as
    -1000000 is not there for the program: the run is, in result and in
    every effect, the run on the command line without it.  The value that
    marks a temperature as not given cannot be given as a temperature. *)
Theorem xsct_skips_sentinel_temperature (prog a : string) (rest : list string)
    (w : World) :
  is_option a = false -> atoi a = MIN_DELTA ->
  xsct atoi atof strtol getenv XOpenDisplay errno
    (Z.of_nat (length (prog :: a :: rest))) (prog :: a :: rest) w =
  xsct atoi atof strtol getenv XOpenDisplay errno
    (Z.of_nat (length (prog :: rest))) (prog :: rest) w.
Proof.
  intros Ha Hta.
  assert (Hparsed : forall w0,
    collectargs atoi atof (Z.of_nat (length (prog :: a :: rest)))
      (prog :: a :: rest) (mkts MIN_DELTA (IZR MIN_DELTA)) Globals.initial w0 =
    collectargs atoi atof (Z.of_nat (length (prog :: rest)))
      (prog :: rest) (mkts MIN_DELTA (IZR MIN_DELTA)) Globals.initial w0).
  { intro w0. unfold collectargs. rewrite !Nat2Z.id.
    change (length (prog :: a :: rest)) with (S (length (prog :: rest))).
    rewrite collectargs_loop_plain by (cbn [length]; lia || exact Ha).
    cbn [temp brightness]. change (MIN_DELTA =? MIN_DELTA) with true. cbn iota.
    change (arg_at (prog :: a :: rest) 1) with a. rewrite Hta.
    rewrite collectargs_loop_shift by lia.
    f_equal. cbn [length]. lia. }
  unfold xsct. rewrite !bind_run.
  destruct (negb (fst (opendisplay XOpenDisplay errno w))); [reflexivity |].
  rewrite !bind_run. now rewrite Hparsed.
Qed.

End Sentinel.

Lemma xsct_skips_sentinel_temperature_witness :
  xsct example_atoi example_atof example_strtol example_getenv true 0
    (Z.of_nat (length ["xsct"; "-1000000"; "5000"]%string))
    ["xsct"; "-1000000"; "5000"]%string two_screen_world =
  xsct example_atoi example_atof example_strtol example_getenv true 0
    (Z.of_nat (length ["xsct"; "5000"]%string))
    ["xsct"; "5000"]%string two_screen_world.
Proof.
  apply (xsct_skips_sentinel_temperature example_atoi example_atof
           example_strtol example_getenv true 0 "xsct" "-1000000" ["5000"%string]
           two_screen_world); reflexivity.
Defined.

(** ** The screen option *)

Lemma screen_option_tests (opt : string) :
  opt = "-s"%string \/ opt = "--screen"%string ->
  IS opt "-h" || IS opt "--help" = false /\
  IS opt "-v" || IS opt "--verbose" = false /\
  IS opt "-d" || IS opt "--delta" = false /\
  IS opt "-t" || IS opt "--toggle" = false /\
  IS opt "-s" || IS opt "--screen" || IS opt "-c" || IS opt "--crtc" = true /\
  IS opt "-c" || IS opt "--crtc" = false.
Proof. intros [-> | ->]; repeat split; reflexivity. Qed.

(** [main] on a screen index that is not on the display. *)
Lemma main_bad_screen_run (crtc_arg screen_arg : Z) (verbose : bool)
    (temp_day temp_night flags : Z) (ts : tempstate) (w : World) :
  Z.land flags has_h = 0 -> fail w = false ->
  Z.of_nat (length (display w)) <= screen_arg ->
  exists line,
    main crtc_arg screen_arg verbose temp_day temp_night flags ts w =
    (EXIT_FAILURE,
     mkWorld (display w) (requests w) true (stderr w ++ [(Error, line)]) (stdout w)).
Proof.
  intros Hh Hf Hs. unfold main, XScreenCount, get_fail. rewrite !bind_run.
  cbn [fst snd]. unfold ret at 1. cbn [snd].
  rewrite Hh, Hf. cbn [Z.eqb negb andb].
  replace (screen_arg >=? Z.of_nat (length (display w))) with true by zbool.
  unfold errorargscreen. destruct (_ >? 1); rewrite logerror_run;
    eexists; reflexivity.
Qed.

Section ScreenOption.

Variable atoi : string -> Z.
Variable atof : string -> R.
Variable strtol : string -> option Z.
Variable getenv : string -> option string.
Variable errno : Z.

(** A round of the loop on the screen option with its index. *)
Lemma collectargs_loop_screen (n : nat) (argc : Z) (argv : list string) (i : Z)
    (flags : Z) (g : Globals.t) (ts : tempstate) (w : World) :
  i + 1 < argc ->
  arg_at argv i = "-s"%string \/ arg_at argv i = "--screen"%string ->
  collectargs_loop atoi atof (S n) argc argv i flags g ts w =
  collectargs_loop atoi atof n argc argv (i + 1 + 1) flags
    (Globals.mk (Globals.crtc_arg g) (atoi (arg_at argv (i + 1)))
       (Globals.verbose g) (Globals.temp_day g) (Globals.temp_night g))
    ts w.
Proof.
  intros Hi Hopt. cbn [collectargs_loop].
  replace (i <? argc) with true by zbool. cbv zeta.
  destruct (screen_option_tests _ Hopt) as (-> & -> & -> & -> & -> & Hc).
  rewrite bind_run. unfold collectindex. cbv zeta. rewrite Hc.
  replace (i + 1 <? argc) with true by zbool.
  reflexivity.
Qed.

(** X30: the screen option with a temperature, on an open connection and
    with no error logged before.  The argument after -s or --screen is
    always taken as the index, whatever it looks like.  An index that is
    not below the number of screens ends the run with EXIT_FAILURE, no
    request sent and no table changed; an index on the display has the
    temperature written to that screen alone; and a negative index selects
    every screen, as when no screen is named.  A screen written ends with
    the table of the temperature on the CRTCs the index -1 selects. *)
Theorem xsct_screen_option (prog opt n a : string) (w : World) :
  opt = "-s"%string \/ opt = "--screen"%string ->
  is_option a = false -> atoi a <> MIN_DELTA -> fail w = false ->
  let r := xsct atoi atof strtol getenv true errno 4 [prog; opt; n; a] w in
  let nscreen := Z.of_nat (length (display w)) in
  let target :=
    mkts (if atoi a =? 0
          then env_default strtol (getenv XSCT_TEMPERATURE_DAY) TEMP_NORM
          else atoi a) 1 in
  (nscreen <= atoi n ->
   fst r = EXIT_FAILURE /\ display (snd r) = display w /\
   requests (snd r) = requests w) /\
  (atoi n < nscreen ->
   fst r = EXIT_SUCCESS /\
   (forall j, 0 <= j < nscreen ->
      screen_at (display (snd r)) j =
      if (atoi n <? 0) || (j =? atoi n)
      then screen_at (display (snd (setst false j (-1) target w))) j
      else screen_at (display w) j) /\
   (forall j, 0 <= j < nscreen ->
      screen_at (display (snd r)) j =
      if (atoi n <? 0) || (j =? atoi n)
      then write_crtcs (setst_gamma (temp target))
             (trimdouble (brightness target) 0 1)
             (selected_crtcs (-1) (screen_at (display w) j))
             (screen_at (display w) j)
      else screen_at (display w) j)).
Proof.
  intros Hopt Ha Hta Hfail. cbv zeta.
  destruct (xsct_connected atoi atof strtol getenv true errno 4
              [prog; opt; n; a] w eq_refl) as (lg & _ & E).
  cbv zeta in E. rewrite E. clear E.
  set (D := env_default strtol (getenv XSCT_TEMPERATURE_DAY) TEMP_NORM).
  set (N := env_default strtol (getenv XSCT_TEMPERATURE_NIGHT) 4500).
  assert (Hparsed :
    collectargs atoi atof 4 [prog; opt; n; a] (mkts MIN_DELTA (IZR MIN_DELTA))
      Globals.initial w =
    ((0, Globals.mk (-1) (atoi n) false TEMP_NORM 4500,
      mkts (atoi a) (IZR MIN_DELTA)), w)).
  { unfold collectargs. change (Z.to_nat 4) with 4%nat.
    rewrite collectargs_loop_screen by (lia || exact Hopt).
    change (arg_at [prog; opt; n; a] (1 + 1)) with n.
    rewrite collectargs_loop_plain by (lia || exact Ha).
    cbn [temp brightness]. change (MIN_DELTA =? MIN_DELTA) with true. cbn iota.
    rewrite collectargs_loop_done by lia. reflexivity. }
  rewrite Hparsed.
  cbn [fst snd Globals.crtc_arg Globals.screen_arg Globals.verbose].
  split.
  - intro Hbad.
    destruct (main_bad_screen_run (-1) (atoi n) false D N 0
                (mkts (atoi a) (IZR MIN_DELTA)) (add_stderr w lg)
                eq_refl Hfail Hbad) as (line & ->).
    cbn [fst snd display requests add_stderr]. repeat split; reflexivity.
  - intro Hok. split.
    + rewrite main_status, main_fail.
      cbn [display fail add_stderr Z.land Z.eqb negb andb]. rewrite Hfail.
      replace (atoi n >=? Z.of_nat (length (display w))) with false by zbool.
      reflexivity.
    + assert (Hscreens : forall j, 0 <= j < Z.of_nat (length (display w)) ->
        screen_at
          (display
             (snd (main (-1) (atoi n) false D N 0 (mkts (atoi a) (IZR MIN_DELTA))
                     (add_stderr w lg)))) j =
        if (atoi n <? 0) || (j =? atoi n)
        then screen_write (-1) (mkts (if atoi a =? 0 then D else atoi a) 1)
               (screen_at (display w) j)
        else screen_at (display w) j).
      { intros j Hj.
        rewrite main_sets_screens
          by (cbn [display add_stderr temp]; reflexivity || lia || assumption).
        cbn [display add_stderr temp brightness].
        now rewrite (Reqb_true (IZR MIN_DELTA) (IZR MIN_DELTA)) by reflexivity. }
      split.
      * intros j Hj. rewrite Hscreens by exact Hj.
        now rewrite setst_screen_at by exact Hj.
      * intros j Hj. rewrite Hscreens by exact Hj. reflexivity.
Qed.

End ScreenOption.

Lemma xsct_screen_option_witness :
  let r := xsct example_atoi example_atof example_strtol example_getenv true 0
             4 ["xsct"; "-s"; "-h"; "5000"]%string two_screen_world in
  (Z.of_nat (length (display two_screen_world)) <= example_atoi "-h" ->
   fst r = EXIT_FAILURE /\ display (snd r) = display two_screen_world /\
   requests (snd r) = requests two_screen_world) /\
  (example_atoi "-h" < Z.of_nat (length (display two_screen_world)) ->
   fst r = EXIT_SUCCESS /\
   (forall j, 0 <= j < Z.of_nat (length (display two_screen_world)) ->
      screen_at (display (snd r)) j =
      if (example_atoi "-h" <? 0) || (j =? example_atoi "-h")
      then screen_at (display (snd (setst false j (-1) (mkts 5000 1)
                                      two_screen_world))) j
      else screen_at (display two_screen_world) j) /\
   (forall j, 0 <= j < Z.of_nat (length (display two_screen_world)) ->
      screen_at (display (snd r)) j =
      if (example_atoi "-h" <? 0) || (j =? example_atoi "-h")
      then write_crtcs (setst_gamma 5000) (trimdouble 1 0 1)
             (selected_crtcs (-1) (screen_at (display two_screen_world) j))
             (screen_at (display two_screen_world) j)
      else screen_at (display two_screen_world) j)).
Proof.
  apply (xsct_screen_option example_atoi example_atof example_strtol
           example_getenv 0 "xsct" "-s" "-h" "5000" two_screen_world).
  - now left.
  - reflexivity.
  - vm_compute. discriminate.
  - reflexivity.
Defined.

(** ** Verbosity *)

Section Verbosity.

Variable crtc_arg : Z.
Variable screen_arg : Z.
Variable temp_day : Z.
Variable temp_night : Z.

Lemma toggledaynight_same (v1 v2 : bool) (nscreen : Z) (w1 w2 : World) :
  same_effects w1 w2 ->
  same_effects (snd (toggledaynight crtc_arg v1 temp_day temp_night nscreen w1))
               (snd (toggledaynight crtc_arg v2 temp_day temp_night nscreen w2)).
Proof.
  intros (Hd & Hr & Hf & Ho). rewrite !toggledaynight_run.
  unfold same_effects. cbn [snd display requests fail stdout].
  now rewrite Hd, Hr, Hf, Ho.
Qed.

Lemma printestimate_same (v1 v2 : bool) (first last : Z) (w1 w2 : World) :
  0 <= first -> same_effects w1 w2 ->
  same_effects (snd (printestimate crtc_arg v1 first last w1))
               (snd (printestimate crtc_arg v2 first last w2)).
Proof.
  intros Hfirst (Hd & Hr & Hf & Ho). rewrite !printestimate_run by exact Hfirst.
  unfold same_effects. cbn [snd display requests fail stdout].
  now rewrite Hd, Hr, Hf, Ho.
Qed.

Lemma regularsct_same (v1 v2 : bool) (ts : tempstate) (first last : Z)
    (w1 w2 : World) :
  0 <= first -> same_effects w1 w2 ->
  same_effects (snd (regularsct crtc_arg v1 temp_day ts first last w1))
               (snd (regularsct crtc_arg v2 temp_day ts first last w2)).
Proof.
  intros Hfirst (Hd & Hr & Hf & Ho). unfold regularsct. rewrite !bind_run.
  destruct (temp ts =? 0).
  - unfold ret at 1 2 3 4. cbn [fst snd].
    rewrite !regularsct_loop_run by exact Hfirst.
    unfold same_effects. cbn [snd display requests fail stdout].
    now rewrite Hd, Hr, Hf, Ho.
  - rewrite !boundts_run. cbn [fst snd].
    rewrite !regularsct_loop_run by exact Hfirst.
    unfold same_effects. cbn [snd display requests fail stdout add_stderr].
    now rewrite Hd, Hr, Hf, Ho.
Qed.

Lemma deltasct_same (v1 v2 : bool) (ts : tempstate) (first last : Z)
    (w1 w2 : World) :
  0 <= first -> same_effects w1 w2 ->
  same_effects (snd (deltasct crtc_arg v1 ts first last w1))
               (snd (deltasct crtc_arg v2 ts first last w2)).
Proof.
  intros Hfirst (Hd & Hr & Hf & Ho). unfold deltasct.
  destruct ((temp ts =? MIN_DELTA) || Reqb (brightness ts) (IZR MIN_DELTA)).
  - rewrite !logerror_run. unfold same_effects.
    cbn [snd display requests fail stdout]. now rewrite Hd, Hr, Ho.
  - rewrite !deltasct_loop_run by exact Hfirst.
    unfold same_effects. cbn [snd display requests fail stdout].
    now rewrite Hd, Hr, Hf, Ho.
Qed.

(** X17: verbosity changes the log and nothing else: run with and without
    it on the same display, [main] returns the same exit status, sends the
    same requests in the same order, leaves the same tables and prints the
    same lines, in every mode. *)
Theorem main_verbose_only_logs (flags : Z) (ts : tempstate) (w : World) :
  let quiet := main crtc_arg screen_arg false temp_day temp_night flags ts w in
  let loud := main crtc_arg screen_arg true temp_day temp_night flags ts w in
  fst loud = fst quiet /\
  display (snd loud) = display (snd quiet) /\
  requests (snd loud) = requests (snd quiet) /\
  stdout (snd loud) = stdout (snd quiet) /\
  fail (snd loud) = fail (snd quiet).
Proof.
  cbv zeta.
  assert (Hsame : same_effects
            (snd (main crtc_arg screen_arg true temp_day temp_night flags ts w))
            (snd (main crtc_arg screen_arg false temp_day temp_night flags ts w))).
  { unfold main, XScreenCount, get_fail. rewrite !bind_run. cbn [fst snd].
    unfold ret at 1 2. cbn [snd].
    destruct (negb (Z.land flags has_h =? 0)); [repeat split |].
    destruct (negb (fail w) && (screen_arg >=? Z.of_nat (length (display w))));
      [repeat split |].
    rewrite !bind_run.
    set (wt1 := snd ((if negb (Z.land flags has_t =? 0)
                      then toggledaynight crtc_arg true temp_day temp_night
                             (Z.of_nat (length (display w)))
                      else ret tt) w)).
    set (wt2 := snd ((if negb (Z.land flags has_t =? 0)
                      then toggledaynight crtc_arg false temp_day temp_night
                             (Z.of_nat (length (display w)))
                      else ret tt) w)).
    assert (Ht : same_effects wt1 wt2).
    { unfold wt1, wt2. destruct (negb (Z.land flags has_t =? 0)).
      - apply toggledaynight_same. repeat split.
      - repeat split. }
    clearbody wt1 wt2.
    destruct (Z.geb_spec screen_arg 0) as [Hs0 | Hs0];
      (destruct ((temp _ =? MIN_DELTA) && (Z.land flags has_d =? 0));
       [apply printestimate_same; [lia | exact Ht] |];
       destruct (Z.land flags has_d =? 0);
       [apply regularsct_same; [lia | exact Ht]
       | apply deltasct_same; [lia | exact Ht]]). }
  destruct Hsame as (Hd & Hr & Hf & Ho).
  rewrite !main_status. rewrite Hf. tauto.
Qed.

End Verbosity.

(** ** Toggle mode, table by table *)

Lemma existsb_to_nat (c : Z) (cs : list Z) :
  0 <= c -> (forall x, In x cs -> 0 <= x) ->
  existsb (fun x => (Z.to_nat x =? Z.to_nat c)%nat) cs = existsb (Z.eqb c) cs.
Proof.
  intros Hc Hcs. induction cs as [| x cs IH]; [reflexivity |].
  cbn [existsb]. rewrite IH by (intros y Hy; apply Hcs; now right).
  f_equal. pose proof (Hcs x ltac:(now left)) as Hx.
  destruct (Z.eqb_spec c x) as [-> | Hne].
  - apply Nat.eqb_refl.
  - apply Nat.eqb_neq. lia.
Qed.

(** What [getst] reads on the CRTC the example holds at the day
    temperature. *)
Lemma day_crtc_read : 6450 <= temp (screen_read (-1) [day_crtc]).
Proof.
  assert (H : temp (screen_read (-1) [day_crtc]) = roundtrip unit_ramp 6500).
  { unfold roundtrip. rewrite getst_value, one_crtc_written.
    cbn [temp brightness]. rewrite trimdouble_one. reflexivity. }
  rewrite H.
  assert (Hr : Z.abs (roundtrip unit_ramp 6500 - 6500) <= 50).
  { pose proof ln_700 as HL.
    apply roundtrip_cool;
      try (unfold unit_ramp; rewrite setst_ramp_size; lia);
      try (unfold MINTEMP, TEMP_NORM; lia);
      change (IZR (6500 - (TEMP_NORM - MINTEMP))) with 700%R;
      unfold GAMMA_K0RB, GAMMA_K1RB, GAMMA_K0GB, GAMMA_K1GB; lra. }
  lia.
Qed.

Section Toggle.

Variable crtc_arg : Z.
Variable verbose : bool.
Variable temp_day : Z.
Variable temp_night : Z.

(** C5: toggle mode, on every screen, reads the current state and writes
    the night default when the temperature read is above the day default
    less TOGGLE_DELTA, and the day default otherwise.  The screen ends with
    the table of that temperature, at the brightness read, on every CRTC
    selected and with its other tables as they were; the requests about the
    screen are the GetCrtcGamma of the read followed by the SetCrtcGamma
    that carry this table. *)
Theorem toggle_by_current_temperature (nscreen i : Z) (w : World) :
  0 <= i < nscreen -> nscreen <= Z.of_nat (length (display w)) ->
  let scr := screen_at (display w) i in
  let cur := fst (getst verbose i crtc_arg w) in
  let target :=
    if temp cur >? temp_day - TOGGLE_DELTA then temp_night else temp_day in
  let table := fun c =>
    setst_ramp (setst_gamma target) (trimdouble (brightness cur) 0 1)
      (gamma_size (crtc_at scr c)) in
  let w' := snd (toggledaynight crtc_arg verbose temp_day temp_night nscreen w) in
  screen_at (display w') i =
    write_crtcs (setst_gamma target) (trimdouble (brightness cur) 0 1)
      (selected_crtcs crtc_arg scr) scr /\
  (- 2 ^ 31 <= crtc_arg < 2 ^ 31 -> Z.of_nat (length scr) < 2 ^ 31 ->
   forall c, 0 <= c < Z.of_nat (length scr) ->
     crtc_at (screen_at (display w') i) c =
     if existsb (Z.eqb c) (chosen_crtcs crtc_arg scr)
     then table c else crtc_at scr c) /\
  exists before after,
    requests w' =
      requests w ++ before ++
      (map (GetCrtcGamma i) (selected_crtcs crtc_arg scr) ++
       map (fun c => SetCrtcGamma i c (table c)) (selected_crtcs crtc_arg scr)) ++
      after /\
    (forall r, In r (before ++ after) -> request_screen r <> i).
Proof.
  intros Hi Hn. cbv zeta.
  rewrite toggledaynight_run, getst_value.
  cbn [snd display requests].
  set (scr := screen_at (display w) i).
  set (cur := screen_read crtc_arg scr).
  assert (Hscr :
    screen_at
      (over_screens
         (fun _ scr0 =>
            screen_write crtc_arg
              (toggle_state temp_day temp_night (screen_read crtc_arg scr0)) scr0)
         (seqZ 0 (Z.to_nat nscreen)) (display w)) i =
    write_crtcs
      (setst_gamma (if temp cur >? temp_day - TOGGLE_DELTA
                    then temp_night else temp_day))
      (trimdouble (brightness cur) 0 1) (selected_crtcs crtc_arg scr) scr).
  { rewrite over_screens_at by lia.
    replace ((0 <=? i) && (i <? 0 + Z.of_nat (Z.to_nat nscreen))) with true by zbool.
    reflexivity. }
  split; [exact Hscr |]. split.
  - intros Hc31 Hl31 c Hc. rewrite Hscr. unfold crtc_at.
    rewrite write_crtcs_nth.
    replace (Z.to_nat c <? length scr)%nat with true
      by (symmetry; apply Nat.ltb_lt; lia).
    rewrite andb_true_r.
    rewrite selected_chosen by assumption.
    rewrite existsb_to_nat; [reflexivity | lia |].
    intros x Hx. rewrite <- selected_chosen in Hx by assumption.
    apply selected_crtcs_range in Hx; [lia | assumption | assumption].
  - rewrite (seqZ_split 0 (Z.to_nat nscreen) i) by lia.
    rewrite !flat_map_app. cbn [flat_map]. rewrite app_nil_r.
    eexists _, _. split.
    + unfold read_write_requests at 2. fold scr. fold cur.
      rewrite get_requests_selected. reflexivity.
    + intros r Hr. apply in_app_or in Hr. destruct Hr as [Hr | Hr];
        apply flat_map_requests_screen in Hr;
        try (intros j r0; apply read_write_requests_screen); lia.
Qed.

End Toggle.

Lemma toggle_by_current_temperature_witness :
  let w' := snd (toggledaynight (-1) false 6500 4500 2 day_night_world) in
  let day_read := fst (getst false 0 (-1) day_night_world) in
  let night_read := fst (getst false 1 (-1) day_night_world) in
  ((temp day_read >? 6500 - TOGGLE_DELTA) = true /\
   screen_at (display w') 0 =
     [setst_ramp (setst_gamma 4500) (trimdouble (brightness day_read) 0 1) 256]) /\
  ((temp night_read >? 6500 - TOGGLE_DELTA) = false /\
   screen_at (display w') 1 =
     [setst_ramp (setst_gamma 6500) (trimdouble (brightness night_read) 0 1) 256]).
Proof.
  cbv zeta.
  assert (Hday : (temp (fst (getst false 0 (-1) day_night_world)) >?
                  6500 - TOGGLE_DELTA) = true).
  { rewrite getst_value.
    change (screen_at (display day_night_world) 0) with [day_crtc].
    pose proof day_crtc_read. unfold TOGGLE_DELTA. zbool. }
  assert (Hnight : (temp (fst (getst false 1 (-1) day_night_world)) >?
                    6500 - TOGGLE_DELTA) = false).
  { rewrite getst_value.
    change (screen_at (display day_night_world) 1) with [red_crtc].
    rewrite red_world_read. reflexivity. }
  split; (split; [assumption |]).
  - rewrite (proj1 (toggle_by_current_temperature (-1) false 6500 4500 2 0
                      day_night_world ltac:(lia)
                      ltac:(unfold day_night_world; cbn [display length]; lia))).
    rewrite Hday. reflexivity.
  - rewrite (proj1 (toggle_by_current_temperature (-1) false 6500 4500 2 1
                      day_night_world ltac:(lia)
                      ltac:(unfold day_night_world; cbn [display length]; lia))).
    rewrite Hnight. reflexivity.
Defined.

(** ** Delta mode beside toggle and help *)



